(** * Visiting Card Maker: the server actions of [src/actions/index.ts]

    A shallow embedding of the seven Astro actions (createProfile,
    updateProfile, listProfiles, deleteProfile, createDesign, updateDesign,
    listDesigns) over the two tables declared in the database configuration
    (CardProfiles and CardDesigns), followed by the properties the
    specification states about them.

    Modelling choices.
    - A table is the list of its rows in insertion order.  The drizzle
      statements the handlers issue ([select], [update ... set ... where],
      [insert ... values], [delete ... where], each with [returning]) are
      functions on such lists.
    - [id] is declared [primaryKey] in both tables: an insert whose id is
      already stored is rejected by the store.  [CardDesigns.profileId] is
      declared to reference [CardProfiles.id]; whether the store enforces the
      reference is a setting of the store, kept as the flag [foreign_keys].
    - A handler is a function from the store to a new store and either a
      thrown value or a result.  Nothing is rolled back when a handler
      throws, as in the source, which opens no transaction.
    - [new Date()] and [crypto.randomUUID()] read two oracles, in evaluation
      order.
    - An optional input field is an [option]; [None] stands for a key that is
      absent or [undefined].  Input validation (zod) is not modelled: inputs
      are values of the validated type. *)

From Stdlib Require Import List String ZArith Bool Arith Lia.
Import ListNotations.

Local Open Scope string_scope.
Local Open Scope bool_scope.

Set Implicit Arguments.

(** ** JavaScript truthiness of optional inputs *)

(** [if (input.isDefault)]: an absent flag and [false] are both falsy. *)
Definition truthy_bool (v : option bool) : bool :=
  match v with
  | Some true => true
  | _ => false
  end.

(** [if (input?.profileId)]: an absent string and the empty string are both
    falsy. *)
Definition truthy_string (v : option string) : bool :=
  match v with
  | Some (String _ _) => true
  | _ => false
  end.

(** [a ?? b] *)
Definition nullish {A : Type} (a : option A) (b : A) : A :=
  match a with
  | Some x => x
  | None => b
  end.

(** ** Rows of the two tables *)

Module CardProfiles.

Record row : Type := {
  id : string;
  userId : string;
  profileName : string;
  fullName : string;
  jobTitle : option string;
  companyName : option string;
  email : option string;
  phone : option string;
  secondaryPhone : option string;
  website : option string;
  addressLine1 : option string;
  addressLine2 : option string;
  city : option string;
  state : option string;
  country : option string;
  postalCode : option string;
  notes : option string;
  isDefault : bool;
  createdAt : Z;
  updatedAt : Z
}.

(** [.set({ isDefault: b, updatedAt: t })] *)
Definition set_isDefault (b : bool) (t : Z) (r : row) : row :=
  {| id := id r; userId := userId r;
     profileName := profileName r; fullName := fullName r;
     jobTitle := jobTitle r; companyName := companyName r;
     email := email r; phone := phone r;
     secondaryPhone := secondaryPhone r; website := website r;
     addressLine1 := addressLine1 r; addressLine2 := addressLine2 r;
     city := city r; state := state r; country := country r;
     postalCode := postalCode r; notes := notes r;
     isDefault := b; createdAt := createdAt r; updatedAt := t |}.

End CardProfiles.

Module CardDesigns.

Record row : Type := {
  id : string;
  profileId : string;
  userId : string;
  designName : option string;
  templateKey : option string;
  colorPalette : option string;
  fontConfig : option string;
  layoutConfig : option string;
  logoUrl : option string;
  isFavorite : bool;
  isPrimaryDesign : bool;
  createdAt : Z;
  updatedAt : Z
}.

(** [.set({ isPrimaryDesign: b, updatedAt: t })] *)
Definition set_isPrimaryDesign (b : bool) (t : Z) (r : row) : row :=
  {| id := id r; profileId := profileId r; userId := userId r;
     designName := designName r; templateKey := templateKey r;
     colorPalette := colorPalette r; fontConfig := fontConfig r;
     layoutConfig := layoutConfig r; logoUrl := logoUrl r;
     isFavorite := isFavorite r; isPrimaryDesign := b;
     createdAt := createdAt r; updatedAt := t |}.

End CardDesigns.

(** ** Inputs of the actions (the validated zod objects) *)

Module CreateProfile.
Record input : Type := {
  id : option string;
  profileName : string;
  fullName : string;
  jobTitle : option string;
  companyName : option string;
  email : option string;
  phone : option string;
  secondaryPhone : option string;
  website : option string;
  addressLine1 : option string;
  addressLine2 : option string;
  city : option string;
  state : option string;
  country : option string;
  postalCode : option string;
  notes : option string;
  isDefault : option bool
}.
End CreateProfile.

Module UpdateProfile.
(** [const { id, ...rest } = input]: [rest] is every field but [id]. *)
Record input : Type := {
  id : string;
  profileName : option string;
  fullName : option string;
  jobTitle : option string;
  companyName : option string;
  email : option string;
  phone : option string;
  secondaryPhone : option string;
  website : option string;
  addressLine1 : option string;
  addressLine2 : option string;
  city : option string;
  state : option string;
  country : option string;
  postalCode : option string;
  notes : option string;
  isDefault : option bool
}.
End UpdateProfile.

Module DeleteProfile.
Record input : Type := { id : string }.
End DeleteProfile.

Module CreateDesign.
Record input : Type := {
  id : option string;
  profileId : string;
  designName : option string;
  templateKey : option string;
  colorPalette : option string;
  fontConfig : option string;
  layoutConfig : option string;
  logoUrl : option string;
  isFavorite : option bool;
  isPrimaryDesign : option bool
}.
End CreateDesign.

Module UpdateDesign.
(** [const { id, profileId, ...rest } = input] *)
Record input : Type := {
  id : string;
  profileId : string;
  designName : option string;
  templateKey : option string;
  colorPalette : option string;
  fontConfig : option string;
  layoutConfig : option string;
  logoUrl : option string;
  isFavorite : option bool;
  isPrimaryDesign : option bool
}.
End UpdateDesign.

Module ListDesigns.
Record input : Type := { profileId : option string }.
End ListDesigns.

(** ** The partial update built by the update handlers

    [for (const [key, value] of Object.entries(rest))
       if (typeof value !== "undefined") updateData[key] = value;] *)

(** The key an entry contributes to [updateData]. *)
Definition entry {A : Type} (key : string) (value : option A) : list string :=
  match value with
  | Some _ => [key]
  | None => []
  end.

(** What [.set(updateData)] stores in a required column. *)
Definition assign {A : Type} (value : option A) (stored : A) : A :=
  match value with
  | Some v => v
  | None => stored
  end.

(** What [.set(updateData)] stores in a nullable column. *)
Definition assign_opt {A : Type} (value : option A) (stored : option A)
  : option A :=
  match value with
  | Some v => Some v
  | None => stored
  end.

Module ProfileUpdate.
Import UpdateProfile.

(** [Object.keys(updateData)] *)
Definition updateData_keys (rest : input) : list string :=
  entry "profileName" (profileName rest) ++
  entry "fullName" (fullName rest) ++
  entry "jobTitle" (jobTitle rest) ++
  entry "companyName" (companyName rest) ++
  entry "email" (email rest) ++
  entry "phone" (phone rest) ++
  entry "secondaryPhone" (secondaryPhone rest) ++
  entry "website" (website rest) ++
  entry "addressLine1" (addressLine1 rest) ++
  entry "addressLine2" (addressLine2 rest) ++
  entry "city" (city rest) ++
  entry "state" (state rest) ++
  entry "country" (country rest) ++
  entry "postalCode" (postalCode rest) ++
  entry "notes" (notes rest) ++
  entry "isDefault" (isDefault rest).

(** [.set({ ...updateData, updatedAt: t })] *)
Definition set_updateData (rest : input) (t : Z) (r : CardProfiles.row)
  : CardProfiles.row :=
  {| CardProfiles.id := CardProfiles.id r;
     CardProfiles.userId := CardProfiles.userId r;
     CardProfiles.profileName :=
       assign (profileName rest) (CardProfiles.profileName r);
     CardProfiles.fullName :=
       assign (fullName rest) (CardProfiles.fullName r);
     CardProfiles.jobTitle :=
       assign_opt (jobTitle rest) (CardProfiles.jobTitle r);
     CardProfiles.companyName :=
       assign_opt (companyName rest) (CardProfiles.companyName r);
     CardProfiles.email := assign_opt (email rest) (CardProfiles.email r);
     CardProfiles.phone := assign_opt (phone rest) (CardProfiles.phone r);
     CardProfiles.secondaryPhone :=
       assign_opt (secondaryPhone rest) (CardProfiles.secondaryPhone r);
     CardProfiles.website :=
       assign_opt (website rest) (CardProfiles.website r);
     CardProfiles.addressLine1 :=
       assign_opt (addressLine1 rest) (CardProfiles.addressLine1 r);
     CardProfiles.addressLine2 :=
       assign_opt (addressLine2 rest) (CardProfiles.addressLine2 r);
     CardProfiles.city := assign_opt (city rest) (CardProfiles.city r);
     CardProfiles.state := assign_opt (state rest) (CardProfiles.state r);
     CardProfiles.country :=
       assign_opt (country rest) (CardProfiles.country r);
     CardProfiles.postalCode :=
       assign_opt (postalCode rest) (CardProfiles.postalCode r);
     CardProfiles.notes := assign_opt (notes rest) (CardProfiles.notes r);
     CardProfiles.isDefault :=
       assign (isDefault rest) (CardProfiles.isDefault r);
     CardProfiles.createdAt := CardProfiles.createdAt r;
     CardProfiles.updatedAt := t |}.
End ProfileUpdate.

Module DesignUpdate.
Import UpdateDesign.

(** [Object.keys(updateData)] *)
Definition updateData_keys (rest : input) : list string :=
  entry "designName" (designName rest) ++
  entry "templateKey" (templateKey rest) ++
  entry "colorPalette" (colorPalette rest) ++
  entry "fontConfig" (fontConfig rest) ++
  entry "layoutConfig" (layoutConfig rest) ++
  entry "logoUrl" (logoUrl rest) ++
  entry "isFavorite" (isFavorite rest) ++
  entry "isPrimaryDesign" (isPrimaryDesign rest).

(** [.set({ ...updateData, updatedAt: t })] *)
Definition set_updateData (rest : input) (t : Z) (r : CardDesigns.row)
  : CardDesigns.row :=
  {| CardDesigns.id := CardDesigns.id r;
     CardDesigns.profileId := CardDesigns.profileId r;
     CardDesigns.userId := CardDesigns.userId r;
     CardDesigns.designName :=
       assign_opt (designName rest) (CardDesigns.designName r);
     CardDesigns.templateKey :=
       assign_opt (templateKey rest) (CardDesigns.templateKey r);
     CardDesigns.colorPalette :=
       assign_opt (colorPalette rest) (CardDesigns.colorPalette r);
     CardDesigns.fontConfig :=
       assign_opt (fontConfig rest) (CardDesigns.fontConfig r);
     CardDesigns.layoutConfig :=
       assign_opt (layoutConfig rest) (CardDesigns.layoutConfig r);
     CardDesigns.logoUrl :=
       assign_opt (logoUrl rest) (CardDesigns.logoUrl r);
     CardDesigns.isFavorite :=
       assign (isFavorite rest) (CardDesigns.isFavorite r);
     CardDesigns.isPrimaryDesign :=
       assign (isPrimaryDesign rest) (CardDesigns.isPrimaryDesign r);
     CardDesigns.createdAt := CardDesigns.createdAt r;
     CardDesigns.updatedAt := t |}.
End DesignUpdate.

(** ** Statements on one table *)

Section Table.
Variable R : Type.
Variable key : R -> string.

(** [select().from(T).where(c)] *)
Definition rows_where (c : R -> bool) (t : list R) : list R := filter c t.

(** The table after [update(T).set(f).where(c)]. *)
Definition rows_update (c : R -> bool) (f : R -> R) (t : list R) : list R :=
  map (fun r => if c r then f r else r) t.

(** What [update(T).set(f).where(c).returning()] returns. *)
Definition rows_updated (c : R -> bool) (f : R -> R) (t : list R) : list R :=
  map f (filter c t).

(** The table after [delete(T).where(c)]. *)
Definition rows_delete (c : R -> bool) (t : list R) : list R :=
  filter (fun r => negb (c r)) t.

(** Does the table hold a row with this primary key? *)
Definition key_taken (k : string) (t : list R) : bool :=
  existsb (fun r => key r =? k) t.

(** The primary-key constraint: no two rows share a key. *)
Fixpoint keys_unique (t : list R) : bool :=
  match t with
  | [] => true
  | r :: t' => negb (key_taken (key r) t') && keys_unique t'
  end.
End Table.

(** ** The request context *)

(** The authenticated user of [App.Locals]; [user_id] is [user.id]. *)
Record User : Type := { user_id : string }.
Record Locals : Type := { user : option User }.
Record ActionAPIContext : Type := { locals : option Locals }.

(** ** The store, the oracles and the handler monad *)

Record Store : Type := {
  profiles : list CardProfiles.row;      (* table CardProfiles *)
  designs : list CardDesigns.row;        (* table CardDesigns *)
  dates_read : nat;                      (* evaluations of [new Date()] *)
  uuids_read : nat                       (* calls of [crypto.randomUUID()] *)
}.

Record Env : Type := {
  clock : nat -> Z;             (* the value of the n-th [new Date()] *)
  uuid : nat -> string;         (* the value of the n-th [randomUUID()] *)
  foreign_keys : bool           (* does the store enforce [references]? *)
}.

Inductive ErrorCode : Type := UNAUTHORIZED | NOT_FOUND.

(** What a handler can throw: an [ActionError] of its own, or the store's
    rejection of a statement that violates a declared constraint. *)
Inductive Thrown : Type :=
| ActionError (code : ErrorCode)
| ConstraintViolation.

Definition Handler (A : Type) : Type := Env -> Store -> Store * (Thrown + A).

Definition ret {A : Type} (a : A) : Handler A := fun _ st => (st, inr a).

Definition throw {A : Type} (e : Thrown) : Handler A := fun _ st => (st, inl e).

Definition bind {A B : Type} (m : Handler A) (k : A -> Handler B) : Handler B :=
  fun env st =>
    match m env st with
    | (st', inr a) => k a env st'
    | (st', inl e) => (st', inl e)
    end.

Notation "x <- m ;; k" := (bind m (fun x => k))
  (at level 61, m at next level, right associativity).
Notation "m ;;; k" := (bind m (fun _ => k))
  (at level 61, right associativity).

Definition with_profiles (t : list CardProfiles.row) (st : Store) : Store :=
  {| profiles := t; designs := designs st;
     dates_read := dates_read st; uuids_read := uuids_read st |}.

Definition with_designs (t : list CardDesigns.row) (st : Store) : Store :=
  {| profiles := profiles st; designs := t;
     dates_read := dates_read st; uuids_read := uuids_read st |}.

(** [new Date()] *)
Definition newDate : Handler Z :=
  fun env st =>
    ({| profiles := profiles st; designs := designs st;
        dates_read := S (dates_read st); uuids_read := uuids_read st |},
     inr (clock env (dates_read st))).

(** [crypto.randomUUID()] *)
Definition randomUUID : Handler string :=
  fun env st =>
    ({| profiles := profiles st; designs := designs st;
        dates_read := dates_read st; uuids_read := S (uuids_read st) |},
     inr (uuid env (uuids_read st))).

(** *** Statements on CardProfiles *)

Definition select_profiles (c : CardProfiles.row -> bool)
  : Handler (list CardProfiles.row) :=
  fun _ st => (st, inr (rows_where c (profiles st))).

Definition update_profiles (f : CardProfiles.row -> CardProfiles.row)
  (c : CardProfiles.row -> bool) : Handler (list CardProfiles.row) :=
  fun _ st =>
    (with_profiles (rows_update c f (profiles st)) st,
     inr (rows_updated c f (profiles st))).

Definition insert_profile (r : CardProfiles.row)
  : Handler (list CardProfiles.row) :=
  fun _ st =>
    if key_taken CardProfiles.id (CardProfiles.id r) (profiles st)
    then (st, inl ConstraintViolation)
    else (with_profiles (profiles st ++ [r]) st, inr [r]).

(** Is a profile among [gone] referenced by a stored design? *)
Definition referenced (gone : list CardProfiles.row)
  (ds : list CardDesigns.row) : bool :=
  existsb (fun d =>
    key_taken CardProfiles.id (CardDesigns.profileId d) gone) ds.

Definition delete_profiles (c : CardProfiles.row -> bool)
  : Handler (list CardProfiles.row) :=
  fun env st =>
    let gone := rows_where c (profiles st) in
    if foreign_keys env && referenced gone (designs st)
    then (st, inl ConstraintViolation)
    else (with_profiles (rows_delete c (profiles st)) st, inr gone).

(** *** Statements on CardDesigns *)

Definition select_designs (c : CardDesigns.row -> bool)
  : Handler (list CardDesigns.row) :=
  fun _ st => (st, inr (rows_where c (designs st))).

Definition update_designs (f : CardDesigns.row -> CardDesigns.row)
  (c : CardDesigns.row -> bool) : Handler (list CardDesigns.row) :=
  fun _ st =>
    (with_designs (rows_update c f (designs st)) st,
     inr (rows_updated c f (designs st))).

Definition insert_design (r : CardDesigns.row)
  : Handler (list CardDesigns.row) :=
  fun env st =>
    if key_taken CardDesigns.id (CardDesigns.id r) (designs st)
       || (foreign_keys env
           && negb (key_taken CardProfiles.id (CardDesigns.profileId r)
                      (profiles st)))
    then (st, inl ConstraintViolation)
    else (with_designs (designs st ++ [r]) st, inr [r]).

(** ** The handlers *)

(** [context.locals?.user] *)
Definition context_user (context : ActionAPIContext) : option User :=
  match locals context with
  | Some l => user l
  | None => None
  end.

Definition requireUser (context : ActionAPIContext) : Handler User :=
  match context_user context with
  | None => throw (ActionError UNAUTHORIZED)
  | Some u => ret u
  end.

(** [and(eq(CardProfiles.id, id), eq(CardProfiles.userId, user.id))] *)
Definition profile_is (id : string) (u : User) (r : CardProfiles.row) : bool :=
  (CardProfiles.id r =? id) && (CardProfiles.userId r =? user_id u).

(** [eq(CardProfiles.userId, user.id)] *)
Definition profile_of (u : User) (r : CardProfiles.row) : bool :=
  CardProfiles.userId r =? user_id u.

(** [and(eq(CardDesigns.profileId, profileId),
        eq(CardDesigns.userId, user.id))] *)
Definition design_in (profileId : string) (u : User) (d : CardDesigns.row)
  : bool :=
  (CardDesigns.profileId d =? profileId) && (CardDesigns.userId d =? user_id u).

(** [and(eq(CardDesigns.id, id), eq(CardDesigns.userId, user.id))] *)
Definition design_is (id : string) (u : User) (d : CardDesigns.row) : bool :=
  (CardDesigns.id d =? id) && (CardDesigns.userId d =? user_id u).

(** [eq(CardDesigns.userId, user.id)] *)
Definition design_of (u : User) (d : CardDesigns.row) : bool :=
  CardDesigns.userId d =? user_id u.

(** [.limit(1)] followed by the destructuring [const [x] = ...] *)
Definition first_row {R : Type} (rows : list R) : option R :=
  hd_error (firstn 1 rows).

Definition createProfile (input : CreateProfile.input)
  (context : ActionAPIContext) : Handler (option CardProfiles.row) :=
  user <- requireUser context ;;
  (if truthy_bool (CreateProfile.isDefault input)
   then now <- newDate ;;
        update_profiles (CardProfiles.set_isDefault false now)
                        (profile_of user) ;;;
        ret tt
   else ret tt) ;;;
  new_id <- match CreateProfile.id input with
            | Some i => ret i
            | None => randomUUID
            end ;;
  created <- newDate ;;
  updated <- newDate ;;
  rows <- insert_profile
    {| CardProfiles.id := new_id;
       CardProfiles.userId := user_id user;
       CardProfiles.profileName := CreateProfile.profileName input;
       CardProfiles.fullName := CreateProfile.fullName input;
       CardProfiles.jobTitle := CreateProfile.jobTitle input;
       CardProfiles.companyName := CreateProfile.companyName input;
       CardProfiles.email := CreateProfile.email input;
       CardProfiles.phone := CreateProfile.phone input;
       CardProfiles.secondaryPhone := CreateProfile.secondaryPhone input;
       CardProfiles.website := CreateProfile.website input;
       CardProfiles.addressLine1 := CreateProfile.addressLine1 input;
       CardProfiles.addressLine2 := CreateProfile.addressLine2 input;
       CardProfiles.city := CreateProfile.city input;
       CardProfiles.state := CreateProfile.state input;
       CardProfiles.country := CreateProfile.country input;
       CardProfiles.postalCode := CreateProfile.postalCode input;
       CardProfiles.notes := CreateProfile.notes input;
       CardProfiles.isDefault := nullish (CreateProfile.isDefault input) false;
       CardProfiles.createdAt := created;
       CardProfiles.updatedAt := updated |} ;;
  ret (hd_error rows).

Definition updateProfile (input : UpdateProfile.input)
  (context : ActionAPIContext) : Handler (option CardProfiles.row) :=
  user <- requireUser context ;;
  let id := UpdateProfile.id input in
  let rest := input in
  found <- select_profiles (profile_is id user) ;;
  match first_row found with
  | None => throw (ActionError NOT_FOUND)
  | Some existing =>
      (if truthy_bool (UpdateProfile.isDefault rest)
       then now <- newDate ;;
            update_profiles (CardProfiles.set_isDefault false now)
              (fun r => profile_of user r
                        && Bool.eqb (CardProfiles.isDefault r) true) ;;;
            ret tt
       else ret tt) ;;;
      if Nat.eqb (List.length (ProfileUpdate.updateData_keys rest)) 0
      then ret (Some existing)
      else
        now <- newDate ;;
        rows <- update_profiles (ProfileUpdate.set_updateData rest now)
                  (profile_is id user) ;;
        ret (hd_error rows)
  end.

Definition listProfiles (context : ActionAPIContext)
  : Handler (list CardProfiles.row) :=
  user <- requireUser context ;;
  select_profiles (profile_of user).

Definition deleteProfile (input : DeleteProfile.input)
  (context : ActionAPIContext) : Handler (option CardProfiles.row) :=
  user <- requireUser context ;;
  rows <- delete_profiles (profile_is (DeleteProfile.id input) user) ;;
  match hd_error rows with
  | None => throw (ActionError NOT_FOUND)
  | Some deleted => ret (Some deleted)
  end.

Definition createDesign (input : CreateDesign.input)
  (context : ActionAPIContext) : Handler (option CardDesigns.row) :=
  user <- requireUser context ;;
  found <- select_profiles (profile_is (CreateDesign.profileId input) user) ;;
  match first_row found with
  | None => throw (ActionError NOT_FOUND)
  | Some _ =>
      (if truthy_bool (CreateDesign.isPrimaryDesign input)
       then now <- newDate ;;
            update_designs (CardDesigns.set_isPrimaryDesign false now)
              (design_in (CreateDesign.profileId input) user) ;;;
            ret tt
       else ret tt) ;;;
      new_id <- match CreateDesign.id input with
                | Some i => ret i
                | None => randomUUID
                end ;;
      created <- newDate ;;
      updated <- newDate ;;
      rows <- insert_design
        {| CardDesigns.id := new_id;
           CardDesigns.profileId := CreateDesign.profileId input;
           CardDesigns.userId := user_id user;
           CardDesigns.designName := CreateDesign.designName input;
           CardDesigns.templateKey := CreateDesign.templateKey input;
           CardDesigns.colorPalette := CreateDesign.colorPalette input;
           CardDesigns.fontConfig := CreateDesign.fontConfig input;
           CardDesigns.layoutConfig := CreateDesign.layoutConfig input;
           CardDesigns.logoUrl := CreateDesign.logoUrl input;
           CardDesigns.isFavorite :=
             nullish (CreateDesign.isFavorite input) false;
           CardDesigns.isPrimaryDesign :=
             nullish (CreateDesign.isPrimaryDesign input) false;
           CardDesigns.createdAt := created;
           CardDesigns.updatedAt := updated |} ;;
      ret (hd_error rows)
  end.

Definition updateDesign (input : UpdateDesign.input)
  (context : ActionAPIContext) : Handler (option CardDesigns.row) :=
  user <- requireUser context ;;
  let id := UpdateDesign.id input in
  let profileId := UpdateDesign.profileId input in
  let rest := input in
  found <- select_profiles (profile_is profileId user) ;;
  match first_row found with
  | None => throw (ActionError NOT_FOUND)
  | Some _ =>
      found' <- select_designs (design_is id user) ;;
      match first_row found' with
      | None => throw (ActionError NOT_FOUND)
      | Some existing =>
          if negb (CardDesigns.profileId existing =? profileId)
          then throw (ActionError NOT_FOUND)
          else
            (if truthy_bool (UpdateDesign.isPrimaryDesign rest)
             then now <- newDate ;;
                  update_designs (CardDesigns.set_isPrimaryDesign false now)
                    (design_in profileId user) ;;;
                  ret tt
             else ret tt) ;;;
            if Nat.eqb (List.length (DesignUpdate.updateData_keys rest)) 0
            then ret (Some existing)
            else
              now <- newDate ;;
              rows <- update_designs (DesignUpdate.set_updateData rest now)
                        (fun d => CardDesigns.id d =? id) ;;
              ret (hd_error rows)
      end
  end.

(** [input?.profileId] *)
Definition filter_of (input : option ListDesigns.input) : option string :=
  match input with
  | Some i => ListDesigns.profileId i
  | None => None
  end.

(** [allowedProfileIds.has(x)], the set being the ids of [rows]. *)
Definition has_id (rows : list CardProfiles.row) (x : string) : bool :=
  existsb (fun i => i =? x) (map CardProfiles.id rows).

Definition listDesigns (input : option ListDesigns.input)
  (context : ActionAPIContext) : Handler (list CardDesigns.row) :=
  user <- requireUser context ;;
  own <- select_profiles (profile_of user) ;;
  let allowedProfileIds := has_id own in
  let wanted := nullish (filter_of input) EmptyString in
  if truthy_string (filter_of input) && negb (allowedProfileIds wanted)
  then throw (ActionError NOT_FOUND)
  else
    rows <- select_designs (design_of user) ;;
    let filtered :=
      if truthy_string (filter_of input)
      then filter (fun d => CardDesigns.profileId d =? wanted) rows
      else filter (fun d => allowedProfileIds (CardDesigns.profileId d)) rows
    in
    ret filtered.

(** ** The exported object [server] *)

Inductive Request : Type :=
| CreateProfile (input : CreateProfile.input)
| UpdateProfile (input : UpdateProfile.input)
| ListProfiles
| DeleteProfile (input : DeleteProfile.input)
| CreateDesign (input : CreateDesign.input)
| UpdateDesign (input : UpdateDesign.input)
| ListDesigns (input : option ListDesigns.input).

Inductive Response : Type :=
| Profile (profile : option CardProfiles.row)
| Profiles (rows : list CardProfiles.row)
| Design (design : option CardDesigns.row)
| Designs (rows : list CardDesigns.row).

Definition server (req : Request) (context : ActionAPIContext)
  : Handler Response :=
  match req with
  | CreateProfile input => p <- createProfile input context ;; ret (Profile p)
  | UpdateProfile input => p <- updateProfile input context ;; ret (Profile p)
  | ListProfiles => ps <- listProfiles context ;; ret (Profiles ps)
  | DeleteProfile input => p <- deleteProfile input context ;; ret (Profile p)
  | CreateDesign input => d <- createDesign input context ;; ret (Design d)
  | UpdateDesign input => d <- updateDesign input context ;; ret (Design d)
  | ListDesigns input => ds <- listDesigns input context ;; ret (Designs ds)
  end.

(** The keys of [server], in source order. *)
Definition action_name (req : Request) : string :=
  match req with
  | CreateProfile _ => "createProfile"
  | UpdateProfile _ => "updateProfile"
  | ListProfiles => "listProfiles"
  | DeleteProfile _ => "deleteProfile"
  | CreateDesign _ => "createDesign"
  | UpdateDesign _ => "updateDesign"
  | ListDesigns _ => "listDesigns"
  end.

Inductive Entity : Type := EProfile | EDesign.
Inductive Group : Type := GCreate | GUpdate | GList | GDelete.

Definition entity_of (req : Request) : Entity :=
  match req with
  | CreateProfile _ | UpdateProfile _ | ListProfiles | DeleteProfile _ =>
      EProfile
  | CreateDesign _ | UpdateDesign _ | ListDesigns _ => EDesign
  end.

Definition group_of (req : Request) : Group :=
  match req with
  | CreateProfile _ | CreateDesign _ => GCreate
  | UpdateProfile _ | UpdateDesign _ => GUpdate
  | ListProfiles | ListDesigns _ => GList
  | DeleteProfile _ => GDelete
  end.

(** The primary-key constraint on both tables. *)
Definition pk_ok (st : Store) : bool :=
  keys_unique CardProfiles.id (profiles st)
  && keys_unique CardDesigns.id (designs st).

(** ** The stores the service can be in

    The store starts with two empty tables and changes by requests only. *)

Inductive reachable : Store -> Prop :=
| reachable_empty (dates uuids : nat) :
    reachable {| profiles := []; designs := [];
                 dates_read := dates; uuids_read := uuids |}
| reachable_request (st st' : Store) (req : Request)
    (context : ActionAPIContext) (env : Env) (res : Thrown + Response) :
    reachable st ->
    server req context env st = (st', res) ->
    reachable st'.

(** ** The vocabulary of the properties

    The definitions of this part follow the words of the specification;
    the properties compare them with the handlers above. *)

(** The caller owns a stored profile with this id. *)
Definition owns_profile (st : Store) (u : User) (id : string) : Prop :=
  exists r, In r (profiles st)
            /\ CardProfiles.id r = id /\ CardProfiles.userId r = user_id u.

(** The caller owns a stored design with this id. *)
Definition owns_design (st : Store) (u : User) (id : string) : Prop :=
  exists d, In d (designs st)
            /\ CardDesigns.id d = id /\ CardDesigns.userId d = user_id u.

(** The profile or design a request refers to does not exist or belongs
    to another user.  For listDesigns the reference is a profileId filter
    other than the empty string. *)
Definition target_missing (u : User) (st : Store) (req : Request) : Prop :=
  match req with
  | UpdateProfile input => ~ owns_profile st u (UpdateProfile.id input)
  | DeleteProfile input => ~ owns_profile st u (DeleteProfile.id input)
  | CreateDesign input => ~ owns_profile st u (CreateDesign.profileId input)
  | UpdateDesign input =>
      ~ owns_profile st u (UpdateDesign.profileId input)
      \/ ~ owns_design st u (UpdateDesign.id input)
  | ListDesigns input =>
      exists p, filter_of input = Some p /\ p <> EmptyString
                /\ ~ owns_profile st u p
  | CreateProfile _ | ListProfiles => False
  end.

(** The rows a caller does not own. *)
Definition foreign_profile (u : User) (r : CardProfiles.row) : bool :=
  negb (profile_of u r).

Definition foreign_design (u : User) (d : CardDesigns.row) : bool :=
  negb (design_of u d).

(** The caller's default profiles. *)
Definition default_of (u : User) (r : CardProfiles.row) : bool :=
  profile_of u r && CardProfiles.isDefault r.

(** The caller's primary designs of one profile. *)
Definition primary_in (profileId : string) (u : User) (d : CardDesigns.row)
  : bool :=
  design_in profileId u d && CardDesigns.isPrimaryDesign d.

Module Provided.

(** Every optional field of an updateProfile input is omitted or
    undefined. *)
Definition nothing_for_profile (rest : UpdateProfile.input) : Prop :=
  UpdateProfile.profileName rest = None /\
  UpdateProfile.fullName rest = None /\
  UpdateProfile.jobTitle rest = None /\
  UpdateProfile.companyName rest = None /\
  UpdateProfile.email rest = None /\
  UpdateProfile.phone rest = None /\
  UpdateProfile.secondaryPhone rest = None /\
  UpdateProfile.website rest = None /\
  UpdateProfile.addressLine1 rest = None /\
  UpdateProfile.addressLine2 rest = None /\
  UpdateProfile.city rest = None /\
  UpdateProfile.state rest = None /\
  UpdateProfile.country rest = None /\
  UpdateProfile.postalCode rest = None /\
  UpdateProfile.notes rest = None /\
  UpdateProfile.isDefault rest = None.

(** Every optional field of an updateDesign input is omitted or
    undefined. *)
Definition nothing_for_design (rest : UpdateDesign.input) : Prop :=
  UpdateDesign.designName rest = None /\
  UpdateDesign.templateKey rest = None /\
  UpdateDesign.colorPalette rest = None /\
  UpdateDesign.fontConfig rest = None /\
  UpdateDesign.layoutConfig rest = None /\
  UpdateDesign.logoUrl rest = None /\
  UpdateDesign.isFavorite rest = None /\
  UpdateDesign.isPrimaryDesign rest = None.

End Provided.

Module Merge.

(** A provided value overwrites the stored one; an omitted or undefined
    one leaves it. *)
Definition overwrites {A : Type} (provided : option A) (stored result : A)
  : Prop :=
  match provided with
  | Some v => result = v
  | None => result = stored
  end.

(** The same for a nullable column. *)
Definition overwrites_opt {A : Type} (provided : option A)
  (stored result : option A) : Prop :=
  match provided with
  | Some v => result = Some v
  | None => result = stored
  end.

(** [result] is [stored] with exactly the provided fields of an
    updateProfile input written over it. *)
Definition profile (input : UpdateProfile.input)
  (stored result : CardProfiles.row) : Prop :=
  overwrites (UpdateProfile.profileName input)
    (CardProfiles.profileName stored) (CardProfiles.profileName result) /\
  overwrites (UpdateProfile.fullName input)
    (CardProfiles.fullName stored) (CardProfiles.fullName result) /\
  overwrites_opt (UpdateProfile.jobTitle input)
    (CardProfiles.jobTitle stored) (CardProfiles.jobTitle result) /\
  overwrites_opt (UpdateProfile.companyName input)
    (CardProfiles.companyName stored) (CardProfiles.companyName result) /\
  overwrites_opt (UpdateProfile.email input)
    (CardProfiles.email stored) (CardProfiles.email result) /\
  overwrites_opt (UpdateProfile.phone input)
    (CardProfiles.phone stored) (CardProfiles.phone result) /\
  overwrites_opt (UpdateProfile.secondaryPhone input)
    (CardProfiles.secondaryPhone stored)
    (CardProfiles.secondaryPhone result) /\
  overwrites_opt (UpdateProfile.website input)
    (CardProfiles.website stored) (CardProfiles.website result) /\
  overwrites_opt (UpdateProfile.addressLine1 input)
    (CardProfiles.addressLine1 stored) (CardProfiles.addressLine1 result) /\
  overwrites_opt (UpdateProfile.addressLine2 input)
    (CardProfiles.addressLine2 stored) (CardProfiles.addressLine2 result) /\
  overwrites_opt (UpdateProfile.city input)
    (CardProfiles.city stored) (CardProfiles.city result) /\
  overwrites_opt (UpdateProfile.state input)
    (CardProfiles.state stored) (CardProfiles.state result) /\
  overwrites_opt (UpdateProfile.country input)
    (CardProfiles.country stored) (CardProfiles.country result) /\
  overwrites_opt (UpdateProfile.postalCode input)
    (CardProfiles.postalCode stored) (CardProfiles.postalCode result) /\
  overwrites_opt (UpdateProfile.notes input)
    (CardProfiles.notes stored) (CardProfiles.notes result) /\
  overwrites (UpdateProfile.isDefault input)
    (CardProfiles.isDefault stored) (CardProfiles.isDefault result).

(** [result] is [stored] with exactly the provided fields of an
    updateDesign input written over it. *)
Definition design (input : UpdateDesign.input)
  (stored result : CardDesigns.row) : Prop :=
  overwrites_opt (UpdateDesign.designName input)
    (CardDesigns.designName stored) (CardDesigns.designName result) /\
  overwrites_opt (UpdateDesign.templateKey input)
    (CardDesigns.templateKey stored) (CardDesigns.templateKey result) /\
  overwrites_opt (UpdateDesign.colorPalette input)
    (CardDesigns.colorPalette stored) (CardDesigns.colorPalette result) /\
  overwrites_opt (UpdateDesign.fontConfig input)
    (CardDesigns.fontConfig stored) (CardDesigns.fontConfig result) /\
  overwrites_opt (UpdateDesign.layoutConfig input)
    (CardDesigns.layoutConfig stored) (CardDesigns.layoutConfig result) /\
  overwrites_opt (UpdateDesign.logoUrl input)
    (CardDesigns.logoUrl stored) (CardDesigns.logoUrl result) /\
  overwrites (UpdateDesign.isFavorite input)
    (CardDesigns.isFavorite stored) (CardDesigns.isFavorite result) /\
  overwrites (UpdateDesign.isPrimaryDesign input)
    (CardDesigns.isPrimaryDesign stored)
    (CardDesigns.isPrimaryDesign result).

End Merge.

(** ** Further vocabulary

    The id a creating handler gives the new row, the columns no handler
    writes after the insert, and the stores of a service whose store
    enforces the declared reference. *)

(** [input.id ?? crypto.randomUUID()] *)
Definition id_for (given : option string) (env : Env) (st : Store) : string :=
  nullish given (uuid env (uuids_read st)).






(** ** A small scenario used in the examples below *)

Module Scenario.

Definition alice : User := {| user_id := "alice" |}.
Definition bob : User := {| user_id := "bob" |}.

Definition signed_in (u : User) : ActionAPIContext :=
  {| locals := Some {| user := Some u |} |}.

Definition anonymous : ActionAPIContext :=
  {| locals := Some {| user := None |} |}.

Definition env (fk : bool) : Env :=
  {| clock := fun n => (1000 + Z.of_nat n)%Z;
     uuid := fun n => String (Ascii.ascii_of_nat (97 + n)) "-uuid";
     foreign_keys := fk |}.

Definition empty : Store :=
  {| profiles := []; designs := []; dates_read := 0; uuids_read := 0 |}.

Definition new_profile (id : string) (name : string) (dflt : option bool)
  : CreateProfile.input :=
  {| CreateProfile.id := Some id;
     CreateProfile.profileName := name;
     CreateProfile.fullName := "A. Person";
     CreateProfile.jobTitle := None;
     CreateProfile.companyName := Some "ACME";
     CreateProfile.email := None;
     CreateProfile.phone := None;
     CreateProfile.secondaryPhone := None;
     CreateProfile.website := None;
     CreateProfile.addressLine1 := None;
     CreateProfile.addressLine2 := None;
     CreateProfile.city := None;
     CreateProfile.state := None;
     CreateProfile.country := None;
     CreateProfile.postalCode := None;
     CreateProfile.notes := None;
     CreateProfile.isDefault := dflt |}.

Definition new_design (id : string) (profileId : string)
  (primary : option bool) : CreateDesign.input :=
  {| CreateDesign.id := Some id;
     CreateDesign.profileId := profileId;
     CreateDesign.designName := Some "Dark minimal";
     CreateDesign.templateKey := None;
     CreateDesign.colorPalette := None;
     CreateDesign.fontConfig := None;
     CreateDesign.layoutConfig := None;
     CreateDesign.logoUrl := None;
     CreateDesign.isFavorite := None;
     CreateDesign.isPrimaryDesign := primary |}.

(** An update of a profile that provides nothing but, possibly, the
    company name and the default flag. *)
Definition change_profile (id : string) (company : option string)
  (dflt : option bool) : UpdateProfile.input :=
  {| UpdateProfile.id := id;
     UpdateProfile.profileName := None;
     UpdateProfile.fullName := None;
     UpdateProfile.jobTitle := None;
     UpdateProfile.companyName := company;
     UpdateProfile.email := None;
     UpdateProfile.phone := None;
     UpdateProfile.secondaryPhone := None;
     UpdateProfile.website := None;
     UpdateProfile.addressLine1 := None;
     UpdateProfile.addressLine2 := None;
     UpdateProfile.city := None;
     UpdateProfile.state := None;
     UpdateProfile.country := None;
     UpdateProfile.postalCode := None;
     UpdateProfile.notes := None;
     UpdateProfile.isDefault := dflt |}.

(** An update of a design that provides nothing but, possibly, the
    design name and the primary flag. *)
Definition change_design (id : string) (profileId : string)
  (name : option string) (primary : option bool) : UpdateDesign.input :=
  {| UpdateDesign.id := id;
     UpdateDesign.profileId := profileId;
     UpdateDesign.designName := name;
     UpdateDesign.templateKey := None;
     UpdateDesign.colorPalette := None;
     UpdateDesign.fontConfig := None;
     UpdateDesign.layoutConfig := None;
     UpdateDesign.logoUrl := None;
     UpdateDesign.isFavorite := None;
     UpdateDesign.isPrimaryDesign := primary |}.

(** Runs requests one after the other, each by its own caller, and keeps
    the last store. *)
Fixpoint run (e : Env) (calls : list (User * Request)) (st : Store) : Store :=
  match calls with
  | [] => st
  | (u, req) :: rest => run e rest (fst (server req (signed_in u) e st))
  end.

(** Alice has two profiles, the first with two designs and the second
    with one; Bob has one profile with one design. *)
Definition populated (fk : bool) : Store :=
  run (env fk)
    [ (alice, CreateProfile (new_profile "pA" "Main" (Some true)));
      (alice, CreateProfile (new_profile "pB" "Freelance" None));
      (bob, CreateProfile (new_profile "pC" "Bob" (Some true)));
      (alice, CreateDesign (new_design "d1" "pA" (Some true)));
      (alice, CreateDesign (new_design "d2" "pA" None));
      (alice, CreateDesign (new_design "d3" "pB" (Some true)));
      (bob, CreateDesign (new_design "d4" "pC" (Some true))) ]
    empty.

End Scenario.

(** Further stores and inputs for the examples. *)

Module Cases.
Import Scenario.

(** Alice alone, with one default profile. *)
Definition one_default : Store :=
  run (env true)
    [ (alice, CreateProfile (new_profile "pA" "Main" (Some true))) ] empty.

(** A profile whose id is the empty string, which the input type of
    createProfile admits, next to an ordinary one, each with a design. *)
Definition unnamed : Store :=
  run (env true)
    [ (alice, CreateProfile (new_profile EmptyString "Blank" None));
      (alice, CreateProfile (new_profile "pA" "Main" None));
      (alice, CreateDesign (new_design "d0" EmptyString None));
      (alice, CreateDesign (new_design "d1" "pA" None)) ]
    empty.

(** The populated store after Alice deleted her second profile, in a store
    that does not enforce the reference from designs to profiles. *)
Definition orphaned : Store :=
  run (env false)
    [ (alice, DeleteProfile {| DeleteProfile.id := "pB" |}) ]
    (populated false).

Definition empty_filter : option ListDesigns.input :=
  Some {| ListDesigns.profileId := Some EmptyString |}.

Definition by_profile (id : string) : option ListDesigns.input :=
  Some {| ListDesigns.profileId := Some id |}.

End Cases.

(** Callers, stores and inputs of the further examples. *)

Module Calls.
Import Scenario.

Definition as_alice : ActionAPIContext := signed_in alice.
Definition as_bob : ActionAPIContext := signed_in bob.

(** A store that enforces the reference, and one that does not. *)
Definition strict : Env := env true.
Definition lax : Env := env false.
Definition store : Store := populated true.
Definition lax_store : Store := populated false.

(** A profile under an id Bob has taken, asked to be the default. *)
Definition taken_profile : CreateProfile.input :=
  new_profile "pC" "Mine" (Some true).

(** A third profile of Alice, not asked to be the default. *)
Definition third_profile : CreateProfile.input :=
  new_profile "pD" "Third" None.

(** A fourth profile, asked to be the default. *)
Definition fourth_profile : CreateProfile.input :=
  new_profile "pE" "Fourth" (Some true).

(** A design under an id Bob has taken, asked to be the primary one. *)
Definition taken_design : CreateDesign.input :=
  new_design "d4" "pA" (Some true).

(** A further design of Alice's first profile. *)
Definition further_design : CreateDesign.input :=
  new_design "d9" "pA" None.

Definition remove (id : string) : DeleteProfile.input :=
  {| DeleteProfile.id := id |}.

End Calls.

(** * Properties *)

(** ** Facts about the statements on one table *)

Section TableFacts.
Variable R : Type.
Variable key : R -> string.

Lemma key_taken_true (k : string) (t : list R) :
  key_taken key k t = true <-> exists r, In r t /\ key r = k.
Proof.
  unfold key_taken. rewrite existsb_exists.
  split; intros [r [Hin Hk]]; exists r; split; auto.
  - now apply String.eqb_eq.
  - now apply String.eqb_eq.
Qed.

Lemma key_taken_false (k : string) (t : list R) :
  key_taken key k t = false <-> forall r, In r t -> key r <> k.
Proof.
  split.
  - intros Hf r Hin Hk.
    assert (key_taken key k t = true) as Ht
      by (apply key_taken_true; eauto).
    congruence.
  - intros Hall. destruct (key_taken key k t) eqn:E; auto.
    apply key_taken_true in E. destruct E as [r [Hin Hk]].
    exfalso. eapply Hall; eauto.
Qed.

Lemma key_taken_keys (k : string) (t1 t2 : list R) :
  map key t1 = map key t2 -> key_taken key k t1 = key_taken key k t2.
Proof.
  revert t2. induction t1 as [|a t1 IH]; intros [|b t2] H; simpl in *;
    try discriminate; auto.
  injection H as Hk Ht. rewrite Hk. f_equal. auto.
Qed.

Lemma keys_unique_keys (t1 t2 : list R) :
  map key t1 = map key t2 -> keys_unique key t1 = keys_unique key t2.
Proof.
  revert t2. induction t1 as [|a t1 IH]; intros [|b t2] H; simpl in *;
    try discriminate; auto.
  injection H as Hk Ht. rewrite Hk.
  rewrite (key_taken_keys (key b) t1 t2 Ht). f_equal. auto.
Qed.

(** Two stored rows with the same key are the same row. *)
Lemma keys_unique_same (t : list R) (a b : R) :
  keys_unique key t = true -> In a t -> In b t -> key a = key b -> a = b.
Proof.
  induction t as [|r t IH]; simpl; intros Hu Ha Hb Hk; [contradiction|].
  apply andb_true_iff in Hu. destruct Hu as [Hfresh Hu].
  apply negb_true_iff in Hfresh.
  destruct Ha as [Ha|Ha], Hb as [Hb|Hb]; subst; auto.
  - exfalso. eapply (proj1 (key_taken_false _ _) Hfresh); eauto.
  - exfalso. eapply (proj1 (key_taken_false _ _) Hfresh); eauto.
Qed.

Lemma keys_unique_filter (c : R -> bool) (t : list R) :
  keys_unique key t = true -> keys_unique key (filter c t) = true.
Proof.
  induction t as [|r t IH]; simpl; auto. intros Hu.
  apply andb_true_iff in Hu. destruct Hu as [Hfresh Hu].
  destruct (c r); simpl; auto.
  rewrite IH by assumption. rewrite andb_true_r.
  apply negb_true_iff in Hfresh. apply negb_true_iff.
  apply key_taken_false. intros x Hx.
  apply filter_In in Hx. destruct Hx as [Hx _].
  now apply (proj1 (key_taken_false _ _) Hfresh).
Qed.

Lemma key_taken_app (k : string) (t1 t2 : list R) :
  key_taken key k (t1 ++ t2) = key_taken key k t1 || key_taken key k t2.
Proof. unfold key_taken. apply existsb_app. Qed.

(** An insert that passes the primary-key check keeps the keys unique. *)
Lemma keys_unique_insert (r : R) (t : list R) :
  keys_unique key t = true -> key_taken key (key r) t = false ->
  keys_unique key (t ++ [r]) = true.
Proof.
  induction t as [|a t IH]; simpl; intros Hu Hfresh; auto.
  apply andb_true_iff in Hu. destruct Hu as [Ha Hu].
  apply orb_false_iff in Hfresh. destruct Hfresh as [Har Hfresh].
  rewrite IH by assumption. rewrite andb_true_r.
  rewrite key_taken_app. simpl.
  apply negb_true_iff in Ha. rewrite Ha. simpl.
  rewrite orb_false_r. rewrite String.eqb_sym. now rewrite Har.
Qed.

Lemma rows_update_keys (c : R -> bool) (f : R -> R) (t : list R) :
  (forall r, key (f r) = key r) ->
  map key (rows_update c f t) = map key t.
Proof.
  intros Hf. unfold rows_update. rewrite map_map. apply map_ext.
  intros r. destruct (c r); auto.
Qed.

(** An update that leaves the key column alone keeps the keys unique. *)
Lemma keys_unique_update (c : R -> bool) (f : R -> R) (t : list R) :
  (forall r, key (f r) = key r) ->
  keys_unique key (rows_update c f t) = keys_unique key t.
Proof. intros Hf. apply keys_unique_keys. now apply rows_update_keys. Qed.

Lemma filter_nothing (P : R -> bool) (t : list R) :
  (forall r, In r t -> P r = false) -> filter P t = [].
Proof.
  induction t as [|r t IH]; simpl; intros H; auto.
  rewrite (H r) by auto. apply IH. intros x Hx. apply H. auto.
Qed.

(** A condition that pins the key selects at most the one row that
    carries it. *)
Lemma rows_where_unique (c : R -> bool) (k : string) (t : list R) (e : R) :
  keys_unique key t = true ->
  (forall r, c r = true -> key r = k) ->
  In e t -> c e = true ->
  rows_where c t = [e].
Proof.
  unfold rows_where.
  induction t as [|r t IH]; simpl; intros Hu Hc Hin He; [contradiction|].
  apply andb_true_iff in Hu. destruct Hu as [Hfresh Hu].
  apply negb_true_iff in Hfresh.
  destruct Hin as [->|Hin].
  - rewrite He. f_equal. apply filter_nothing. intros x Hx.
    destruct (c x) eqn:Ex; auto. exfalso.
    apply (proj1 (key_taken_false _ _) Hfresh x Hx).
    rewrite (Hc x Ex), (Hc e He). reflexivity.
  - destruct (c r) eqn:Er.
    + exfalso. apply (proj1 (key_taken_false _ _) Hfresh e Hin).
      rewrite (Hc r Er), (Hc e He). reflexivity.
    + auto.
Qed.

(** Rows outside the condition, and conditions blind to the change, do
    not see an update. *)
Lemma filter_update_frame (Q c : R -> bool) (f : R -> R) (t : list R) :
  (forall r, In r t -> c r = true -> Q r = false /\ Q (f r) = false) ->
  filter Q (rows_update c f t) = filter Q t.
Proof.
  unfold rows_update.
  induction t as [|r t IH]; simpl; intros H; auto.
  rewrite IH by (intros x Hx; apply H; auto).
  destruct (c r) eqn:Er; auto.
  destruct (H r (or_introl eq_refl) Er) as [H1 H2]. now rewrite H1, H2.
Qed.

Lemma filter_delete_frame (Q c : R -> bool) (t : list R) :
  (forall r, In r t -> c r = true -> Q r = false) ->
  filter Q (rows_delete c t) = filter Q t.
Proof.
  unfold rows_delete.
  induction t as [|r t IH]; simpl; intros H; auto.
  destruct (c r) eqn:Er; simpl.
  - rewrite (H r (or_introl eq_refl) Er). apply IH. intros x Hx. apply H. auto.
  - rewrite IH by (intros x Hx; apply H; auto). reflexivity.
Qed.

Lemma filter_insert_frame (Q : R -> bool) (r : R) (t : list R) :
  Q r = false -> filter Q (t ++ [r]) = filter Q t.
Proof.
  intros H. rewrite filter_app. simpl. rewrite H. apply app_nil_r.
Qed.

(** When no row satisfies [P] before an update whose every written row
    does, the rows that satisfy [P] afterwards are the written ones. *)
Lemma filter_update_fresh (P c : R -> bool) (f : R -> R) (t : list R) :
  (forall r, In r t -> P r = false) ->
  (forall r, In r t -> c r = true -> P (f r) = true) ->
  filter P (rows_update c f t) = rows_updated c f t.
Proof.
  unfold rows_update, rows_updated.
  induction t as [|r t IH]; simpl; intros Hnone Hset; auto.
  destruct (c r) eqn:Er; simpl.
  - rewrite (Hset r (or_introl eq_refl) Er). f_equal.
    apply IH; intros; auto.
  - rewrite (Hnone r (or_introl eq_refl)). apply IH; intros; auto.
Qed.

Lemma In_rows_update (c : R -> bool) (f : R -> R) (t : list R) (x : R) :
  In x (rows_update c f t) <->
  exists r, In r t /\ x = (if c r then f r else r).
Proof.
  unfold rows_update. rewrite in_map_iff.
  split; intros [r [H1 H2]]; exists r; split; auto.
Qed.

Lemma first_row_where (c : R -> bool) (t : list R) (e : R) :
  first_row (rows_where c t) = Some e -> In e t /\ c e = true.
Proof.
  unfold first_row, rows_where. intros H.
  destruct (filter c t) as [|a l] eqn:E; simpl in H; [discriminate|].
  injection H as ->. apply filter_In. rewrite E. now left.
Qed.

Lemma first_row_none (c : R -> bool) (t : list R) :
  first_row (rows_where c t) = None <-> forall r, In r t -> c r = false.
Proof.
  unfold first_row, rows_where. split.
  - intros H r Hin. destruct (c r) eqn:Er; auto.
    assert (In r (filter c t)) as Hf by (apply filter_In; auto).
    destruct (filter c t); simpl in *; [contradiction|discriminate].
  - intros H. now rewrite filter_nothing.
Qed.

End TableFacts.

(** ** Stepping through a handler *)

Lemma requireUser_signed_in (context : ActionAPIContext) (u : User)
  (env : Env) (st : Store) :
  context_user context = Some u -> requireUser context env st = (st, inr u).
Proof. intros H. unfold requireUser. now rewrite H. Qed.

Lemma requireUser_anonymous (context : ActionAPIContext)
  (env : Env) (st : Store) :
  context_user context = None ->
  requireUser context env st = (st, inl (ActionError UNAUTHORIZED)).
Proof. intros H. unfold requireUser. now rewrite H. Qed.

Ltac unfold_statements :=
  unfold select_profiles, update_profiles, insert_profile, delete_profiles,
    select_designs, update_designs, insert_design, newDate, randomUUID,
    ret, throw in *.

Ltac unfold_handlers :=
  unfold server, createProfile, updateProfile, listProfiles, deleteProfile,
    createDesign, updateDesign, listDesigns, bind in *.

(** Splits on the next test a handler's result is waiting for. *)
Ltac next_test :=
  match goal with
  | |- context [match ?x with _ => _ end] =>
      lazymatch x with
      | context [match _ with _ => _ end] => fail
      | _ => destruct x eqn:?
      end
  end.

Lemma with_profiles_same (st : Store) : with_profiles (profiles st) st = st.
Proof. now destruct st. Qed.

Lemma profile_is_true (id : string) (u : User) (r : CardProfiles.row) :
  profile_is id u r = true <->
  CardProfiles.id r = id /\ CardProfiles.userId r = user_id u.
Proof.
  unfold profile_is. rewrite andb_true_iff, !String.eqb_eq. tauto.
Qed.

Lemma design_is_true (id : string) (u : User) (d : CardDesigns.row) :
  design_is id u d = true <->
  CardDesigns.id d = id /\ CardDesigns.userId d = user_id u.
Proof.
  unfold design_is. rewrite andb_true_iff, !String.eqb_eq. tauto.
Qed.

Lemma design_in_true (pid : string) (u : User) (d : CardDesigns.row) :
  design_in pid u d = true <->
  CardDesigns.profileId d = pid /\ CardDesigns.userId d = user_id u.
Proof.
  unfold design_in. rewrite andb_true_iff, !String.eqb_eq. tauto.
Qed.

(** ** C8: the ownership guard *)

Lemma server_without_user (req : Request) (context : ActionAPIContext)
  (env : Env) (st : Store) :
  context_user context = None ->
  server req context env st = (st, inl (ActionError UNAUTHORIZED)).
Proof.
  intros H. destruct req; unfold_handlers;
    now rewrite (requireUser_anonymous _ _ _ H).
Qed.

Lemma server_with_user (req : Request) (context : ActionAPIContext)
  (env : Env) (st : Store) (u : User) :
  context_user context = Some u ->
  snd (server req context env st) <> inl (ActionError UNAUTHORIZED).
Proof.
  intros H. destruct req; unfold_handlers;
    rewrite (requireUser_signed_in _ _ _ H); unfold_statements;
    repeat (simpl; next_test); simpl; try discriminate;
    repeat match goal with
           | E : (_, _) = (_, _) |- _ => inversion E; subst; clear E
           end; try discriminate.
Qed.

(** C8. Every operation fails with [UNAUTHORIZED] when the context carries
    no authenticated user, and it does so before any effect: the store,
    tables and oracles alike, is the one it was given.  When a user is
    present no operation fails with [UNAUTHORIZED]. *)
Theorem unauthorized_exactly_without_user (req : Request)
  (context : ActionAPIContext) (env : Env) (st : Store) :
  (context_user context = None ->
   server req context env st = (st, inl (ActionError UNAUTHORIZED))) /\
  (forall u, context_user context = Some u ->
   snd (server req context env st) <> inl (ActionError UNAUTHORIZED)).
Proof.
  split.
  - apply server_without_user.
  - intros u. apply server_with_user.
Qed.

(** ** C5: an update that provides nothing *)

Ltac none_or_absurd H x :=
  destruct x; [simpl in H; discriminate H|].

Lemma profile_keys_empty (rest : UpdateProfile.input) :
  Nat.eqb (List.length (ProfileUpdate.updateData_keys rest)) 0 = true <->
  Provided.nothing_for_profile rest.
Proof.
  unfold ProfileUpdate.updateData_keys, Provided.nothing_for_profile.
  destruct rest as [i f1 f2 f3 f4 f5 f6 f7 f8 f9 f10 f11 f12 f13 f14 f15 f16].
  cbn [UpdateProfile.profileName UpdateProfile.fullName UpdateProfile.jobTitle
       UpdateProfile.companyName UpdateProfile.email UpdateProfile.phone
       UpdateProfile.secondaryPhone UpdateProfile.website
       UpdateProfile.addressLine1 UpdateProfile.addressLine2
       UpdateProfile.city UpdateProfile.state UpdateProfile.country
       UpdateProfile.postalCode UpdateProfile.notes UpdateProfile.isDefault].
  split.
  - intros H.
    none_or_absurd H f1. none_or_absurd H f2. none_or_absurd H f3.
    none_or_absurd H f4. none_or_absurd H f5. none_or_absurd H f6.
    none_or_absurd H f7. none_or_absurd H f8. none_or_absurd H f9.
    none_or_absurd H f10. none_or_absurd H f11. none_or_absurd H f12.
    none_or_absurd H f13. none_or_absurd H f14. none_or_absurd H f15.
    none_or_absurd H f16. repeat split.
  - intros H. decompose [and] H. subst. reflexivity.
Qed.

Lemma design_keys_empty (rest : UpdateDesign.input) :
  Nat.eqb (List.length (DesignUpdate.updateData_keys rest)) 0 = true <->
  Provided.nothing_for_design rest.
Proof.
  unfold DesignUpdate.updateData_keys, Provided.nothing_for_design.
  destruct rest as [i p f1 f2 f3 f4 f5 f6 f7 f8].
  cbn [UpdateDesign.designName UpdateDesign.templateKey
       UpdateDesign.colorPalette UpdateDesign.fontConfig
       UpdateDesign.layoutConfig UpdateDesign.logoUrl
       UpdateDesign.isFavorite UpdateDesign.isPrimaryDesign].
  split.
  - intros H.
    none_or_absurd H f1. none_or_absurd H f2. none_or_absurd H f3.
    none_or_absurd H f4. none_or_absurd H f5. none_or_absurd H f6.
    none_or_absurd H f7. none_or_absurd H f8. repeat split.
  - intros H. decompose [and] H. subst. reflexivity.
Qed.

(** The lookup [select ... where id = .. and userId = .. limit 1] finds a
    stored row of the caller, and under the primary key no other. *)
Lemma lookup_profile (st : Store) (u : User) (r : CardProfiles.row) :
  pk_ok st = true -> In r (profiles st) ->
  CardProfiles.userId r = user_id u ->
  rows_where (profile_is (CardProfiles.id r) u) (profiles st) = [r].
Proof.
  intros Hpk Hin Hu. apply andb_true_iff in Hpk. destruct Hpk as [Hpk _].
  apply rows_where_unique with (key := CardProfiles.id)
    (k := CardProfiles.id r); auto.
  - intros x Hx. now apply profile_is_true in Hx.
  - now apply profile_is_true.
Qed.

Lemma lookup_design (st : Store) (u : User) (d : CardDesigns.row) :
  pk_ok st = true -> In d (designs st) ->
  CardDesigns.userId d = user_id u ->
  rows_where (design_is (CardDesigns.id d) u) (designs st) = [d].
Proof.
  intros Hpk Hin Hu. apply andb_true_iff in Hpk. destruct Hpk as [_ Hpk].
  apply rows_where_unique with (key := CardDesigns.id)
    (k := CardDesigns.id d); auto.
  - intros x Hx. now apply design_is_true in Hx.
  - now apply design_is_true.
Qed.

Lemma updateProfile_nothing (input : UpdateProfile.input)
  (context : ActionAPIContext) (env : Env) (st : Store) (u : User)
  (r : CardProfiles.row) :
  context_user context = Some u -> pk_ok st = true ->
  In r (profiles st) ->
  CardProfiles.id r = UpdateProfile.id input ->
  CardProfiles.userId r = user_id u ->
  Provided.nothing_for_profile input ->
  updateProfile input context env st = (st, inr (Some r)).
Proof.
  intros Hu Hpk Hin Hid Hown Hnone.
  unfold updateProfile, bind. rewrite (requireUser_signed_in _ _ _ Hu).
  unfold select_profiles. rewrite <- Hid, (lookup_profile _ _ _ Hpk Hin Hown).
  cbn [first_row firstn hd_error].
  rewrite (proj2 (profile_keys_empty input) Hnone).
  destruct Hnone
    as (_ & _ & _ & _ & _ & _ & _ & _ & _ & _ & _ & _ & _ & _ & _ & H).
  rewrite H. reflexivity.
Qed.

Lemma updateDesign_nothing (input : UpdateDesign.input)
  (context : ActionAPIContext) (env : Env) (st : Store) (u : User)
  (p : CardProfiles.row) (d : CardDesigns.row) :
  context_user context = Some u -> pk_ok st = true ->
  In p (profiles st) ->
  CardProfiles.id p = UpdateDesign.profileId input ->
  CardProfiles.userId p = user_id u ->
  In d (designs st) ->
  CardDesigns.id d = UpdateDesign.id input ->
  CardDesigns.userId d = user_id u ->
  CardDesigns.profileId d = UpdateDesign.profileId input ->
  Provided.nothing_for_design input ->
  updateDesign input context env st = (st, inr (Some d)).
Proof.
  intros Hu Hpk Hp Hpid Hpown Hd Hid Hown Hsame Hnone.
  unfold updateDesign, bind. rewrite (requireUser_signed_in _ _ _ Hu).
  unfold select_profiles, select_designs.
  rewrite <- Hpid, (lookup_profile _ _ _ Hpk Hp Hpown).
  cbn [first_row firstn hd_error].
  rewrite <- Hid, (lookup_design _ _ _ Hpk Hd Hown).
  cbn [first_row firstn hd_error].
  rewrite Hpid, Hsame, String.eqb_refl. cbn [negb].
  rewrite (proj2 (design_keys_empty input) Hnone).
  destruct Hnone as (_ & _ & _ & _ & _ & _ & _ & H).
  rewrite H. reflexivity.
Qed.

(** Whatever its outcome, an update that provides nothing leaves the store
    as it was. *)
Lemma updateProfile_nothing_writes_nothing (input : UpdateProfile.input)
  (context : ActionAPIContext) (env : Env) (st st' : Store)
  (res : Thrown + option CardProfiles.row) :
  Provided.nothing_for_profile input ->
  updateProfile input context env st = (st', res) -> st' = st.
Proof.
  intros Hnone. unfold updateProfile, bind, requireUser.
  rewrite (proj2 (profile_keys_empty input) Hnone).
  destruct Hnone
    as (_ & _ & _ & _ & _ & _ & _ & _ & _ & _ & _ & _ & _ & _ & _ & H).
  rewrite H. cbn [truthy_bool]. unfold_statements.
  destruct (context_user context); [|intros E; now inversion E].
  destruct (first_row _); intros E; now inversion E.
Qed.

Lemma updateDesign_nothing_writes_nothing (input : UpdateDesign.input)
  (context : ActionAPIContext) (env : Env) (st st' : Store)
  (res : Thrown + option CardDesigns.row) :
  Provided.nothing_for_design input ->
  updateDesign input context env st = (st', res) -> st' = st.
Proof.
  intros Hnone. unfold updateDesign, bind, requireUser.
  rewrite (proj2 (design_keys_empty input) Hnone).
  destruct Hnone as (_ & _ & _ & _ & _ & _ & _ & H).
  rewrite H. cbn [truthy_bool]. unfold_statements.
  destruct (context_user context); [|intros E; now inversion E].
  destruct (first_row _); [|intros E; now inversion E].
  destruct (first_row _); [|intros E; now inversion E].
  destruct (negb _); intros E; now inversion E.
Qed.

(** C5. An updateProfile or updateDesign call on an owned record (for a
    design: the input names the design's profile, which the caller owns)
    that provides none of the optional fields returns the stored record as
    it is and writes nothing: the store after the call is the store before
    it, so the record, its [updatedAt] included, and every other row of both
    tables are untouched.  That nothing is written does not depend on the
    record being found. *)
Theorem empty_update_is_a_no_op (context : ActionAPIContext) (env : Env)
  (st : Store) (u : User) :
  context_user context = Some u -> pk_ok st = true ->
  (forall (input : UpdateProfile.input) (r : CardProfiles.row),
      In r (profiles st) ->
      CardProfiles.id r = UpdateProfile.id input ->
      CardProfiles.userId r = user_id u ->
      Provided.nothing_for_profile input ->
      updateProfile input context env st = (st, inr (Some r))) /\
  (forall (input : UpdateDesign.input) (p : CardProfiles.row)
          (d : CardDesigns.row),
      In p (profiles st) ->
      CardProfiles.id p = UpdateDesign.profileId input ->
      CardProfiles.userId p = user_id u ->
      In d (designs st) ->
      CardDesigns.id d = UpdateDesign.id input ->
      CardDesigns.userId d = user_id u ->
      CardDesigns.profileId d = UpdateDesign.profileId input ->
      Provided.nothing_for_design input ->
      updateDesign input context env st = (st, inr (Some d))) /\
  (forall (input : UpdateProfile.input) st' res,
      Provided.nothing_for_profile input ->
      updateProfile input context env st = (st', res) -> st' = st) /\
  (forall (input : UpdateDesign.input) st' res,
      Provided.nothing_for_design input ->
      updateDesign input context env st = (st', res) -> st' = st).
Proof.
  intros Hu Hpk. repeat split; intros.
  - eapply updateProfile_nothing; eauto.
  - eapply updateDesign_nothing; eauto.
  - eapply updateProfile_nothing_writes_nothing; eauto.
  - eapply updateDesign_nothing_writes_nothing; eauto.
Qed.

(** ** C1: one default profile per user *)

Lemma rows_where_at_most_one (R : Type) (key : R -> string) (c : R -> bool)
  (k : string) (t : list R) :
  keys_unique key t = true ->
  (forall r, c r = true -> key r = k) ->
  rows_where c t = [] \/ exists e, In e t /\ rows_where c t = [e].
Proof.
  intros Hu Hc. destruct (rows_where c t) as [|a l] eqn:E; auto.
  right. exists a.
  assert (In a t /\ c a = true) as [Hin Ha].
  { apply filter_In. unfold rows_where in E. rewrite E. now left. }
  split; auto. rewrite <- E.
  apply rows_where_unique with (key := key) (k := k); auto.
Qed.

Lemma profile_keys_with_isDefault (rest : UpdateProfile.input) (b : bool) :
  UpdateProfile.isDefault rest = Some b ->
  Nat.eqb (List.length (ProfileUpdate.updateData_keys rest)) 0 = false.
Proof.
  intros H. apply Nat.eqb_neq. unfold ProfileUpdate.updateData_keys.
  rewrite H. rewrite !length_app. simpl. lia.
Qed.

Lemma clear_all_defaults (u : User) (t : Z) (rows : list CardProfiles.row) :
  forall r,
    In r (rows_update (profile_of u)
            (CardProfiles.set_isDefault false t) rows) ->
    default_of u r = false.
Proof.
  intros r Hr. apply In_rows_update in Hr. destruct Hr as [x [_ ->]].
  unfold default_of. destruct (profile_of u x) eqn:E.
  - simpl. apply andb_false_r.
  - now rewrite E.
Qed.

Lemma clear_set_defaults (u : User) (t : Z) (rows : list CardProfiles.row) :
  forall r,
    In r (rows_update
            (fun r => profile_of u r
                      && Bool.eqb (CardProfiles.isDefault r) true)
            (CardProfiles.set_isDefault false t) rows) ->
    default_of u r = false.
Proof.
  intros r Hr. apply In_rows_update in Hr. destruct Hr as [x [_ ->]].
  unfold default_of.
  destruct (profile_of u x) eqn:E, (CardProfiles.isDefault x) eqn:D; simpl;
    unfold profile_of in *; simpl; rewrite ?E, ?D; auto.
Qed.

Lemma createProfile_single_default (input : CreateProfile.input)
  (context : ActionAPIContext) (env : Env) (st st' : Store) (u : User)
  (p : CardProfiles.row) :
  context_user context = Some u ->
  CreateProfile.isDefault input = Some true ->
  createProfile input context env st = (st', inr (Some p)) ->
  rows_where (default_of u) (profiles st') = [p].
Proof.
  intros Hu Hdef. unfold createProfile, bind.
  rewrite (requireUser_signed_in _ _ _ Hu), Hdef.
  cbn [truthy_bool nullish]. unfold_statements.
  destruct (CreateProfile.id input) as [i|];
    cbn [profiles designs dates_read uuids_read with_profiles fst snd];
    match goal with
    | |- context [key_taken ?k ?i ?t] => destruct (key_taken k i t)
    end; intros H; inversion H; subst; clear H;
    cbn [profiles with_profiles hd_error]; unfold rows_where;
    rewrite filter_app;
    rewrite (filter_nothing _ _ (clear_all_defaults u _ _));
    cbn [filter app]; unfold default_of, profile_of;
    cbn [CardProfiles.userId CardProfiles.isDefault];
    rewrite String.eqb_refl; reflexivity.
Qed.

Lemma updateProfile_single_default (input : UpdateProfile.input)
  (context : ActionAPIContext) (env : Env) (st st' : Store) (u : User)
  (p : CardProfiles.row) :
  context_user context = Some u -> pk_ok st = true ->
  UpdateProfile.isDefault input = Some true ->
  updateProfile input context env st = (st', inr (Some p)) ->
  rows_where (default_of u) (profiles st') = [p]
  /\ CardProfiles.id p = UpdateProfile.id input.
Proof.
  intros Hu Hpk Hdef. unfold updateProfile, bind.
  rewrite (requireUser_signed_in _ _ _ Hu), Hdef.
  rewrite (profile_keys_with_isDefault _ Hdef).
  cbn [truthy_bool]. unfold_statements.
  destruct (first_row _) as [existing|]; [|discriminate].
  cbn [profiles designs dates_read uuids_read with_profiles fst snd].
  set (cleared := rows_update _ (CardProfiles.set_isDefault false _) _).
  set (f := ProfileUpdate.set_updateData input _).
  intros H. inversion H as [[Hst Hp]]. clear H Hst.
  cbn [profiles with_profiles].
  assert (keys_unique CardProfiles.id cleared = true) as Hkeys.
  { apply andb_true_iff in Hpk. destruct Hpk as [Hpk _].
    unfold cleared. rewrite keys_unique_update; auto. }
  destruct (@rows_where_at_most_one _ CardProfiles.id
              (profile_is (UpdateProfile.id input) u)
              (UpdateProfile.id input) cleared Hkeys) as [E|[e [He E]]].
  { intros r Hr. now apply profile_is_true in Hr. }
  { unfold rows_updated in Hp. unfold rows_where in E. rewrite E in Hp.
    discriminate. }
  unfold rows_where.
  rewrite filter_update_fresh.
  - unfold rows_updated in *. unfold rows_where in E. rewrite E in *.
    simpl in Hp. injection Hp as <-. split; auto.
    assert (In e (filter (profile_is (UpdateProfile.id input) u) cleared))
      as Hin by (rewrite E; now left).
    apply filter_In in Hin. destruct Hin as [_ Hin].
    apply profile_is_true in Hin. unfold f. simpl. tauto.
  - apply clear_set_defaults.
  - intros r _ Hr. apply profile_is_true in Hr. destruct Hr as [_ Hr].
    unfold default_of, profile_of, f. simpl. rewrite Hdef, Hr. simpl.
    now rewrite String.eqb_refl.
Qed.

(** ** C2: one primary design per user and profile *)


Lemma clear_all_primaries (pid : string) (u : User) (t : Z)
  (rows : list CardDesigns.row) :
  forall d,
    In d (rows_update (design_in pid u)
            (CardDesigns.set_isPrimaryDesign false t) rows) ->
    primary_in pid u d = false.
Proof.
  intros d Hd. apply In_rows_update in Hd. destruct Hd as [x [_ ->]].
  unfold primary_in. destruct (design_in pid u x) eqn:E.
  - simpl. apply andb_false_r.
  - now rewrite E.
Qed.




(** ** C4: the partial update *)

Lemma overwrites_assign {A : Type} (provided : option A) (stored : A) :
  Merge.overwrites provided stored (assign provided stored).
Proof. now destruct provided. Qed.

Lemma overwrites_assign_opt {A : Type} (provided stored : option A) :
  Merge.overwrites_opt provided stored (assign_opt provided stored).
Proof. now destruct provided. Qed.

(** The row written by [.set(updateData)] is the stored row with the
    provided fields written over it. *)
Lemma set_updateData_profile (input : UpdateProfile.input) (t : Z)
  (r : CardProfiles.row) :
  Merge.profile input r (ProfileUpdate.set_updateData input t r).
Proof.
  unfold Merge.profile, ProfileUpdate.set_updateData. simpl.
  repeat split; auto using overwrites_assign, overwrites_assign_opt.
Qed.

Lemma set_updateData_design (input : UpdateDesign.input) (t : Z)
  (d : CardDesigns.row) :
  Merge.design input d (DesignUpdate.set_updateData input t d).
Proof.
  unfold Merge.design, DesignUpdate.set_updateData. simpl.
  repeat split; auto using overwrites_assign, overwrites_assign_opt.
Qed.

(** An update whose condition pins the key of a stored row writes that
    row and returns it. *)
Lemma update_by_key (R : Type) (key : R -> string) (c : R -> bool)
  (f : R -> R) (k : string) (t : list R) (e : R) :
  keys_unique key t = true ->
  (forall r, c r = true -> key r = k) ->
  In e t -> c e = true ->
  rows_updated c f t = [f e] /\ In (f e) (rows_update c f t).
Proof.
  intros Hu Hc Hin He. split.
  - unfold rows_updated.
    change (filter c t) with (rows_where c t).
    now rewrite (@rows_where_unique R key c k t e Hu Hc Hin He).
  - apply In_rows_update. exists e. rewrite He. auto.
Qed.

Lemma updateProfile_merges (input : UpdateProfile.input)
  (context : ActionAPIContext) (env : Env) (st : Store) (u : User)
  (r : CardProfiles.row) :
  context_user context = Some u -> pk_ok st = true ->
  In r (profiles st) ->
  CardProfiles.id r = UpdateProfile.id input ->
  CardProfiles.userId r = user_id u ->
  exists st' p,
    updateProfile input context env st = (st', inr (Some p))
    /\ In p (profiles st')
    /\ CardProfiles.id p = CardProfiles.id r
    /\ CardProfiles.userId p = CardProfiles.userId r
    /\ CardProfiles.createdAt p = CardProfiles.createdAt r
    /\ Merge.profile input r p.
Proof.
  intros Hu Hpk Hin Hid Hown.
  destruct (Nat.eqb (List.length (ProfileUpdate.updateData_keys input)) 0)
    eqn:K.
  - (* nothing provided: the stored row is returned *)
    apply profile_keys_empty in K.
    exists st, r. split; [now apply updateProfile_nothing with (u := u)|].
    repeat split; auto; unfold Provided.nothing_for_profile in K;
      decompose [and] K;
      match goal with
      | H : ?f input = None |- Merge.overwrites (?f input) _ _ =>
          rewrite H; reflexivity
      | H : ?f input = None |- Merge.overwrites_opt (?f input) _ _ =>
          rewrite H; reflexivity
      end.
  - unfold updateProfile, bind. rewrite (requireUser_signed_in _ _ _ Hu).
    unfold select_profiles.
    rewrite <- Hid, (lookup_profile _ _ _ Hpk Hin Hown), Hid.
    cbn [first_row firstn hd_error]. rewrite K.
    assert (keys_unique CardProfiles.id (profiles st) = true) as Hkeys
      by (apply andb_true_iff in Hpk; tauto).
    assert (forall x, profile_is (UpdateProfile.id input) u x = true ->
                      CardProfiles.id x = UpdateProfile.id input) as Hpin
      by (intros x Hx; now apply profile_is_true in Hx).
    destruct (truthy_bool (UpdateProfile.isDefault input)) eqn:T.
    + (* the caller's defaults are cleared first *)
      assert (UpdateProfile.isDefault input = Some true) as Hdef
        by (destruct (UpdateProfile.isDefault input) as [[|]|];
            simpl in T; congruence).
      unfold_statements.
      cbn [profiles designs dates_read uuids_read with_profiles fst snd].
      set (c0 := fun x => profile_of u x
                          && Bool.eqb (CardProfiles.isDefault x) true).
      set (g := CardProfiles.set_isDefault false _).
      set (cleared := rows_update c0 g (profiles st)).
      set (f := ProfileUpdate.set_updateData input _).
      set (e1 := if c0 r then g r else r).
      assert (In e1 cleared) as He1
        by (apply In_rows_update; exists r; auto).
      assert (profile_is (UpdateProfile.id input) u e1 = true) as Hc1.
      { apply profile_is_true. unfold e1. destruct (c0 r); simpl; auto. }
      assert (keys_unique CardProfiles.id cleared = true) as Hkeys1
        by (unfold cleared; rewrite keys_unique_update; auto).
      destruct (@update_by_key _ CardProfiles.id _ f _ cleared e1
                  Hkeys1 Hpin He1 Hc1)
        as [Hret Hstored].
      rewrite Hret. cbn [hd_error].
      eexists. exists (f e1). split; [reflexivity|].
      cbn [profiles]. split; [exact Hstored|].
      pose proof (set_updateData_profile input
                    (clock env (S (dates_read st))) e1) as Hm.
      fold f in Hm.
      assert (CardProfiles.isDefault (f e1) = true) as Hflag
        by (unfold f; simpl; now rewrite Hdef).
      unfold Merge.profile in *. rewrite Hdef in *.
      unfold e1 in *. destruct (c0 r); simpl in *; tauto.
    + unfold_statements.
      cbn [profiles designs dates_read uuids_read with_profiles fst snd].
      set (f := ProfileUpdate.set_updateData input _).
      assert (profile_is (UpdateProfile.id input) u r = true) as Hc
        by (apply profile_is_true; auto).
      destruct (@update_by_key _ CardProfiles.id _ f _ (profiles st) r
                  Hkeys Hpin Hin Hc) as [Hret Hstored].
      rewrite Hret. cbn [hd_error].
      eexists. exists (f r). split; [reflexivity|].
      cbn [profiles]. split; [exact Hstored|].
      split; [exact Hid|]. split; [reflexivity|]. split; [reflexivity|].
      apply set_updateData_profile.
Qed.

Lemma updateDesign_merges (input : UpdateDesign.input)
  (context : ActionAPIContext) (env : Env) (st : Store) (u : User)
  (p : CardProfiles.row) (d : CardDesigns.row) :
  context_user context = Some u -> pk_ok st = true ->
  In p (profiles st) ->
  CardProfiles.id p = UpdateDesign.profileId input ->
  CardProfiles.userId p = user_id u ->
  In d (designs st) ->
  CardDesigns.id d = UpdateDesign.id input ->
  CardDesigns.userId d = user_id u ->
  CardDesigns.profileId d = UpdateDesign.profileId input ->
  exists st' d',
    updateDesign input context env st = (st', inr (Some d'))
    /\ In d' (designs st')
    /\ CardDesigns.id d' = CardDesigns.id d
    /\ CardDesigns.userId d' = CardDesigns.userId d
    /\ CardDesigns.profileId d' = CardDesigns.profileId d
    /\ CardDesigns.createdAt d' = CardDesigns.createdAt d
    /\ Merge.design input d d'.
Proof.
  intros Hu Hpk Hp Hpid Hpown Hd Hid Hown Hsame.
  destruct (Nat.eqb (List.length (DesignUpdate.updateData_keys input)) 0)
    eqn:K.
  - (* nothing provided: the stored row is returned *)
    apply design_keys_empty in K.
    exists st, d.
    split; [now apply updateDesign_nothing with (u := u) (p := p)|].
    repeat split; auto; unfold Provided.nothing_for_design in K;
      decompose [and] K;
      match goal with
      | H : ?f input = None |- Merge.overwrites (?f input) _ _ =>
          rewrite H; reflexivity
      | H : ?f input = None |- Merge.overwrites_opt (?f input) _ _ =>
          rewrite H; reflexivity
      end.
  - unfold updateDesign, bind. rewrite (requireUser_signed_in _ _ _ Hu).
    unfold select_profiles, select_designs.
    rewrite <- Hpid, (lookup_profile _ _ _ Hpk Hp Hpown), Hpid.
    cbn [first_row firstn hd_error].
    rewrite <- Hid, (lookup_design _ _ _ Hpk Hd Hown), Hid.
    cbn [first_row firstn hd_error].
    rewrite Hsame, String.eqb_refl. cbn [negb]. rewrite K.
    assert (keys_unique CardDesigns.id (designs st) = true) as Hkeys
      by (apply andb_true_iff in Hpk; tauto).
    set (c := fun d0 : CardDesigns.row =>
                CardDesigns.id d0 =? UpdateDesign.id input).
    assert (forall x, c x = true ->
                      CardDesigns.id x = UpdateDesign.id input) as Hpin
      by (intros x Hx; now apply String.eqb_eq in Hx).
    destruct (truthy_bool (UpdateDesign.isPrimaryDesign input)) eqn:T.
    + (* the primary flags of the profile are cleared first *)
      assert (UpdateDesign.isPrimaryDesign input = Some true) as Hprim
        by (destruct (UpdateDesign.isPrimaryDesign input) as [[|]|];
            simpl in T; congruence).
      unfold_statements.
      cbn [profiles designs dates_read uuids_read with_designs fst snd].
      set (c0 := design_in (UpdateDesign.profileId input) u).
      set (g := CardDesigns.set_isPrimaryDesign false _).
      set (cleared := rows_update c0 g (designs st)).
      set (f := DesignUpdate.set_updateData input _).
      set (e1 := if c0 d then g d else d).
      assert (In e1 cleared) as He1
        by (apply In_rows_update; exists d; auto).
      assert (c e1 = true) as Hc1.
      { unfold c. apply String.eqb_eq. unfold e1.
        destruct (c0 d); simpl; auto. }
      assert (keys_unique CardDesigns.id cleared = true) as Hkeys1
        by (unfold cleared; rewrite keys_unique_update; auto).
      destruct (@update_by_key _ CardDesigns.id c f _ cleared e1
                  Hkeys1 Hpin He1 Hc1) as [Hret Hstored].
      rewrite Hret. cbn [hd_error].
      eexists. exists (f e1). split; [reflexivity|].
      cbn [designs]. split; [exact Hstored|].
      pose proof (set_updateData_design input
                    (clock env (S (dates_read st))) e1) as Hm.
      fold f in Hm.
      assert (CardDesigns.isPrimaryDesign (f e1) = true) as Hflag
        by (unfold f; simpl; now rewrite Hprim).
      unfold Merge.design in *. rewrite Hprim in *.
      unfold e1 in *. destruct (c0 d); simpl in *; tauto.
    + unfold_statements.
      cbn [profiles designs dates_read uuids_read with_designs fst snd].
      set (f := DesignUpdate.set_updateData input _).
      assert (c d = true) as Hc
        by (unfold c; rewrite Hid; apply String.eqb_refl).
      destruct (@update_by_key _ CardDesigns.id c f _ (designs st) d
                  Hkeys Hpin Hd Hc) as [Hret Hstored].
      rewrite Hret. cbn [hd_error].
      eexists. exists (f d). split; [reflexivity|].
      cbn [designs]. split; [exact Hstored|].
      split; [exact Hid|]. split; [reflexivity|]. split; [exact Hsame|].
      split; [reflexivity|].
      apply set_updateData_design.
Qed.

(** C4. An updateProfile or updateDesign call on an owned record (for a
    design: the input names the design's profile, which the caller owns)
    succeeds and returns a record that is stored in the resulting table,
    keeps the id, owner and creation date of the record it updates, and in
    which every input field that is provided carries the provided value
    while every field that is omitted or undefined carries the value stored
    before the call. *)
Theorem update_overwrites_provided_fields (context : ActionAPIContext)
  (env : Env) (st : Store) (u : User) :
  context_user context = Some u -> pk_ok st = true ->
  (forall (input : UpdateProfile.input) (r : CardProfiles.row),
      In r (profiles st) ->
      CardProfiles.id r = UpdateProfile.id input ->
      CardProfiles.userId r = user_id u ->
      exists st' p,
        updateProfile input context env st = (st', inr (Some p))
        /\ In p (profiles st')
        /\ CardProfiles.id p = CardProfiles.id r
        /\ CardProfiles.userId p = CardProfiles.userId r
        /\ CardProfiles.createdAt p = CardProfiles.createdAt r
        /\ Merge.profile input r p) /\
  (forall (input : UpdateDesign.input) (p : CardProfiles.row)
          (d : CardDesigns.row),
      In p (profiles st) ->
      CardProfiles.id p = UpdateDesign.profileId input ->
      CardProfiles.userId p = user_id u ->
      In d (designs st) ->
      CardDesigns.id d = UpdateDesign.id input ->
      CardDesigns.userId d = user_id u ->
      CardDesigns.profileId d = UpdateDesign.profileId input ->
      exists st' d',
        updateDesign input context env st = (st', inr (Some d'))
        /\ In d' (designs st')
        /\ CardDesigns.id d' = CardDesigns.id d
        /\ CardDesigns.userId d' = CardDesigns.userId d
        /\ CardDesigns.profileId d' = CardDesigns.profileId d
        /\ CardDesigns.createdAt d' = CardDesigns.createdAt d
        /\ Merge.design input d d').
Proof.
  intros Hu Hpk. split; intros.
  - eapply updateProfile_merges; eauto.
  - eapply updateDesign_merges; eauto.
Qed.

(** ** Rows of other users *)

Lemma own_profiles_update (u : User) (c : CardProfiles.row -> bool)
  (f : CardProfiles.row -> CardProfiles.row) (t : list CardProfiles.row) :
  (forall r, In r t -> c r = true -> profile_of u r = true) ->
  (forall r, CardProfiles.userId (f r) = CardProfiles.userId r) ->
  filter (foreign_profile u) (rows_update c f t) = filter (foreign_profile u) t.
Proof.
  intros Hc Hf. apply filter_update_frame. intros r Hin Hr.
  unfold foreign_profile, profile_of in *. rewrite Hf.
  rewrite (Hc r Hin Hr). auto.
Qed.

Lemma own_designs_update (u : User) (c : CardDesigns.row -> bool)
  (f : CardDesigns.row -> CardDesigns.row) (t : list CardDesigns.row) :
  (forall d, In d t -> c d = true -> design_of u d = true) ->
  (forall d, CardDesigns.userId (f d) = CardDesigns.userId d) ->
  filter (foreign_design u) (rows_update c f t) = filter (foreign_design u) t.
Proof.
  intros Hc Hf. apply filter_update_frame. intros r Hin Hr.
  unfold foreign_design, design_of in *. rewrite Hf.
  rewrite (Hc r Hin Hr). auto.
Qed.

(** updateDesign writes [where id = ..] alone.  Under the primary key the
    row it reaches is the one its lookup found, which the caller owns. *)
Lemma design_by_id_is_own (u : User) (k : string) (t : list CardDesigns.row)
  (e : CardDesigns.row) :
  keys_unique CardDesigns.id t = true ->
  first_row (rows_where (design_is k u) t) = Some e ->
  forall d, In d t -> (CardDesigns.id d =? k) = true -> design_of u d = true.
Proof.
  intros Hkeys Hfound d Hin Hd.
  apply first_row_where in Hfound. destruct Hfound as [He Hown].
  apply design_is_true in Hown. destruct Hown as [Hid Hown].
  apply String.eqb_eq in Hd.
  assert (d = e) as -> by
    (apply keys_unique_same with (key := CardDesigns.id) (t := t);
     congruence).
  unfold design_of. rewrite Hown. apply String.eqb_refl.
Qed.

Lemma design_by_id_is_own_cleared (u : User) (k : string)
  (t : list CardDesigns.row) (e : CardDesigns.row)
  (c : CardDesigns.row -> bool) (b : bool) (now : Z) :
  keys_unique CardDesigns.id t = true ->
  first_row (rows_where (design_is k u) t) = Some e ->
  forall d,
    In d (rows_update c (CardDesigns.set_isPrimaryDesign b now) t) ->
    (CardDesigns.id d =? k) = true -> design_of u d = true.
Proof.
  intros Hkeys Hfound d Hin Hd.
  apply In_rows_update in Hin. destruct Hin as [x [Hx ->]].
  assert (design_of u x = true) as Hown.
  { apply (design_by_id_is_own u k t Hkeys Hfound x Hx).
    destruct (c x); auto. }
  destruct (c x); auto.
Qed.

Ltac store_simpl :=
  cbn [profiles designs dates_read uuids_read with_profiles with_designs
       fst snd].

(** Runs a handler for a signed-in caller down to its outcomes. *)
Ltac run_signed_in Hu :=
  unfold_handlers; rewrite (requireUser_signed_in _ _ _ Hu);
  unfold_statements;
  repeat (store_simpl; next_test); store_simpl;
  let H := fresh in
  intros H; inversion H; subst; clear H; store_simpl;
  repeat match goal with
         | E : (_, _) = (_, _) |- _ => inversion E; subst; clear E
         end;
  store_simpl.

Ltac own_rows :=
  intros;
  unfold foreign_profile, foreign_design, profile_is, design_in, design_is,
    profile_of, design_of in *;
  simpl;
  repeat match goal with
         | H : _ && _ = true |- _ => apply andb_true_iff in H; destruct H
         end;
  repeat match goal with
         | H : ?x = true |- context [?x] => rewrite H
         end;
  rewrite ?String.eqb_refl; simpl; auto.

Ltac frame_step :=
  first
    [ rewrite filter_insert_frame by own_rows
    | rewrite own_profiles_update by own_rows
    | rewrite own_designs_update by own_rows
    | rewrite filter_delete_frame by own_rows ].

(** No request reads as a write to a row of another user: the rows the
    caller does not own are, in both tables, the same before and after. *)
Lemma server_leaves_foreign_rows (req : Request) (context : ActionAPIContext)
  (env : Env) (st st' : Store) (u : User) (res : Thrown + Response) :
  context_user context = Some u -> pk_ok st = true ->
  server req context env st = (st', res) ->
  rows_where (foreign_profile u) (profiles st')
    = rows_where (foreign_profile u) (profiles st)
  /\ rows_where (foreign_design u) (designs st')
    = rows_where (foreign_design u) (designs st).
Proof.
  intros Hu Hpk.
  assert (keys_unique CardDesigns.id (designs st) = true) as Hkeys
    by (apply andb_true_iff in Hpk; tauto).
  destruct req; run_signed_in Hu; unfold rows_where;
    (split; [try reflexivity | try reflexivity]);
    repeat frame_step; try reflexivity.
  - (* updateDesign, after the primary flags were cleared *)
    rewrite own_designs_update; [| |reflexivity].
    + now frame_step.
    + eapply design_by_id_is_own_cleared; eauto.
  - (* updateDesign, no flag cleared *)
    rewrite own_designs_update; [reflexivity| |reflexivity].
    eapply design_by_id_is_own; eauto.
Qed.

(** ** C3: records that are missing or owned by someone else *)

Lemma lookup_profile_none (st : Store) (u : User) (id : string) :
  ~ owns_profile st u id ->
  forall r, In r (profiles st) -> profile_is id u r = false.
Proof.
  intros Hno r Hin. destruct (profile_is id u r) eqn:E; auto.
  exfalso. apply Hno. exists r. apply profile_is_true in E. tauto.
Qed.

Lemma lookup_design_none (st : Store) (u : User) (id : string) :
  ~ owns_design st u id ->
  forall d, In d (designs st) -> design_is id u d = false.
Proof.
  intros Hno d Hin. destruct (design_is id u d) eqn:E; auto.
  exfalso. apply Hno. exists d. apply design_is_true in E. tauto.
Qed.

Lemma rows_delete_nothing (R : Type) (c : R -> bool) (t : list R) :
  (forall r, In r t -> c r = false) -> rows_delete c t = t.
Proof.
  unfold rows_delete. induction t as [|r t IH]; simpl; intros H; auto.
  rewrite (H r) by auto. simpl. f_equal. apply IH. intros x Hx. apply H. auto.
Qed.

Lemma referenced_nothing (ds : list CardDesigns.row) : referenced [] ds = false.
Proof. unfold referenced. induction ds; simpl; auto. Qed.

(** [allowedProfileIds] holds exactly the ids of the caller's profiles. *)
Lemma allowed_iff_owned (st : Store) (u : User) (p : string) :
  has_id (rows_where (profile_of u) (profiles st)) p = true <->
  owns_profile st u p.
Proof.
  unfold has_id, owns_profile, rows_where. rewrite existsb_exists. split.
  - intros [i [Hin Hi]]. apply String.eqb_eq in Hi. subst i.
    apply in_map_iff in Hin. destruct Hin as [r [Hid Hr]].
    apply filter_In in Hr. destruct Hr as [Hr Hown].
    exists r. unfold profile_of in Hown. apply String.eqb_eq in Hown. tauto.
  - intros [r (Hin & Hid & Hown)]. exists p. split.
    + apply in_map_iff. exists r. split; auto. apply filter_In. split; auto.
      unfold profile_of. rewrite Hown. apply String.eqb_refl.
    + apply String.eqb_refl.
Qed.

Lemma truthy_nonempty (p : string) :
  p <> EmptyString -> truthy_string (Some p) = true.
Proof. destruct p; simpl; congruence. Qed.

Lemma not_found_when_target_missing (req : Request)
  (context : ActionAPIContext) (env : Env) (st : Store) (u : User) :
  context_user context = Some u ->
  target_missing u st req ->
  server req context env st = (st, inl (ActionError NOT_FOUND)).
Proof.
  intros Hu Hmiss. destruct req; simpl in Hmiss; try contradiction;
    unfold_handlers; rewrite (requireUser_signed_in _ _ _ Hu);
    unfold_statements.
  - (* updateProfile *)
    rewrite (proj2 (first_row_none _ _) (lookup_profile_none Hmiss)).
    reflexivity.
  - (* deleteProfile *)
    pose proof (lookup_profile_none Hmiss) as Hnone.
    unfold rows_where. rewrite (filter_nothing _ _ Hnone).
    rewrite referenced_nothing, andb_false_r.
    rewrite (rows_delete_nothing _ _ Hnone), with_profiles_same.
    reflexivity.
  - (* createDesign *)
    rewrite (proj2 (first_row_none _ _) (lookup_profile_none Hmiss)).
    reflexivity.
  - (* updateDesign *)
    destruct Hmiss as [Hmiss|Hmiss].
    + rewrite (proj2 (first_row_none _ _) (lookup_profile_none Hmiss)).
      reflexivity.
    + destruct (first_row (rows_where (profile_is _ u) _)); [|reflexivity].
      rewrite (proj2 (first_row_none _ _) (lookup_design_none Hmiss)).
      reflexivity.
  - (* listDesigns *)
    destruct Hmiss as [p (Hp & Hne & Hmiss)]. rewrite Hp.
    rewrite (truthy_nonempty Hne). cbn [nullish andb].
    destruct (has_id _ p) eqn:E.
    + apply allowed_iff_owned in E. contradiction.
    + reflexivity.
Qed.

(** ** C6 and C10: listing designs *)

Lemma filter_twice (R : Type) (f g : R -> bool) (t : list R) :
  filter f (filter g t) = filter (fun x => f x && g x) t.
Proof.
  induction t as [|r t IH]; simpl; auto.
  destruct (g r); simpl.
  - destruct (f r); simpl; now rewrite IH.
  - now rewrite andb_false_r.
Qed.

(** What listDesigns returns for a caller, by the way the filter reads. *)
Lemma listDesigns_signed_in (input : option ListDesigns.input)
  (context : ActionAPIContext) (env : Env) (st : Store) (u : User) :
  context_user context = Some u ->
  listDesigns input context env st =
  let own := rows_where (profile_of u) (profiles st) in
  let wanted := nullish (filter_of input) EmptyString in
  if truthy_string (filter_of input)
  then if has_id own wanted
       then (st, inr (rows_where (design_in wanted u) (designs st)))
       else (st, inl (ActionError NOT_FOUND))
  else (st, inr (rows_where
                   (fun d => has_id own (CardDesigns.profileId d)
                             && design_of u d)
                   (designs st))).
Proof.
  intros Hu. unfold listDesigns, bind.
  rewrite (requireUser_signed_in _ _ _ Hu). unfold_statements.
  cbv zeta. destruct (truthy_string (filter_of input)); cbn [andb].
  - destruct (has_id _ _); cbn [negb]; auto.
    unfold rows_where. now rewrite filter_twice.
  - unfold rows_where. now rewrite filter_twice.
Qed.

(** C10. For an authenticated caller, listDesigns called without a
    profileId filter returns exactly the caller's designs whose profileId is
    the id of a profile the caller currently owns.  A design that is stored
    with the caller's userId but whose profile is gone, an orphan, is left
    out of the result. *)
Theorem listDesigns_without_filter (input : option ListDesigns.input)
  (context : ActionAPIContext) (env : Env) (st : Store) (u : User) :
  context_user context = Some u ->
  filter_of input = None ->
  exists rows,
    listDesigns input context env st = (st, inr rows)
    /\ (forall d, In d rows <->
                  In d (designs st)
                  /\ CardDesigns.userId d = user_id u
                  /\ owns_profile st u (CardDesigns.profileId d))
    /\ (forall d, In d (designs st) ->
                  CardDesigns.userId d = user_id u ->
                  ~ owns_profile st u (CardDesigns.profileId d) ->
                  ~ In d rows).
Proof.
  intros Hu Hnone. rewrite (listDesigns_signed_in _ _ _ _ Hu), Hnone.
  cbv zeta. cbn [truthy_string].
  eexists. split; [reflexivity|].
  assert (forall d,
    In d (rows_where
            (fun d => has_id (rows_where (profile_of u) (profiles st))
                        (CardDesigns.profileId d) && design_of u d)
            (designs st)) <->
    In d (designs st) /\ CardDesigns.userId d = user_id u
    /\ owns_profile st u (CardDesigns.profileId d)) as Hiff.
  { intros d. unfold rows_where at 1. rewrite filter_In, andb_true_iff.
    rewrite allowed_iff_owned. unfold design_of. rewrite String.eqb_eq.
    tauto. }
  split; [exact Hiff|].
  intros d Hin Hown Horphan Hd. apply Hiff in Hd. tauto.
Qed.

(** ** C9: deleting a profile *)

(** A delete whose condition pins the key removes the one row that
    carries it and nothing else. *)
Lemma rows_delete_one (R : Type) (key : R -> string) (c : R -> bool)
  (k : string) (t : list R) (r : R) :
  keys_unique key t = true ->
  (forall x, c x = true -> key x = k) ->
  hd_error (rows_where c t) = Some r ->
  exists l1 l2,
    t = (l1 ++ r :: l2)%list /\ rows_delete c t = (l1 ++ l2)%list
    /\ key_taken key k (l1 ++ l2) = false.
Proof.
  intros Hu Hc. unfold rows_where.
  induction t as [|a t IH]; simpl; intros Hr; [discriminate|].
  simpl in Hu. apply andb_true_iff in Hu. destruct Hu as [Hfresh Hu].
  apply negb_true_iff in Hfresh.
  pose proof (proj1 (key_taken_false key (key a) t) Hfresh) as Hother.
  destruct (c a) eqn:Ea; simpl in Hr.
  - injection Hr as <-. exists [], t. simpl.
    assert (forall x, In x t -> c x = false) as Hnone.
    { intros x Hx. destruct (c x) eqn:Ex; auto.
      exfalso. apply (Hother x Hx). rewrite (Hc x Ex), (Hc a Ea). auto. }
    unfold rows_delete. simpl. rewrite ?Ea. simpl.
    change (filter (fun x => negb (c x)) t) with (rows_delete c t).
    rewrite (rows_delete_nothing c t Hnone).
    repeat split; auto. now rewrite <- (Hc a Ea).
  - destruct (IH Hu Hr) as [l1 [l2 (Ht & Hdel & Hk)]].
    exists (a :: l1), l2. simpl. unfold rows_delete in *. simpl.
    rewrite Hdel. split; [congruence|]. split; [reflexivity|].
    apply orb_false_iff. split; auto.
    apply String.eqb_neq. intros Hak.
    assert (In r (filter c t)) as Hin.
    { destruct (filter c t); simpl in Hr; [discriminate|].
      injection Hr as ->. now left. }
    apply filter_In in Hin. destruct Hin as [Hin Hcr].
    apply (Hother r Hin). rewrite (Hc r Hcr). auto.
Qed.

(** ** The primary keys stay unique *)

Lemma server_preserves_pk (req : Request) (context : ActionAPIContext)
  (env : Env) (st st' : Store) (res : Thrown + Response) :
  pk_ok st = true -> server req context env st = (st', res) ->
  pk_ok st' = true.
Proof.
  intros Hpk. destruct (context_user context) as [u|] eqn:Hu.
  - unfold pk_ok in *. apply andb_true_iff in Hpk. destruct Hpk as [Hp Hd].
    destruct req; run_signed_in Hu;
      rewrite ?keys_unique_update by reflexivity;
      try (rewrite Hp, Hd; reflexivity);
      apply andb_true_iff; split;
      rewrite ?keys_unique_update by reflexivity; auto;
      try (apply keys_unique_filter; assumption);
      apply keys_unique_insert;
      rewrite ?keys_unique_update by reflexivity; auto;
      match goal with
      | H : _ || _ = false |- _ =>
          apply orb_false_iff in H; destruct H; assumption
      end.
  - intros Hrun.
    rewrite (server_without_user req _ env st Hu) in Hrun.
    now inversion Hrun; subst.
Qed.

(** Every store the service can be in satisfies the primary-key
    constraint the properties above assume. *)
Lemma reachable_pk_ok (st : Store) : reachable st -> pk_ok st = true.
Proof.
  induction 1 as [dates uuids|st st' req context env res _ IH Hrun].
  - reflexivity.
  - eapply server_preserves_pk; eauto.
Qed.

(** ** C7: the operations that exist *)

(** No request takes a design out of its table: the ids stored before a
    call are stored after it, in the same order, possibly followed by the
    id of a design the call created. *)
Lemma server_keeps_designs (req : Request) (context : ActionAPIContext)
  (env : Env) (st st' : Store) (res : Thrown + Response) :
  server req context env st = (st', res) ->
  exists added,
    map CardDesigns.id (designs st')
    = (map CardDesigns.id (designs st) ++ added)%list.
Proof.
  destruct (context_user context) as [u|] eqn:Hu.
  - destruct req; run_signed_in Hu;
      rewrite ?map_app;
      rewrite ?(@rows_update_keys _ CardDesigns.id) by reflexivity;
      solve [ exists []; now rewrite app_nil_r | eexists; reflexivity ].
  - intros Hrun. rewrite (server_without_user req _ env st Hu) in Hrun.
    inversion Hrun; subst. exists []. now rewrite app_nil_r.
Qed.

(** C7, as the code has it.  The exported object offers an operation for
    every pair of a group (create, update, list, delete) and an entity
    (Profile, Design) except one: there is no delete operation for Design.
    Accordingly no request removes a stored design. *)
Theorem operations_exposed :
  (forall g e,
      (exists req, group_of req = g /\ entity_of req = e)
      <-> ~ (g = GDelete /\ e = EDesign))
  /\ (forall req context env st st' res,
        server req context env st = (st', res) ->
        exists added,
          map CardDesigns.id (designs st')
          = (map CardDesigns.id (designs st) ++ added)%list).
Proof.
  split.
  - intros g e. split.
    + intros [req [Hg He]] [-> ->]. destruct req; discriminate.
    + intros Hno.
      destruct g, e;
        try (exfalso; apply Hno; split; reflexivity);
        first
          [ exists (CreateProfile
                      (Scenario.new_profile "p" "Main" None)); now split
          | exists (UpdateProfile
                      (Scenario.change_profile "p" None None)); now split
          | exists ListProfiles; now split
          | exists (DeleteProfile {| DeleteProfile.id := "p" |}); now split
          | exists (CreateDesign (Scenario.new_design "d" "p" None));
            now split
          | exists (UpdateDesign
                      (Scenario.change_design "d" "p" None None)); now split
          | exists (ListDesigns None); now split ].
  - intros. eapply server_keeps_designs; eauto.
Qed.

(** ** Outcomes of the creating handlers *)

Lemma key_taken_update (R : Type) (key : R -> string) (c : R -> bool)
  (f : R -> R) (k : string) (t : list R) :
  (forall r, key (f r) = key r) ->
  key_taken key k (rows_update c f t) = key_taken key k t.
Proof.
  intros Hf. apply key_taken_keys. now apply rows_update_keys.
Qed.

Ltac tidy_keys :=
  cbn [CardProfiles.id CardDesigns.id CardDesigns.profileId nullish] in *;
  repeat match goal with
         | H : context [key_taken _ _ (rows_update _ _ _)] |- _ =>
             rewrite key_taken_update in H by reflexivity
         end.

Lemma createProfile_result (input : CreateProfile.input)
  (context : ActionAPIContext) (env : Env) (st st' : Store) (u : User)
  (res : Thrown + option CardProfiles.row) :
  context_user context = Some u ->
  createProfile input context env st = (st', res) ->
  designs st' = designs st
  /\ if key_taken CardProfiles.id (id_for (CreateProfile.id input) env st)
          (profiles st)
     then res = inl ConstraintViolation
          /\ map CardProfiles.id (profiles st')
             = map CardProfiles.id (profiles st)
          /\ (truthy_bool (CreateProfile.isDefault input) = false ->
              profiles st' = profiles st)
     else exists p before,
            res = inr (Some p)
            /\ profiles st' = (before ++ [p])%list
            /\ CardProfiles.id p = id_for (CreateProfile.id input) env st
            /\ CardProfiles.userId p = user_id u
            /\ CardProfiles.isDefault p
               = truthy_bool (CreateProfile.isDefault input)
            /\ (truthy_bool (CreateProfile.isDefault input) = false ->
                before = profiles st).
Proof.
  intros Hu. unfold id_for. unfold createProfile, bind.
  rewrite (requireUser_signed_in _ _ _ Hu). unfold_statements.
  repeat (store_simpl; next_test); store_simpl;
  intros H; inversion H; subst; clear H; store_simpl; tidy_keys;
  (split; [reflexivity|]); try congruence;
  first
    [ split; [reflexivity|]; split;
      [ try reflexivity; apply rows_update_keys; reflexivity
      | intros; try reflexivity; congruence ]
    | eexists; eexists; split; [reflexivity|]; split; [reflexivity|];
      cbn [CardProfiles.id CardProfiles.userId CardProfiles.isDefault];
      destruct (CreateProfile.isDefault input) as [[|]|]; simpl in *;
      repeat split; congruence ].
Qed.

Lemma createDesign_result (input : CreateDesign.input)
  (context : ActionAPIContext) (env : Env) (st st' : Store) (u : User)
  (res : Thrown + option CardDesigns.row) :
  context_user context = Some u ->
  owns_profile st u (CreateDesign.profileId input) ->
  createDesign input context env st = (st', res) ->
  profiles st' = profiles st
  /\ if key_taken CardDesigns.id (id_for (CreateDesign.id input) env st)
          (designs st)
     then res = inl ConstraintViolation
          /\ map CardDesigns.id (designs st')
             = map CardDesigns.id (designs st)
          /\ (truthy_bool (CreateDesign.isPrimaryDesign input) = false ->
              designs st' = designs st)
     else exists d before,
            res = inr (Some d)
            /\ designs st' = (before ++ [d])%list
            /\ CardDesigns.id d = id_for (CreateDesign.id input) env st
            /\ CardDesigns.profileId d = CreateDesign.profileId input
            /\ CardDesigns.userId d = user_id u
            /\ CardDesigns.isPrimaryDesign d
               = truthy_bool (CreateDesign.isPrimaryDesign input)
            /\ (truthy_bool (CreateDesign.isPrimaryDesign input) = false ->
                before = designs st).
Proof.
  intros Hu Hown. unfold id_for. unfold createDesign, bind.
  rewrite (requireUser_signed_in _ _ _ Hu). unfold_statements.
  destruct (first_row _) as [owner|] eqn:Hfound.
  2:{ exfalso. destruct Hown as [r (Hin & Hid & Hr)].
      assert (profile_is (CreateDesign.profileId input) u r = false) as E
        by (apply (proj1 (first_row_none _ _) Hfound); auto).
      assert (profile_is (CreateDesign.profileId input) u r = true)
        by (apply profile_is_true; auto).
      congruence. }
  apply first_row_where in Hfound. destruct Hfound as [Hin Hc].
  apply profile_is_true in Hc. destruct Hc as [Hid _].
  assert (key_taken CardProfiles.id (CreateDesign.profileId input)
            (profiles st) = true) as Hparent
    by (apply key_taken_true; eauto).
  repeat (store_simpl; next_test); store_simpl;
  intros H; inversion H; subst; clear H; store_simpl;
  cbn [CardProfiles.id CardDesigns.id CardDesigns.profileId nullish] in *;
  repeat match goal with
         | H : context [key_taken _ _ (rows_update _ _ _)] |- _ =>
             rewrite key_taken_update in H by reflexivity
         end;
  (split; [reflexivity|]);
  repeat match goal with
         | H : _ || _ = true |- _ =>
             rewrite Hparent in H; simpl in H;
             rewrite andb_false_r, orb_false_r in H
         | H : _ || _ = false |- _ =>
             apply orb_false_iff in H; destruct H as [H _]
         end;
  try congruence;
  first
    [ split; [reflexivity|]; split;
      [ try reflexivity; apply rows_update_keys; reflexivity
      | intros; try reflexivity; congruence ]
    | eexists; eexists; split; [reflexivity|]; split; [reflexivity|];
      cbn [CardDesigns.id CardDesigns.userId CardDesigns.profileId
           CardDesigns.isPrimaryDesign];
      destruct (CreateDesign.isPrimaryDesign input) as [[|]|]; simpl in *;
      repeat split; congruence ].
Qed.

Lemma createProfile_taken_id_clears (input : CreateProfile.input)
  (context : ActionAPIContext) (env : Env) (st : Store) (u : User) :
  context_user context = Some u ->
  CreateProfile.isDefault input = Some true ->
  key_taken CardProfiles.id (id_for (CreateProfile.id input) env st)
    (profiles st) = true ->
  exists st',
    createProfile input context env st = (st', inl ConstraintViolation)
    /\ rows_where (default_of u) (profiles st') = []
    /\ map CardProfiles.id (profiles st') = map CardProfiles.id (profiles st).
Proof.
  intros Hu Hdef. unfold id_for, createProfile, bind.
  rewrite (requireUser_signed_in _ _ _ Hu), Hdef.
  cbn [truthy_bool]. unfold_statements.
  destruct (CreateProfile.id input) as [i|]; cbn [nullish]; store_simpl;
    cbn [CardProfiles.id]; rewrite key_taken_update by reflexivity;
    intros ->; eexists; (split; [reflexivity|]); store_simpl;
    (split; [apply filter_nothing, clear_all_defaults
            | apply rows_update_keys; reflexivity]).
Qed.

Lemma createDesign_taken_id_clears (input : CreateDesign.input)
  (context : ActionAPIContext) (env : Env) (st : Store) (u : User) :
  context_user context = Some u ->
  owns_profile st u (CreateDesign.profileId input) ->
  CreateDesign.isPrimaryDesign input = Some true ->
  key_taken CardDesigns.id (id_for (CreateDesign.id input) env st)
    (designs st) = true ->
  exists st',
    createDesign input context env st = (st', inl ConstraintViolation)
    /\ rows_where (primary_in (CreateDesign.profileId input) u) (designs st')
       = []
    /\ map CardDesigns.id (designs st') = map CardDesigns.id (designs st).
Proof.
  intros Hu [r (Hin & Hid & Hown)] Hprim. unfold id_for, createDesign, bind.
  rewrite (requireUser_signed_in _ _ _ Hu), Hprim.
  cbn [truthy_bool]. unfold_statements.
  rewrite <- Hid.
  destruct (first_row _) as [owner|] eqn:Hfound.
  2:{ assert (profile_is (CardProfiles.id r) u r = false) as E
        by (apply (proj1 (first_row_none _ _) Hfound); auto).
      assert (profile_is (CardProfiles.id r) u r = true)
        by (apply profile_is_true; auto).
      congruence. }
  destruct (CreateDesign.id input) as [i|]; cbn [nullish]; store_simpl;
    cbn [CardDesigns.id]; rewrite key_taken_update by reflexivity;
    intros ->; cbn [orb]; eexists; (split; [reflexivity|]); store_simpl;
    (split; [apply filter_nothing, clear_all_primaries
            | apply rows_update_keys; reflexivity]).
Qed.

(** X3. Nothing is rolled back: a createProfile with [isDefault = true]
    whose id is already stored fails with the store's constraint violation
    after it has cleared the flag, so the caller is left with no default
    profile although no profile was added; likewise a createDesign with
    [isPrimaryDesign = true] and a stored id leaves the profile with no
    primary design. *)
Theorem failed_create_still_clears_flags (context : ActionAPIContext)
  (env : Env) (st : Store) (u : User) :
  context_user context = Some u ->
  (forall input,
      CreateProfile.isDefault input = Some true ->
      key_taken CardProfiles.id (id_for (CreateProfile.id input) env st)
        (profiles st) = true ->
      exists st',
        createProfile input context env st = (st', inl ConstraintViolation)
        /\ rows_where (default_of u) (profiles st') = []
        /\ map CardProfiles.id (profiles st')
           = map CardProfiles.id (profiles st))
  /\ (forall input,
        owns_profile st u (CreateDesign.profileId input) ->
        CreateDesign.isPrimaryDesign input = Some true ->
        key_taken CardDesigns.id (id_for (CreateDesign.id input) env st)
          (designs st) = true ->
        exists st',
          createDesign input context env st = (st', inl ConstraintViolation)
          /\ rows_where (primary_in (CreateDesign.profileId input) u)
               (designs st') = []
          /\ map CardDesigns.id (designs st')
             = map CardDesigns.id (designs st)).
Proof.
  intros Hu. split; intros.
  - now apply createProfile_taken_id_clears.
  - now apply createDesign_taken_id_clears.
Qed.

(** X1. createProfile never fails with [NOT_FOUND].  It fails exactly
    when the id it is about to insert (the given one, or else the fresh
    UUID) is already stored, for whichever user, and then with the store's
    constraint violation and without adding a row; otherwise it appends
    one row that carries this id, the caller as owner and the requested
    flag.  When the default flag is not requested no stored row is
    changed.  The CardDesigns table is never touched. *)
Theorem createProfile_outcome (input : CreateProfile.input)
  (context : ActionAPIContext) (env : Env) (st st' : Store) (u : User)
  (res : Thrown + option CardProfiles.row) :
  context_user context = Some u ->
  createProfile input context env st = (st', res) ->
  designs st' = designs st
  /\ if key_taken CardProfiles.id (id_for (CreateProfile.id input) env st)
          (profiles st)
     then res = inl ConstraintViolation
          /\ map CardProfiles.id (profiles st')
             = map CardProfiles.id (profiles st)
          /\ (truthy_bool (CreateProfile.isDefault input) = false ->
              profiles st' = profiles st)
     else exists p before,
            res = inr (Some p)
            /\ profiles st' = (before ++ [p])%list
            /\ CardProfiles.id p = id_for (CreateProfile.id input) env st
            /\ CardProfiles.userId p = user_id u
            /\ CardProfiles.isDefault p
               = truthy_bool (CreateProfile.isDefault input)
            /\ (truthy_bool (CreateProfile.isDefault input) = false ->
                before = profiles st).
Proof. apply createProfile_result. Qed.

(** X2. For a caller who owns the profile the input names, createDesign
    fails exactly when the design id it is about to insert is already
    stored, with the store's constraint violation; the reference to the
    profile never makes the insert fail, whether the store enforces it or
    not.  Otherwise it appends one design that carries this id, the
    profile, the caller as owner and the requested flag; when the primary
    flag is not requested no stored design is changed.  The CardProfiles
    table is never touched. *)
Theorem createDesign_outcome (input : CreateDesign.input)
  (context : ActionAPIContext) (env : Env) (st st' : Store) (u : User)
  (res : Thrown + option CardDesigns.row) :
  context_user context = Some u ->
  owns_profile st u (CreateDesign.profileId input) ->
  createDesign input context env st = (st', res) ->
  profiles st' = profiles st
  /\ if key_taken CardDesigns.id (id_for (CreateDesign.id input) env st)
          (designs st)
     then res = inl ConstraintViolation
          /\ map CardDesigns.id (designs st')
             = map CardDesigns.id (designs st)
          /\ (truthy_bool (CreateDesign.isPrimaryDesign input) = false ->
              designs st' = designs st)
     else exists d before,
            res = inr (Some d)
            /\ designs st' = (before ++ [d])%list
            /\ CardDesigns.id d = id_for (CreateDesign.id input) env st
            /\ CardDesigns.profileId d = CreateDesign.profileId input
            /\ CardDesigns.userId d = user_id u
            /\ CardDesigns.isPrimaryDesign d
               = truthy_bool (CreateDesign.isPrimaryDesign input)
            /\ (truthy_bool (CreateDesign.isPrimaryDesign input) = false ->
                before = designs st).
Proof. apply createDesign_result. Qed.

(** ** Tables and columns no request touches *)

Lemma server_separates_tables (req : Request) (context : ActionAPIContext)
  (env : Env) (st st' : Store) (res : Thrown + Response) :
  server req context env st = (st', res) ->
  (entity_of req = EProfile -> designs st' = designs st)
  /\ (entity_of req = EDesign -> profiles st' = profiles st)
  /\ (group_of req = GList -> st' = st).
Proof.
  destruct (context_user context) as [u|] eqn:Hu.
  - destruct req; run_signed_in Hu; repeat split; intros; try reflexivity;
      discriminate.
  - intros Hrun. rewrite (server_without_user req _ env st Hu) in Hrun.
    inversion Hrun; subst. repeat split.
Qed.






(** X4. The primary keys stay unique: every request maps a store in
    which no two profiles and no two designs share an id to such a store,
    so every store reached from two empty tables is one. *)
Theorem primary_keys_stay_unique :
  (forall req context env st st' res,
      pk_ok st = true -> server req context env st = (st', res) ->
      pk_ok st' = true)
  /\ (forall st, reachable st -> pk_ok st = true).
Proof.
  split.
  - intros. eapply server_preserves_pk; eauto.
  - apply reachable_pk_ok.
Qed.

(** X9. The profile operations never write the CardDesigns table, the
    design operations never write the CardProfiles table, and the two list
    operations leave the whole store as it was, whatever the outcome and
    whoever calls. *)
Theorem tables_are_separate (req : Request) (context : ActionAPIContext)
  (env : Env) (st st' : Store) (res : Thrown + Response) :
  server req context env st = (st', res) ->
  (entity_of req = EProfile -> designs st' = designs st)
  /\ (entity_of req = EDesign -> profiles st' = profiles st)
  /\ (group_of req = GList -> st' = st).
Proof. apply server_separates_tables. Qed.

(** ** The flags over the life of the store *)



















(** ** References in a store that enforces them *)










(** ** What another user sees *)

Lemma profile_of_foreign (u v : User) (t : list CardProfiles.row) :
  user_id v <> user_id u ->
  filter (profile_of v) t
  = filter (profile_of v) (filter (foreign_profile u) t).
Proof.
  intros Hne. rewrite filter_twice. apply filter_ext. intros r.
  unfold foreign_profile, profile_of.
  destruct (CardProfiles.userId r =? user_id v) eqn:Ev,
           (CardProfiles.userId r =? user_id u) eqn:Eu; simpl; auto.
  apply String.eqb_eq in Ev. apply String.eqb_eq in Eu. congruence.
Qed.

Lemma design_of_foreign (u v : User) (t : list CardDesigns.row) :
  user_id v <> user_id u ->
  filter (design_of v) t
  = filter (design_of v) (filter (foreign_design u) t).
Proof.
  intros Hne. rewrite filter_twice. apply filter_ext. intros r.
  unfold foreign_design, design_of.
  destruct (CardDesigns.userId r =? user_id v) eqn:Ev,
           (CardDesigns.userId r =? user_id u) eqn:Eu; simpl; auto.
  apply String.eqb_eq in Ev. apply String.eqb_eq in Eu. congruence.
Qed.

(** A request of one user leaves the rows of any other user in place. *)
Lemma server_leaves_rows_of (req : Request) (context : ActionAPIContext)
  (env : Env) (st st' : Store) (u v : User) (res : Thrown + Response) :
  context_user context = Some u -> pk_ok st = true ->
  user_id v <> user_id u ->
  server req context env st = (st', res) ->
  rows_where (profile_of v) (profiles st')
    = rows_where (profile_of v) (profiles st)
  /\ rows_where (design_of v) (designs st')
     = rows_where (design_of v) (designs st).
Proof.
  intros Hu Hpk Hne Hrun.
  destruct (@server_leaves_foreign_rows req context env st st' u res
              Hu Hpk Hrun) as [Hp Hd].
  unfold rows_where in *. split.
  - now rewrite (@profile_of_foreign u v _ Hne), Hp,
      <- (@profile_of_foreign u v _ Hne).
  - now rewrite (@design_of_foreign u v _ Hne), Hd,
      <- (@design_of_foreign u v _ Hne).
Qed.

(** X11. What one user does never changes what another user's listings
    return: after any request of a caller, listProfiles and listDesigns
    (with any filter) give another user the result they gave before. *)
Theorem listings_are_isolated (req : Request)
  (context other : ActionAPIContext) (env : Env) (st st' : Store)
  (u v : User) (res : Thrown + Response) :
  context_user context = Some u -> context_user other = Some v ->
  user_id v <> user_id u -> pk_ok st = true ->
  server req context env st = (st', res) ->
  forall env1 env2 input,
    snd (listProfiles other env1 st') = snd (listProfiles other env2 st)
    /\ snd (listDesigns input other env1 st')
       = snd (listDesigns input other env2 st).
Proof.
  intros Hu Hv Hne Hpk Hrun env1 env2 input.
  destruct (@server_leaves_rows_of req context env st st' u v res
              Hu Hpk Hne Hrun) as [Hp Hd].
  split.
  - unfold listProfiles, bind.
    rewrite !(requireUser_signed_in _ _ _ Hv). unfold_statements.
    simpl. now rewrite Hp.
  - unfold listDesigns, bind.
    rewrite !(requireUser_signed_in _ _ _ Hv). unfold_statements.
    cbv beta iota zeta. rewrite Hp.
    destruct (truthy_string (filter_of input) && _); cbn [snd];
      [reflexivity|].
    now rewrite Hd.
Qed.

(** ** Reading back what was written *)

Lemma server_of_createProfile (input : CreateProfile.input)
  (context : ActionAPIContext) (env : Env) (st st' : Store)
  (p : option CardProfiles.row) :
  createProfile input context env st = (st', inr p) ->
  server (CreateProfile input) context env st = (st', inr (Profile p)).
Proof. intros H. unfold server, bind. now rewrite H. Qed.

Lemma server_of_createDesign (input : CreateDesign.input)
  (context : ActionAPIContext) (env : Env) (st st' : Store)
  (d : option CardDesigns.row) :
  createDesign input context env st = (st', inr d) ->
  server (CreateDesign input) context env st = (st', inr (Design d)).
Proof. intros H. unfold server, bind. now rewrite H. Qed.

Lemma server_of_updateProfile (input : UpdateProfile.input)
  (context : ActionAPIContext) (env : Env) (st st' : Store)
  (p : option CardProfiles.row) :
  updateProfile input context env st = (st', inr p) ->
  server (UpdateProfile input) context env st = (st', inr (Profile p)).
Proof. intros H. unfold server, bind. now rewrite H. Qed.

Lemma server_of_updateDesign (input : UpdateDesign.input)
  (context : ActionAPIContext) (env : Env) (st st' : Store)
  (d : option CardDesigns.row) :
  updateDesign input context env st = (st', inr d) ->
  server (UpdateDesign input) context env st = (st', inr (Design d)).
Proof. intros H. unfold server, bind. now rewrite H. Qed.

(** What a successful createProfile leaves behind. *)
Lemma createProfile_stored (input : CreateProfile.input)
  (context : ActionAPIContext) (env : Env) (st st' : Store) (u : User)
  (p : CardProfiles.row) :
  context_user context = Some u ->
  createProfile input context env st = (st', inr (Some p)) ->
  key_taken CardProfiles.id (CardProfiles.id p) (profiles st) = false
  /\ CardProfiles.userId p = user_id u
  /\ designs st' = designs st
  /\ exists before,
       profiles st' = (before ++ [p])%list
       /\ map CardProfiles.id before = map CardProfiles.id (profiles st)
       /\ (truthy_bool (CreateProfile.isDefault input) = false ->
           before = profiles st).
Proof.
  intros Hu. unfold createProfile, bind.
  rewrite (requireUser_signed_in _ _ _ Hu). unfold_statements.
  repeat (store_simpl; next_test); store_simpl;
  intros H; inversion H; subst; clear H; store_simpl;
  cbn [CardProfiles.id CardProfiles.userId] in *;
  repeat match goal with
         | H : context [key_taken _ _ (rows_update _ _ _)] |- _ =>
             rewrite key_taken_update in H by reflexivity
         end;
  (split; [assumption|]); (split; [reflexivity|]);
  (split; [reflexivity|]); eexists; (split; [reflexivity|]);
  (split; [try reflexivity; apply rows_update_keys; reflexivity|]);
  intros; try reflexivity; congruence.
Qed.

(** X12. A created profile reads back.  After createProfile returned
    [p], listProfiles of the same caller ends with [p], an updateProfile for
    [p]'s id that provides nothing returns [p] itself, and for any other
    user updateProfile and deleteProfile on that id fail with [NOT_FOUND]
    and leave the store alone. *)
Theorem created_profile_reads_back (input : CreateProfile.input)
  (context : ActionAPIContext) (env : Env) (st st' : Store) (u : User)
  (p : CardProfiles.row) :
  context_user context = Some u -> pk_ok st = true ->
  createProfile input context env st = (st', inr (Some p)) ->
  (forall env', exists earlier,
      listProfiles context env' st' = (st', inr (earlier ++ [p])%list))
  /\ (forall env' nothing,
        UpdateProfile.id nothing = CardProfiles.id p ->
        Provided.nothing_for_profile nothing ->
        updateProfile nothing context env' st' = (st', inr (Some p)))
  /\ (forall other v env',
        context_user other = Some v -> user_id v <> user_id u ->
        (forall change,
            UpdateProfile.id change = CardProfiles.id p ->
            updateProfile change other env' st'
            = (st', inl (ActionError NOT_FOUND)))
        /\ deleteProfile {| DeleteProfile.id := CardProfiles.id p |}
             other env' st'
           = (st', inl (ActionError NOT_FOUND))).
Proof.
  intros Hu Hpk Hrun.
  destruct (@createProfile_stored input context env st st' u p Hu Hrun)
    as (Hfresh & Hown & _ & before & Hst' & _ & _).
  assert (pk_ok st' = true) as Hpk'
    by (eapply server_preserves_pk;
        [exact Hpk|apply server_of_createProfile; exact Hrun]).
  assert (In p (profiles st')) as Hin
    by (rewrite Hst'; apply in_or_app; right; now left).
  split; [|split].
  - intros env'. unfold listProfiles, bind.
    rewrite (requireUser_signed_in _ _ _ Hu). unfold_statements.
    rewrite Hst'. unfold rows_where. rewrite filter_app. cbn [filter].
    unfold profile_of at 2. rewrite Hown, String.eqb_refl. eauto.
  - intros env' nothing Hid Hnone.
    apply updateProfile_nothing with (u := u); auto.
  - intros other v env' Hv Hne.
    assert (~ owns_profile st' v (CardProfiles.id p)) as Hmiss.
    { intros [r (Hr & Hid & Hrv)].
      assert (r = p) as ->.
      { apply andb_true_iff in Hpk'. destruct Hpk' as [Hkeys _].
        apply keys_unique_same with (key := CardProfiles.id)
          (t := profiles st'); auto. }
      congruence. }
    split.
    + intros change Hid.
      pose proof (@not_found_when_target_missing (UpdateProfile change)
                    other env' st' v Hv) as Hnf.
      simpl in Hnf. rewrite Hid in Hnf. specialize (Hnf Hmiss).
      unfold bind in Hnf.
      destruct (updateProfile change other env' st') as [s [e|a]];
        inversion Hnf; reflexivity.
    + pose proof (@not_found_when_target_missing
                    (DeleteProfile
                       {| DeleteProfile.id := CardProfiles.id p |})
                    other env' st' v Hv Hmiss) as Hnf.
      simpl in Hnf. unfold bind in Hnf.
      destruct (deleteProfile _ other env' st') as [s [e|a]];
        inversion Hnf; reflexivity.
Qed.

(** What a successful createDesign leaves behind. *)
Lemma createDesign_stored (input : CreateDesign.input)
  (context : ActionAPIContext) (env : Env) (st st' : Store) (u : User)
  (d : CardDesigns.row) :
  context_user context = Some u ->
  createDesign input context env st = (st', inr (Some d)) ->
  owns_profile st u (CreateDesign.profileId input)
  /\ CardDesigns.profileId d = CreateDesign.profileId input
  /\ CardDesigns.userId d = user_id u
  /\ profiles st' = profiles st
  /\ exists before, designs st' = (before ++ [d])%list.
Proof.
  intros Hu. unfold createDesign, bind.
  rewrite (requireUser_signed_in _ _ _ Hu). unfold_statements.
  destruct (first_row _) as [owner|] eqn:Hfound; [|discriminate].
  apply first_row_where in Hfound. destruct Hfound as [Hin Hc].
  apply profile_is_true in Hc.
  assert (owns_profile st u (CreateDesign.profileId input)) as Hown
    by (exists owner; tauto).
  repeat (store_simpl; next_test); store_simpl;
  intros H; inversion H; subst; clear H; store_simpl;
  (split; [exact Hown|]); repeat (split; [reflexivity|]);
  eexists; reflexivity.
Qed.

(** X13. A created design reads back.  After createDesign returned [d],
    listDesigns of the same caller without a filter, or filtered by [d]'s
    profile, contains [d], and an updateDesign for [d]'s id and profile that
    provides nothing returns [d] itself. *)
Theorem created_design_reads_back (input : CreateDesign.input)
  (context : ActionAPIContext) (env : Env) (st st' : Store) (u : User)
  (d : CardDesigns.row) :
  context_user context = Some u -> pk_ok st = true ->
  createDesign input context env st = (st', inr (Some d)) ->
  (forall env' listing,
      filter_of listing = None
      \/ filter_of listing = Some (CardDesigns.profileId d) ->
      exists rows,
        listDesigns listing context env' st' = (st', inr rows) /\ In d rows)
  /\ (forall env' nothing,
        UpdateDesign.id nothing = CardDesigns.id d ->
        UpdateDesign.profileId nothing = CardDesigns.profileId d ->
        Provided.nothing_for_design nothing ->
        updateDesign nothing context env' st' = (st', inr (Some d))).
Proof.
  intros Hu Hpk Hrun.
  destruct (@createDesign_stored input context env st st' u d Hu Hrun)
    as (Hown & Hpid & Hd & Hprofiles & before & Hst').
  assert (pk_ok st' = true) as Hpk'
    by (eapply server_preserves_pk;
        [exact Hpk|apply server_of_createDesign; exact Hrun]).
  assert (In d (designs st')) as Hin
    by (rewrite Hst'; apply in_or_app; right; now left).
  assert (owns_profile st' u (CardDesigns.profileId d)) as Hown'.
  { destruct Hown as [r Hr]. exists r. now rewrite Hprofiles, Hpid. }
  split.
  - intros env' listing Hfilter.
    rewrite (listDesigns_signed_in _ _ _ _ Hu). cbv zeta.
    assert (has_id (rows_where (profile_of u) (profiles st'))
              (CardDesigns.profileId d) = true) as Hallowed
      by (now apply allowed_iff_owned).
    assert (design_of u d = true) as Hmine
      by (unfold design_of; rewrite Hd; apply String.eqb_refl).
    destruct (truthy_string (filter_of listing)) eqn:T.
    + destruct Hfilter as [Hf|Hf]; rewrite Hf in *; [discriminate|].
      cbn [nullish]. rewrite Hallowed. eexists. split; [reflexivity|].
      unfold rows_where. apply filter_In. split; auto.
      apply design_in_true. auto.
    + eexists. split; [reflexivity|].
      unfold rows_where in *. apply filter_In. split; auto.
      cbv beta. now rewrite Hallowed, Hmine.
  - intros env' nothing Hid Hnpid Hnone.
    destruct Hown' as [r (Hr & Hrid & Hru)].
    apply updateDesign_nothing with (u := u) (p := r); auto; congruence.
Qed.

(** ** Creating and deleting *)


(** X15. A deleted profile is gone: after deleteProfile returned the
    deleted row, the same call again, and any updateProfile for that id,
    fail with [NOT_FOUND] and leave the store alone. *)
Theorem deleted_profile_is_gone (input : DeleteProfile.input)
  (context : ActionAPIContext) (env env' : Env) (st st' : Store)
  (r : CardProfiles.row) :
  deleteProfile input context env st = (st', inr (Some r)) ->
  deleteProfile input context env' st' = (st', inl (ActionError NOT_FOUND))
  /\ (forall change, UpdateProfile.id change = DeleteProfile.id input ->
        updateProfile change context env' st'
        = (st', inl (ActionError NOT_FOUND))).
Proof.
  unfold deleteProfile at 1. unfold bind, requireUser.
  destruct (context_user context) as [u|] eqn:Hu; [|discriminate].
  unfold ret, delete_profiles, throw.
  destruct (foreign_keys env && _); [discriminate|].
  destruct (hd_error _); [|discriminate].
  intros H. inversion H; subst. clear H.
  set (c := profile_is (DeleteProfile.id input) u).
  assert (~ owns_profile
            (with_profiles (rows_delete c (profiles st)) st) u
            (DeleteProfile.id input)) as Hmiss.
  { intros [x (Hx & Hid & Hown)]. store_simpl.
    unfold rows_delete in Hx. apply filter_In in Hx. destruct Hx as [_ Hx].
    assert (c x = true) as E by (apply profile_is_true; auto).
    rewrite E in Hx. discriminate. }
  split.
  - pose proof (@not_found_when_target_missing (DeleteProfile input)
                  context env' _ u Hu Hmiss) as Hnf.
    simpl in Hnf. unfold bind in Hnf.
    destruct (deleteProfile input context env' _) as [s [e|a]];
      inversion Hnf; reflexivity.
  - intros change Hid.
    pose proof (@not_found_when_target_missing (UpdateProfile change)
                  context env'
                  (with_profiles (rows_delete c (profiles st)) st) u Hu)
      as Hnf.
    simpl in Hnf. rewrite Hid in Hnf. specialize (Hnf Hmiss).
    unfold bind in Hnf.
    destruct (updateProfile change context env' _) as [s [e|a]];
      inversion Hnf; reflexivity.
Qed.

(** ** What an update leaves alone *)

Lemma In_rows_update_same (R : Type) (c : R -> bool) (f : R -> R)
  (t : list R) (r : R) :
  In r t -> c r = false -> In r (rows_update c f t).
Proof.
  intros Hin Hc. apply In_rows_update. exists r. now rewrite Hc.
Qed.

Lemma updateProfile_leaves_other_rows (input : UpdateProfile.input)
  (context : ActionAPIContext) (env : Env) (st st' : Store) (u : User)
  (res : Thrown + option CardProfiles.row) (r : CardProfiles.row) :
  context_user context = Some u ->
  updateProfile input context env st = (st', res) ->
  In r (profiles st) ->
  CardProfiles.id r <> UpdateProfile.id input ->
  truthy_bool (UpdateProfile.isDefault input) = false
  \/ CardProfiles.isDefault r = false
  \/ CardProfiles.userId r <> user_id u ->
  In r (profiles st').
Proof.
  intros Hu Hrun Hin Hid Hcase. revert Hrun.
  assert (profile_is (UpdateProfile.id input) u r = false) as Hnot.
  { destruct (profile_is _ u r) eqn:E; auto.
    apply profile_is_true in E. tauto. }
  unfold updateProfile, bind.
  rewrite (requireUser_signed_in _ _ _ Hu). unfold_statements.
  destruct (first_row _); [|intros H; inversion H; subst; exact Hin].
  destruct (truthy_bool (UpdateProfile.isDefault input)) eqn:T; store_simpl;
    (destruct (Nat.eqb _ 0); intros H; inversion H; subst; clear H;
     store_simpl);
    repeat (apply In_rows_update_same; [|try exact Hnot]);
    try exact Hin.
  all: destruct Hcase as [Hc|[Hc|Hc]]; [discriminate| |].
  all: unfold profile_of; try (rewrite Hc; now rewrite andb_false_r).
  all: apply andb_false_iff; left; now apply String.eqb_neq.
Qed.

Lemma updateDesign_leaves_other_rows (input : UpdateDesign.input)
  (context : ActionAPIContext) (env : Env) (st st' : Store) (u : User)
  (res : Thrown + option CardDesigns.row) (d : CardDesigns.row) :
  context_user context = Some u ->
  updateDesign input context env st = (st', res) ->
  In d (designs st) ->
  CardDesigns.id d <> UpdateDesign.id input ->
  truthy_bool (UpdateDesign.isPrimaryDesign input) = false
  \/ CardDesigns.profileId d <> UpdateDesign.profileId input
  \/ CardDesigns.userId d <> user_id u ->
  In d (designs st').
Proof.
  intros Hu Hrun Hin Hid Hcase. revert Hrun.
  assert ((CardDesigns.id d =? UpdateDesign.id input) = false) as Hnot
    by (now apply String.eqb_neq).
  unfold updateDesign, bind.
  rewrite (requireUser_signed_in _ _ _ Hu). unfold_statements.
  destruct (first_row _); [|intros H; inversion H; subst; exact Hin].
  destruct (first_row _); [|intros H; inversion H; subst; exact Hin].
  destruct (negb _); [intros H; inversion H; subst; exact Hin|].
  destruct (truthy_bool (UpdateDesign.isPrimaryDesign input)) eqn:T;
    store_simpl;
    (destruct (Nat.eqb _ 0); intros H; inversion H; subst; clear H;
     store_simpl);
    repeat (apply In_rows_update_same; [|try exact Hnot]);
    try exact Hin.
  all: destruct Hcase as [Hc|[Hc|Hc]]; [discriminate| |].
  all: unfold design_in; apply andb_false_iff;
    solve [ left; now apply String.eqb_neq
          | right; now apply String.eqb_neq ].
Qed.

(** X16. An update leaves the caller's other rows alone.  updateProfile
    keeps every profile other than its target as it is, [updatedAt]
    included, unless [isDefault = true] is requested and the row is a
    default profile of the caller.  updateDesign keeps every design other
    than its target unless [isPrimaryDesign = true] is requested and the
    row is a design of the caller in the same profile (whether or not that
    design was primary). *)
Theorem updates_leave_other_rows (context : ActionAPIContext) (env : Env)
  (st : Store) (u : User) :
  context_user context = Some u ->
  (forall input st' res r,
      updateProfile input context env st = (st', res) ->
      In r (profiles st) ->
      CardProfiles.id r <> UpdateProfile.id input ->
      truthy_bool (UpdateProfile.isDefault input) = false
      \/ CardProfiles.isDefault r = false
      \/ CardProfiles.userId r <> user_id u ->
      In r (profiles st'))
  /\ (forall input st' res d,
        updateDesign input context env st = (st', res) ->
        In d (designs st) ->
        CardDesigns.id d <> UpdateDesign.id input ->
        truthy_bool (UpdateDesign.isPrimaryDesign input) = false
        \/ CardDesigns.profileId d <> UpdateDesign.profileId input
        \/ CardDesigns.userId d <> user_id u ->
        In d (designs st')).
Proof.
  intros Hu. split; intros.
  - eapply updateProfile_leaves_other_rows; eauto.
  - eapply updateDesign_leaves_other_rows; eauto.
Qed.

(** ** Updating twice *)

Lemma overwrites_again {A : Type} (v : option A) (a b c : A) :
  Merge.overwrites v a b -> Merge.overwrites v b c -> c = b.
Proof. destruct v; simpl; congruence. Qed.

Lemma overwrites_opt_again {A : Type} (v a b c : option A) :
  Merge.overwrites_opt v a b -> Merge.overwrites_opt v b c -> c = b.
Proof. destruct v; simpl; congruence. Qed.

Lemma updateProfile_found (input : UpdateProfile.input)
  (context : ActionAPIContext) (env : Env) (st st' : Store) (u : User)
  (p : CardProfiles.row) :
  context_user context = Some u -> pk_ok st = true ->
  updateProfile input context env st = (st', inr (Some p)) ->
  exists e, In e (profiles st)
            /\ CardProfiles.id e = UpdateProfile.id input
            /\ CardProfiles.userId e = user_id u
            /\ In p (profiles st')
            /\ CardProfiles.id p = CardProfiles.id e
            /\ CardProfiles.userId p = CardProfiles.userId e
            /\ CardProfiles.createdAt p = CardProfiles.createdAt e
            /\ Merge.profile input e p.
Proof.
  intros Hu Hpk Hrun.
  destruct (first_row (rows_where (profile_is (UpdateProfile.id input) u)
                         (profiles st))) as [e|] eqn:Hfound.
  - apply first_row_where in Hfound. destruct Hfound as [Hin He].
    apply profile_is_true in He. destruct He as [Hid Hown].
    destruct (@updateProfile_merges input context env st u e
                Hu Hpk Hin Hid Hown) as [st1 [q (Hrun1 & Hq)]].
    rewrite Hrun in Hrun1. inversion Hrun1; subst. exists e. tauto.
  - revert Hrun. unfold updateProfile, bind.
    rewrite (requireUser_signed_in _ _ _ Hu). unfold_statements.
    rewrite Hfound. discriminate.
Qed.

Lemma updateDesign_found (input : UpdateDesign.input)
  (context : ActionAPIContext) (env : Env) (st st' : Store) (u : User)
  (d : CardDesigns.row) :
  context_user context = Some u -> pk_ok st = true ->
  updateDesign input context env st = (st', inr (Some d)) ->
  exists owner e,
    In owner (profiles st)
    /\ CardProfiles.id owner = UpdateDesign.profileId input
    /\ CardProfiles.userId owner = user_id u
    /\ In e (designs st)
    /\ CardDesigns.id e = UpdateDesign.id input
    /\ CardDesigns.userId e = user_id u
    /\ CardDesigns.profileId e = UpdateDesign.profileId input
    /\ In d (designs st')
    /\ CardDesigns.id d = CardDesigns.id e
    /\ CardDesigns.userId d = CardDesigns.userId e
    /\ CardDesigns.profileId d = CardDesigns.profileId e
    /\ CardDesigns.createdAt d = CardDesigns.createdAt e
    /\ Merge.design input e d.
Proof.
  intros Hu Hpk Hrun.
  assert (exists owner e,
    first_row (rows_where (profile_is (UpdateDesign.profileId input) u)
                 (profiles st)) = Some owner
    /\ first_row (rows_where (design_is (UpdateDesign.id input) u)
                    (designs st)) = Some e
    /\ CardDesigns.profileId e = UpdateDesign.profileId input)
    as [owner [e (Ho & He & Hsame)]].
  { revert Hrun. unfold updateDesign, bind.
    rewrite (requireUser_signed_in _ _ _ Hu). unfold_statements.
    destruct (first_row _) as [owner|]; [|discriminate].
    destruct (first_row _) as [e|]; [|discriminate].
    destruct (CardDesigns.profileId e =? UpdateDesign.profileId input)
      eqn:E; cbn [negb]; [|discriminate].
    apply String.eqb_eq in E. eauto. }
  apply first_row_where in Ho. destruct Ho as [Hoin Ho].
  apply profile_is_true in Ho. destruct Ho as [Hoid Hoown].
  apply first_row_where in He. destruct He as [Hein He].
  apply design_is_true in He. destruct He as [Heid Heown].
  destruct (@updateDesign_merges input context env st u owner e
              Hu Hpk Hoin Hoid Hoown Hein Heid Heown Hsame)
    as [st1 [q (Hrun1 & Hq)]].
  rewrite Hrun in Hrun1. inversion Hrun1; subst.
  exists owner, e. tauto.
Qed.

(** X17. Updating twice with the same input is updating once, but for the
    time stamp: the record the second call returns is the record the first
    call returned with, at most, another [updatedAt]. *)
Theorem repeated_update_only_restamps (context : ActionAPIContext)
  (env env' : Env) (st st1 : Store) (u : User) :
  context_user context = Some u -> pk_ok st = true ->
  (forall input p,
      updateProfile input context env st = (st1, inr (Some p)) ->
      exists st2 q,
        updateProfile input context env' st1 = (st2, inr (Some q))
        /\ q = CardProfiles.set_isDefault (CardProfiles.isDefault p)
                 (CardProfiles.updatedAt q) p)
  /\ (forall input d,
        updateDesign input context env st = (st1, inr (Some d)) ->
        exists st2 q,
          updateDesign input context env' st1 = (st2, inr (Some q))
          /\ q = CardDesigns.set_isPrimaryDesign
                   (CardDesigns.isPrimaryDesign d)
                   (CardDesigns.updatedAt q) d).
Proof.
  intros Hu Hpk. split.
  - intros input p Hrun.
    destruct (@updateProfile_found input context env st st1 u p Hu Hpk Hrun)
      as [e (_ & Hide & Howne & Hin & Hid & Hown & _ & Hm)].
    assert (pk_ok st1 = true) as Hpk1
      by (eapply server_preserves_pk;
          [exact Hpk|apply server_of_updateProfile; exact Hrun]).
    destruct (@updateProfile_merges input context env' st1 u p Hu Hpk1 Hin)
      as [st2 [q (Hrun2 & _ & Hqid & Hqown & Hqcreated & Hm2)]];
      [congruence|congruence|].
    exists st2, q. split; [exact Hrun2|].
    unfold Merge.profile in Hm, Hm2.
    decompose [and] Hm. decompose [and] Hm2.
    repeat match goal with
           | H1 : Merge.overwrites ?v ?a ?b,
             H2 : Merge.overwrites ?v ?b ?c |- _ =>
               pose proof (overwrites_again _ _ _ _ H1 H2); clear H1 H2
           | H1 : Merge.overwrites_opt ?v ?a ?b,
             H2 : Merge.overwrites_opt ?v ?b ?c |- _ =>
               pose proof (overwrites_opt_again _ _ _ _ H1 H2); clear H1 H2
           end.
    destruct p, q. unfold CardProfiles.set_isDefault.
    cbn [CardProfiles.id CardProfiles.userId CardProfiles.profileName
         CardProfiles.fullName CardProfiles.jobTitle CardProfiles.companyName
         CardProfiles.email CardProfiles.phone CardProfiles.secondaryPhone
         CardProfiles.website CardProfiles.addressLine1
         CardProfiles.addressLine2 CardProfiles.city CardProfiles.state
         CardProfiles.country CardProfiles.postalCode CardProfiles.notes
         CardProfiles.isDefault CardProfiles.createdAt
         CardProfiles.updatedAt] in *.
    subst. reflexivity.
  - intros input d Hrun.
    destruct (@updateDesign_found input context env st st1 u d Hu Hpk Hrun)
      as [owner [e (Hoin & Hoid & Hoown & _ & Hide & Howne & Hsame & Hin
                    & Hid & Hown & Hpid & _ & Hm)]].
    assert (pk_ok st1 = true) as Hpk1
      by (eapply server_preserves_pk;
          [exact Hpk|apply server_of_updateDesign; exact Hrun]).
    assert (profiles st1 = profiles st) as Hprofiles.
    { destruct (server_separates_tables _ _ _ _
                  (server_of_updateDesign _ _ _ _ Hrun)) as (_ & H & _).
      now apply H. }
    rewrite <- Hprofiles in Hoin.
    destruct (@updateDesign_merges input context env' st1 u owner d
                Hu Hpk1 Hoin Hoid Hoown Hin)
      as [st2 [q (Hrun2 & _ & Hqid & Hqown & Hqpid & Hqcreated & Hm2)]];
      [congruence|congruence|congruence|].
    exists st2, q. split; [exact Hrun2|].
    unfold Merge.design in Hm, Hm2.
    decompose [and] Hm. decompose [and] Hm2.
    repeat match goal with
           | H1 : Merge.overwrites ?v ?a ?b,
             H2 : Merge.overwrites ?v ?b ?c |- _ =>
               pose proof (overwrites_again _ _ _ _ H1 H2); clear H1 H2
           | H1 : Merge.overwrites_opt ?v ?a ?b,
             H2 : Merge.overwrites_opt ?v ?b ?c |- _ =>
               pose proof (overwrites_opt_again _ _ _ _ H1 H2); clear H1 H2
           end.
    destruct d, q. unfold CardDesigns.set_isPrimaryDesign.
    cbn [CardDesigns.id CardDesigns.profileId CardDesigns.userId
         CardDesigns.designName CardDesigns.templateKey
         CardDesigns.colorPalette CardDesigns.fontConfig
         CardDesigns.layoutConfig CardDesigns.logoUrl CardDesigns.isFavorite
         CardDesigns.isPrimaryDesign CardDesigns.createdAt
         CardDesigns.updatedAt] in *.
    subst. reflexivity.
Qed.

(** ** Listing in a store that enforces the reference *)


(** ** C1, C3, C6 and C9 *)

Lemma updateProfile_keeps_ids (input : UpdateProfile.input)
  (context : ActionAPIContext) (env : Env) (st st' : Store)
  (res : Thrown + option CardProfiles.row) :
  updateProfile input context env st = (st', res) ->
  map CardProfiles.id (profiles st') = map CardProfiles.id (profiles st).
Proof.
  unfold updateProfile, bind, requireUser.
  destruct (context_user context) as [u|];
    [|intros H; inversion H; reflexivity].
  unfold_statements.
  repeat (store_simpl; next_test); store_simpl;
    intros H; inversion H; subst; clear H; store_simpl;
    rewrite ?(@rows_update_keys _ CardProfiles.id) by reflexivity;
    reflexivity.
Qed.

Lemma createProfile_default_succeeds (input : CreateProfile.input)
  (context : ActionAPIContext) (env : Env) (st : Store) (u : User) :
  context_user context = Some u ->
  CreateProfile.isDefault input = Some true ->
  key_taken CardProfiles.id (id_for (CreateProfile.id input) env st)
    (profiles st) = false ->
  exists st' p,
    createProfile input context env st = (st', inr (Some p))
    /\ CardProfiles.id p = id_for (CreateProfile.id input) env st
    /\ CardProfiles.userId p = user_id u
    /\ CardProfiles.isDefault p = true
    /\ rows_where (default_of u) (profiles st') = [p]
    /\ map CardProfiles.id (profiles st')
       = (map CardProfiles.id (profiles st) ++ [CardProfiles.id p])%list.
Proof.
  intros Hu Hdef Hfresh.
  destruct (createProfile input context env st) as [st' res] eqn:Hrun.
  destruct (@createProfile_result input context env st st' u res Hu Hrun)
    as [_ Hres].
  rewrite Hfresh in Hres.
  destruct Hres as [p [before (-> & Hst' & Hid & Hown & Hflag & _)]].
  destruct (@createProfile_stored input context env st st' u p Hu Hrun)
    as (_ & _ & _ & before' & Hst'' & Hids & _).
  exists st', p. split; [reflexivity|]. split; [exact Hid|].
  split; [exact Hown|]. split; [now rewrite Hflag, Hdef|].
  split; [now apply createProfile_single_default
                 with (input := input) (context := context) (env := env)
                      (st := st)|].
  rewrite Hst''. rewrite map_app. simpl. now rewrite Hids.
Qed.

Lemma updateProfile_default_succeeds (input : UpdateProfile.input)
  (context : ActionAPIContext) (env : Env) (st : Store) (u : User)
  (r : CardProfiles.row) :
  context_user context = Some u -> pk_ok st = true ->
  In r (profiles st) ->
  CardProfiles.id r = UpdateProfile.id input ->
  CardProfiles.userId r = user_id u ->
  UpdateProfile.isDefault input = Some true ->
  exists st' p,
    updateProfile input context env st = (st', inr (Some p))
    /\ CardProfiles.id p = UpdateProfile.id input
    /\ CardProfiles.userId p = user_id u
    /\ CardProfiles.isDefault p = true
    /\ rows_where (default_of u) (profiles st') = [p]
    /\ map CardProfiles.id (profiles st') = map CardProfiles.id (profiles st).
Proof.
  intros Hu Hpk Hin Hid Hown Hdef.
  destruct (@updateProfile_merges input context env st u r
              Hu Hpk Hin Hid Hown)
    as [st' [p (Hrun & _ & Hpid & Hpown & _ & Hm)]].
  exists st', p. split; [exact Hrun|].
  destruct (@updateProfile_single_default input context env st st' u p
              Hu Hpk Hdef Hrun) as [Honly Hpid'].
  split; [exact Hpid'|]. split; [congruence|].
  split.
  - unfold Merge.profile in Hm. rewrite Hdef in Hm.
    decompose [and] Hm. assumption.
  - split; [exact Honly|]. eapply updateProfile_keeps_ids; eauto.
Qed.

Lemma createProfile_returns_row (input : CreateProfile.input)
  (context : ActionAPIContext) (env : Env) (st st' : Store) (u : User)
  (x : option CardProfiles.row) :
  context_user context = Some u ->
  createProfile input context env st = (st', inr x) ->
  exists p, x = Some p.
Proof.
  intros Hu Hrun.
  destruct (@createProfile_result input context env st st' u (inr x) Hu Hrun)
    as [_ Hres].
  destruct (key_taken _ _ _).
  - destruct Hres as [Habs _]. discriminate.
  - destruct Hres as [p [before (Hx & _)]]. exists p. congruence.
Qed.

Lemma updateProfile_returns_row (input : UpdateProfile.input)
  (context : ActionAPIContext) (env : Env) (st st' : Store) (u : User)
  (x : option CardProfiles.row) :
  context_user context = Some u -> pk_ok st = true ->
  updateProfile input context env st = (st', inr x) ->
  exists p, x = Some p.
Proof.
  intros Hu Hpk Hrun.
  destruct (first_row (rows_where (profile_is (UpdateProfile.id input) u)
                         (profiles st))) as [e|] eqn:Hfound.
  - apply first_row_where in Hfound. destruct Hfound as [Hin He].
    apply profile_is_true in He. destruct He as [Hid Hown].
    destruct (@updateProfile_merges input context env st u e
                Hu Hpk Hin Hid Hown) as [st1 [q (Hrun1 & _)]].
    rewrite Hrun in Hrun1. inversion Hrun1. eauto.
  - revert Hrun. unfold updateProfile, bind.
    rewrite (requireUser_signed_in _ _ _ Hu). unfold_statements.
    rewrite Hfound. discriminate.
Qed.

(** C1. With the input [isDefault = true], createProfile (when the id it
    inserts is not yet stored) and updateProfile (on a profile the caller
    owns) succeed, and the profile they return, the created one or the one
    with the requested id, is afterwards the only row of the caller with
    [isDefault = true]: the flag of every other profile of the caller has
    been cleared, and no row was removed.  Whenever either operation
    completes with that input, under whatever circumstances, it returns a
    profile and that profile is the caller's only default row. *)
Theorem default_profile_is_unique (context : ActionAPIContext) (env : Env)
  (st : Store) (u : User) :
  context_user context = Some u -> pk_ok st = true ->
  (forall input,
      CreateProfile.isDefault input = Some true ->
      key_taken CardProfiles.id (id_for (CreateProfile.id input) env st)
        (profiles st) = false ->
      exists st' p,
        createProfile input context env st = (st', inr (Some p))
        /\ CardProfiles.id p = id_for (CreateProfile.id input) env st
        /\ CardProfiles.userId p = user_id u
        /\ CardProfiles.isDefault p = true
        /\ rows_where (default_of u) (profiles st') = [p]
        /\ map CardProfiles.id (profiles st')
           = (map CardProfiles.id (profiles st)
              ++ [CardProfiles.id p])%list)
  /\ (forall input r,
        In r (profiles st) ->
        CardProfiles.id r = UpdateProfile.id input ->
        CardProfiles.userId r = user_id u ->
        UpdateProfile.isDefault input = Some true ->
        exists st' p,
          updateProfile input context env st = (st', inr (Some p))
          /\ CardProfiles.id p = UpdateProfile.id input
          /\ CardProfiles.userId p = user_id u
          /\ CardProfiles.isDefault p = true
          /\ rows_where (default_of u) (profiles st') = [p]
          /\ map CardProfiles.id (profiles st')
             = map CardProfiles.id (profiles st))
  /\ (forall st' x,
        (exists input, CreateProfile.isDefault input = Some true /\
           createProfile input context env st = (st', inr x))
        \/ (exists input, UpdateProfile.isDefault input = Some true /\
              updateProfile input context env st = (st', inr x)) ->
        exists p,
          x = Some p
          /\ rows_where (default_of u) (profiles st') = [p]
          /\ (forall r, In r (profiles st') ->
                CardProfiles.userId r = user_id u ->
                CardProfiles.isDefault r = true -> r = p)).
Proof.
  intros Hu Hpk. split; [|split].
  - intros. now apply createProfile_default_succeeds.
  - intros. now apply updateProfile_default_succeeds with (r := r).
  - intros st' x Hop.
    assert (exists p, x = Some p
                      /\ rows_where (default_of u) (profiles st') = [p])
      as [p [-> Honly]].
    { destruct Hop as [[input [Hdef Hrun]]|[input [Hdef Hrun]]].
      - destruct (@createProfile_returns_row input context env st st' u x
                    Hu Hrun) as [p ->].
        exists p. split; auto.
        eapply createProfile_single_default; eauto.
      - destruct (@updateProfile_returns_row input context env st st' u x
                    Hu Hpk Hrun) as [p ->].
        exists p. split; auto.
        eapply updateProfile_single_default; eauto. }
    exists p. split; [reflexivity|]. split; [exact Honly|].
    intros r Hin Hown Hdef.
    assert (In r (rows_where (default_of u) (profiles st'))) as Hr.
    { apply filter_In. split; auto. unfold default_of, profile_of.
      rewrite Hown, Hdef, String.eqb_refl. reflexivity. }
    rewrite Honly in Hr. destruct Hr as [Hr|[]]. auto.
Qed.

Lemma referenced_one (r : CardProfiles.row) (ds : list CardDesigns.row) :
  referenced [r] ds
  = existsb (fun d => CardDesigns.profileId d =? CardProfiles.id r) ds.
Proof.
  unfold referenced. induction ds as [|d ds IH]; [reflexivity|].
  cbn [existsb]. rewrite IH. f_equal. unfold key_taken. cbn [existsb].
  rewrite orb_false_r. apply String.eqb_sym.
Qed.

(** C9, as the code has it.  For an authenticated caller, deleteProfile
    never changes the CardDesigns table, whatever its outcome, and never
    cascades.  A profile the caller does not own gives [NOT_FOUND] and an
    unchanged store.  For a profile the caller owns: where the store
    enforces the declared reference and some design still refers to the
    profile, the call fails with the store's constraint violation and
    removes nothing; in every other case it returns the profile, the
    CardProfiles table is the old one with exactly that row taken out, and
    the designs that referred to it, which only a store that does not
    enforce the reference lets exist at that point, are still stored while
    no profile carries the id they refer to. *)
Theorem deleteProfile_does_not_cascade (input : DeleteProfile.input)
  (context : ActionAPIContext) (env : Env) (st st' : Store) (u : User)
  (res : Thrown + option CardProfiles.row) :
  context_user context = Some u -> pk_ok st = true ->
  deleteProfile input context env st = (st', res) ->
  designs st' = designs st
  /\ (~ owns_profile st u (DeleteProfile.id input) ->
      res = inl (ActionError NOT_FOUND) /\ st' = st)
  /\ (forall r,
        In r (profiles st) ->
        CardProfiles.id r = DeleteProfile.id input ->
        CardProfiles.userId r = user_id u ->
        if foreign_keys env
           && existsb (fun d => CardDesigns.profileId d
                                =? DeleteProfile.id input) (designs st)
        then res = inl ConstraintViolation /\ st' = st
        else res = inr (Some r)
             /\ (exists l1 l2, profiles st = (l1 ++ r :: l2)%list
                               /\ profiles st' = (l1 ++ l2)%list)
             /\ (forall d, In d (designs st) ->
                   CardDesigns.profileId d = CardProfiles.id r ->
                   In d (designs st')
                   /\ key_taken CardProfiles.id (CardDesigns.profileId d)
                        (profiles st') = false)).
Proof.
  intros Hu Hpk Hrun.
  assert (keys_unique CardProfiles.id (profiles st) = true) as Hkeys
    by (apply andb_true_iff in Hpk; tauto).
  split; [|split].
  - revert Hrun. unfold deleteProfile, bind.
    rewrite (requireUser_signed_in _ _ _ Hu).
    unfold delete_profiles, throw, ret.
    destruct (foreign_keys env && _);
      [intros H; inversion H; reflexivity|].
    destruct (hd_error _); intros H; inversion H; reflexivity.
  - intros Hmiss.
    pose proof (@not_found_when_target_missing (DeleteProfile input)
                  context env st u Hu Hmiss) as Hnf.
    unfold server, bind in Hnf. rewrite Hrun in Hnf.
    destruct res; inversion Hnf; subst; auto.
  - intros r Hin Hid Hown. revert Hrun. unfold deleteProfile, bind.
    rewrite (requireUser_signed_in _ _ _ Hu).
    unfold delete_profiles, throw, ret.
    rewrite <- Hid. rewrite (lookup_profile _ _ _ Hpk Hin Hown).
    rewrite referenced_one.
    destruct (foreign_keys env && existsb _ (designs st));
      intros H; inversion H; subst; clear H; cbn [hd_error].
    + split; reflexivity.
    + split; [reflexivity|]. store_simpl.
      destruct (@rows_delete_one _ CardProfiles.id
                  (profile_is (CardProfiles.id r) u) (CardProfiles.id r)
                  (profiles st) r Hkeys) as [l1 [l2 (Ht & Hdel & Hk)]].
      { intros x Hx. now apply profile_is_true in Hx. }
      { now rewrite (lookup_profile _ _ _ Hpk Hin Hown). }
      split; [exists l1, l2; split; auto|].
      intros d Hd Hpid. split; auto. rewrite Hdel, Hpid. exact Hk.
Qed.

(** The empty string as a filter is no filter. *)
Lemma listDesigns_empty_filter (input : option ListDesigns.input)
  (context : ActionAPIContext) (env : Env) (st : Store) :
  filter_of input = Some EmptyString ->
  listDesigns input context env st = listDesigns None context env st.
Proof.
  intros H. unfold listDesigns. cbn [filter_of]. rewrite H. reflexivity.
Qed.

Lemma listDesigns_unfiltered (input : option ListDesigns.input)
  (context : ActionAPIContext) (env : Env) (st : Store) (u : User) :
  context_user context = Some u ->
  truthy_string (filter_of input) = false ->
  exists rows,
    listDesigns input context env st = (st, inr rows)
    /\ rows = rows_where
                (fun d => has_id (rows_where (profile_of u) (profiles st))
                            (CardDesigns.profileId d) && design_of u d)
                (designs st)
    /\ forall d, In d rows <->
                 In d (designs st)
                 /\ CardDesigns.userId d = user_id u
                 /\ owns_profile st u (CardDesigns.profileId d).
Proof.
  intros Hu T. rewrite (listDesigns_signed_in _ _ _ _ Hu). cbv zeta.
  rewrite T. eexists. split; [reflexivity|]. split; [reflexivity|].
  intros d. unfold rows_where at 1. rewrite filter_In, andb_true_iff.
  rewrite allowed_iff_owned. unfold design_of. rewrite String.eqb_eq.
  tauto.
Qed.

(** C3, as the code has it.  For an authenticated caller, updateProfile,
    deleteProfile, createDesign, updateDesign, and listDesigns with a
    profileId filter other than the empty string, fail with [NOT_FOUND]
    whenever the profile or design they refer to does not exist or is owned
    by a different user, and the store is then unchanged.  Whatever the
    request and its outcome, the rows of both tables that belong to other
    users are the same after the call as before it.  A listDesigns call
    whose profileId is the empty string is not rejected: it is the call
    without a filter, and returns exactly the caller's designs of the
    caller's current profiles. *)
Theorem not_found_and_foreign_rows_untouched (req : Request)
  (context : ActionAPIContext) (env : Env) (st : Store) (u : User) :
  context_user context = Some u -> pk_ok st = true ->
  (target_missing u st req ->
   server req context env st = (st, inl (ActionError NOT_FOUND)))
  /\ (forall st' res,
        server req context env st = (st', res) ->
        rows_where (foreign_profile u) (profiles st')
          = rows_where (foreign_profile u) (profiles st)
        /\ rows_where (foreign_design u) (designs st')
          = rows_where (foreign_design u) (designs st))
  /\ (forall input,
        req = ListDesigns input ->
        filter_of input = Some EmptyString ->
        server req context env st = server (ListDesigns None) context env st
        /\ exists rows,
             server req context env st = (st, inr (Designs rows))
             /\ forall d, In d rows <->
                          In d (designs st)
                          /\ CardDesigns.userId d = user_id u
                          /\ owns_profile st u (CardDesigns.profileId d)).
Proof.
  intros Hu Hpk. split; [|split].
  - now apply not_found_when_target_missing.
  - intros st' res Hrun. eapply server_leaves_foreign_rows; eauto.
  - intros input -> Hempty.
    assert (truthy_string (filter_of input) = false) as T
      by (now rewrite Hempty).
    destruct (@listDesigns_unfiltered input context env st u Hu T)
      as [rows (Hrun & _ & Hiff)].
    unfold server, bind.
    rewrite (listDesigns_empty_filter input context env st Hempty) in *.
    split; [reflexivity|].
    exists rows. rewrite Hrun. split; [reflexivity|exact Hiff].
Qed.

(** C6, as the code has it.  For an authenticated caller, listDesigns
    called with a profileId filter other than the empty string fails with
    [NOT_FOUND] when the filter does not identify a profile the caller owns;
    when it does, the call returns exactly the caller's designs whose
    profileId equals the filter, in table order.  With the empty string as
    profileId the call is the call without a filter: it does not fail and
    returns exactly the caller's designs whose profileId is the id of a
    profile the caller currently owns. *)
Theorem listDesigns_with_filter (input : option ListDesigns.input)
  (context : ActionAPIContext) (env : Env) (st : Store) (u : User) :
  context_user context = Some u ->
  (forall p,
      filter_of input = Some p -> p <> EmptyString ->
      (~ owns_profile st u p ->
       listDesigns input context env st = (st, inl (ActionError NOT_FOUND)))
      /\ (owns_profile st u p ->
          exists rows,
            listDesigns input context env st = (st, inr rows)
            /\ rows = rows_where (design_in p u) (designs st)
            /\ forall d, In d rows <->
                         In d (designs st)
                         /\ CardDesigns.userId d = user_id u
                         /\ CardDesigns.profileId d = p))
  /\ (filter_of input = Some EmptyString ->
      listDesigns input context env st = listDesigns None context env st
      /\ exists rows,
           listDesigns input context env st = (st, inr rows)
           /\ forall d, In d rows <->
                        In d (designs st)
                        /\ CardDesigns.userId d = user_id u
                        /\ owns_profile st u (CardDesigns.profileId d)).
Proof.
  intros Hu. split.
  - intros p Hp Hne. rewrite (listDesigns_signed_in _ _ _ _ Hu), Hp.
    cbv zeta. rewrite (truthy_nonempty Hne). cbn [nullish].
    split; intros Hown.
    + destruct (has_id _ p) eqn:E; auto.
      apply allowed_iff_owned in E. contradiction.
    + rewrite (proj2 (allowed_iff_owned st u p) Hown).
      eexists. split; [reflexivity|]. split; [reflexivity|].
      intros d. unfold rows_where. rewrite filter_In, design_in_true. tauto.
  - intros Hempty.
    split; [now apply listDesigns_empty_filter|].
    assert (truthy_string (filter_of input) = false) as T
      by (now rewrite Hempty).
    destruct (@listDesigns_unfiltered input context env st u Hu T)
      as [rows (Hrun & _ & Hiff)].
    exists rows. split; [exact Hrun|exact Hiff].
Qed.

(** ** The claims on concrete stores *)


(** The claim C3 fails for listDesigns: no profile of the populated store
    has the empty string for its id, yet Alice's listDesigns call with
    [profileId] set to the empty string succeeds, with all her designs. *)
Lemma listDesigns_empty_filter_not_rejected :
  (forall r, In r (profiles (Scenario.populated true)) ->
             CardProfiles.id r <> EmptyString)
  /\ filter_of Cases.empty_filter = Some EmptyString
  /\ exists rows,
       server (ListDesigns Cases.empty_filter)
         (Scenario.signed_in Scenario.alice) (Scenario.env true)
         (Scenario.populated true)
       = (Scenario.populated true, inr (Designs rows))
       /\ map CardDesigns.id rows = ["d1"; "d2"; "d3"].
Proof.
  split.
  - intros r Hin. vm_compute in Hin.
    destruct Hin as [<-|[<-|[<-|[]]]]; discriminate.
  - split; [reflexivity|]. eexists. split; vm_compute; reflexivity.
Qed.

Lemma bob_profile_is_not_alices :
  ~ owns_profile (Scenario.populated true) Scenario.alice "pC".
Proof.
  intros [r (Hin & Hid & Hown)]. vm_compute in Hin.
  destruct Hin as [<-|[<-|[<-|[]]]]; discriminate.
Qed.

(** C4 at work: Alice gives her second profile a company name and makes it
    her default, then renames her second design of profile pA; the other
    fields keep what was stored. *)
Lemma update_overwrites_provided_fields_witness :
  context_user (Scenario.signed_in Scenario.alice) = Some Scenario.alice
  /\ pk_ok (Scenario.populated true) = true
  /\ (exists r,
        In r (profiles (Scenario.populated true))
        /\ CardProfiles.id r = "pB"
        /\ CardProfiles.userId r = "alice"
        /\ exists st' p,
             updateProfile
               (Scenario.change_profile "pB" (Some "Initech") (Some true))
               (Scenario.signed_in Scenario.alice) (Scenario.env true)
               (Scenario.populated true) = (st', inr (Some p))
             /\ In p (profiles st')
             /\ CardProfiles.id p = CardProfiles.id r
             /\ CardProfiles.userId p = CardProfiles.userId r
             /\ CardProfiles.createdAt p = CardProfiles.createdAt r
             /\ Merge.profile
                  (Scenario.change_profile "pB" (Some "Initech") (Some true))
                  r p)
  /\ (exists owner d,
        In owner (profiles (Scenario.populated true))
        /\ CardProfiles.id owner = "pA"
        /\ CardProfiles.userId owner = "alice"
        /\ In d (designs (Scenario.populated true))
        /\ CardDesigns.id d = "d2"
        /\ CardDesigns.userId d = "alice"
        /\ CardDesigns.profileId d = "pA"
        /\ exists st' d',
             updateDesign
               (Scenario.change_design "d2" "pA" (Some "Gradient") None)
               (Scenario.signed_in Scenario.alice) (Scenario.env true)
               (Scenario.populated true) = (st', inr (Some d'))
             /\ In d' (designs st')
             /\ CardDesigns.id d' = CardDesigns.id d
             /\ CardDesigns.userId d' = CardDesigns.userId d
             /\ CardDesigns.profileId d' = CardDesigns.profileId d
             /\ CardDesigns.createdAt d' = CardDesigns.createdAt d
             /\ Merge.design
                  (Scenario.change_design "d2" "pA" (Some "Gradient") None)
                  d d').
Proof.
  split; [reflexivity|]. split; [reflexivity|].
  destruct (@update_overwrites_provided_fields
              (Scenario.signed_in Scenario.alice) (Scenario.env true)
              (Scenario.populated true) Scenario.alice eq_refl eq_refl)
    as [Hprofile Hdesign].
  split.
  - eexists. split; [vm_compute; right; left; reflexivity|].
    split; [reflexivity|]. split; [reflexivity|].
    apply Hprofile.
    + vm_compute. right. left. reflexivity.
    + reflexivity.
    + reflexivity.
  - eexists. eexists. split; [vm_compute; left; reflexivity|].
    split; [reflexivity|]. split; [reflexivity|].
    split; [vm_compute; right; left; reflexivity|].
    split; [reflexivity|]. split; [reflexivity|]. split; [reflexivity|].
    eapply Hdesign.
    + vm_compute. left. reflexivity.
    + reflexivity.
    + reflexivity.
    + vm_compute. right. left. reflexivity.
    + reflexivity.
    + reflexivity.
    + reflexivity.
Defined.

(** C5 at work: Alice sends updates of her second profile and of her
    second design that provide nothing, the last time under the wrong
    profile. *)
Lemma empty_update_is_a_no_op_witness :
  context_user (Scenario.signed_in Scenario.alice) = Some Scenario.alice
  /\ pk_ok (Scenario.populated true) = true
  /\ Provided.nothing_for_profile (Scenario.change_profile "pB" None None)
  /\ Provided.nothing_for_design
       (Scenario.change_design "d2" "pA" None None)
  /\ (exists r,
        In r (profiles (Scenario.populated true))
        /\ CardProfiles.id r = "pB"
        /\ CardProfiles.userId r = "alice"
        /\ updateProfile (Scenario.change_profile "pB" None None)
             (Scenario.signed_in Scenario.alice) (Scenario.env true)
             (Scenario.populated true)
           = (Scenario.populated true, inr (Some r)))
  /\ (exists owner d,
        In owner (profiles (Scenario.populated true))
        /\ CardProfiles.id owner = "pA"
        /\ CardProfiles.userId owner = "alice"
        /\ In d (designs (Scenario.populated true))
        /\ CardDesigns.id d = "d2"
        /\ CardDesigns.userId d = "alice"
        /\ CardDesigns.profileId d = "pA"
        /\ updateDesign (Scenario.change_design "d2" "pA" None None)
             (Scenario.signed_in Scenario.alice) (Scenario.env true)
             (Scenario.populated true)
           = (Scenario.populated true, inr (Some d)))
  /\ (exists st' e,
        updateDesign (Scenario.change_design "d2" "pB" None None)
          (Scenario.signed_in Scenario.alice) (Scenario.env true)
          (Scenario.populated true) = (st', inl e)
        /\ e = ActionError NOT_FOUND
        /\ st' = Scenario.populated true).
Proof.
  split; [reflexivity|]. split; [reflexivity|].
  assert (Provided.nothing_for_profile
            (Scenario.change_profile "pB" None None)) as Hnone
    by (repeat split).
  assert (Provided.nothing_for_design
            (Scenario.change_design "d2" "pA" None None)) as Hnone'
    by (repeat split).
  split; [exact Hnone|]. split; [exact Hnone'|].
  destruct (@empty_update_is_a_no_op
              (Scenario.signed_in Scenario.alice) (Scenario.env true)
              (Scenario.populated true) Scenario.alice eq_refl eq_refl)
    as (Hprofile & Hdesign & _ & Hframe).
  split; [|split].
  - eexists. split; [vm_compute; right; left; reflexivity|].
    split; [reflexivity|]. split; [reflexivity|].
    apply Hprofile.
    + vm_compute. right. left. reflexivity.
    + reflexivity.
    + reflexivity.
    + exact Hnone.
  - eexists. eexists. split; [vm_compute; left; reflexivity|].
    split; [reflexivity|]. split; [reflexivity|].
    split; [vm_compute; right; left; reflexivity|].
    split; [reflexivity|]. split; [reflexivity|]. split; [reflexivity|].
    eapply Hdesign.
    + vm_compute. left. reflexivity.
    + reflexivity.
    + reflexivity.
    + vm_compute. right. left. reflexivity.
    + reflexivity.
    + reflexivity.
    + reflexivity.
    + exact Hnone'.
  - eexists. eexists.
    assert (updateDesign (Scenario.change_design "d2" "pB" None None)
              (Scenario.signed_in Scenario.alice) (Scenario.env true)
              (Scenario.populated true) = (_, inl (ActionError NOT_FOUND)))
      as Hrun by (vm_compute; reflexivity).
    split; [exact Hrun|]. split; [reflexivity|].
    assert (Provided.nothing_for_design
              (Scenario.change_design "d2" "pB" None None)) as Hnone''
      by (repeat split).
    exact (Hframe _ _ _ Hnone'' Hrun).
Defined.

(** The claim C6 fails when the filter is the empty string.  Bob, who has
    no profile at all in the empty store, gets an empty list and no
    [NOT_FOUND]; Alice, who owns a profile whose id is the empty string,
    gets the designs of all her profiles and not those of that profile
    alone. *)
Lemma listDesigns_empty_filter_is_no_filter :
  (~ owns_profile Scenario.empty Scenario.bob EmptyString
   /\ listDesigns Cases.empty_filter (Scenario.signed_in Scenario.bob)
        (Scenario.env true) Scenario.empty = (Scenario.empty, inr []))
  /\ (owns_profile Cases.unnamed Scenario.alice EmptyString
      /\ exists rows d,
           listDesigns Cases.empty_filter (Scenario.signed_in Scenario.alice)
             (Scenario.env true) Cases.unnamed = (Cases.unnamed, inr rows)
           /\ In d rows
           /\ CardDesigns.profileId d = "pA").
Proof.
  split; split.
  - intros [r (Hin & _)]. destruct Hin.
  - reflexivity.
  - eexists. split; [vm_compute; left; reflexivity|]. split; reflexivity.
  - eexists. eexists. split; [vm_compute; reflexivity|].
    split; [right; left; reflexivity|]. reflexivity.
Qed.

Lemma alice_owns_pA :
  owns_profile (Scenario.populated true) Scenario.alice "pA".
Proof.
  eexists. split; [vm_compute; left; reflexivity|]. split; reflexivity.
Qed.

(** The claim C7 fails: no operation of the exported object is a delete
    operation for Design. *)
Lemma no_delete_operation_for_design :
  ~ exists req, group_of req = GDelete /\ entity_of req = EDesign.
Proof. intros [req [Hg He]]. destruct req; discriminate. Qed.

(** C7 at work: the one delete operation leaves the designs where they
    are. *)
Lemma operations_exposed_witness :
  (exists req, group_of req = GDelete /\ entity_of req = EProfile)
  /\ exists st' res added,
       server (DeleteProfile {| DeleteProfile.id := "pA" |})
         (Scenario.signed_in Scenario.alice) (Scenario.env false)
         (Scenario.populated false) = (st', res)
       /\ map CardDesigns.id (designs st')
          = (map CardDesigns.id (designs (Scenario.populated false))
             ++ added)%list.
Proof.
  split.
  - apply (proj1 operations_exposed GDelete EProfile).
    intros [_ H]. discriminate H.
  - eexists. eexists.
    assert (server (DeleteProfile {| DeleteProfile.id := "pA" |})
              (Scenario.signed_in Scenario.alice) (Scenario.env false)
              (Scenario.populated false) = (_, _)) as Hrun
      by (vm_compute; reflexivity).
    destruct (proj2 operations_exposed _ _ _ _ _ _ Hrun) as [added Hadded].
    exists added. split; [exact Hrun|exact Hadded].
Defined.

(** C8 at work: an anonymous caller and a signed-in one list profiles. *)
Lemma unauthorized_exactly_without_user_witness :
  context_user Scenario.anonymous = None
  /\ server ListProfiles Scenario.anonymous (Scenario.env true)
       (Scenario.populated true)
     = (Scenario.populated true, inl (ActionError UNAUTHORIZED))
  /\ context_user (Scenario.signed_in Scenario.bob) = Some Scenario.bob
  /\ snd (server ListProfiles (Scenario.signed_in Scenario.bob)
            (Scenario.env true) (Scenario.populated true))
     <> inl (ActionError UNAUTHORIZED).
Proof.
  split; [reflexivity|]. split.
  - exact (proj1 (unauthorized_exactly_without_user ListProfiles
                    Scenario.anonymous (Scenario.env true)
                    (Scenario.populated true)) eq_refl).
  - split; [reflexivity|].
    exact (proj2 (unauthorized_exactly_without_user ListProfiles
                    (Scenario.signed_in Scenario.bob) (Scenario.env true)
                    (Scenario.populated true)) Scenario.bob eq_refl).
Defined.

(** C10 at work: after Alice deleted profile pB its design d3 is still
    stored under her userId, and her unfiltered listing leaves it out. *)
Lemma listDesigns_without_filter_witness :
  context_user (Scenario.signed_in Scenario.alice) = Some Scenario.alice
  /\ filter_of None = None
  /\ exists rows,
       listDesigns None (Scenario.signed_in Scenario.alice)
         (Scenario.env false) Cases.orphaned = (Cases.orphaned, inr rows)
       /\ map CardDesigns.id rows = ["d1"; "d2"]
       /\ exists d, In d (designs Cases.orphaned)
                    /\ CardDesigns.id d = "d3"
                    /\ CardDesigns.userId d = "alice"
                    /\ ~ In d rows.
Proof.
  split; [reflexivity|]. split; [reflexivity|].
  destruct (@listDesigns_without_filter None
              (Scenario.signed_in Scenario.alice) (Scenario.env false)
              Cases.orphaned Scenario.alice eq_refl eq_refl)
    as [rows (Hrun & Hiff & Horphan)].
  exists rows. split; [exact Hrun|].
  assert (rows = snd (match listDesigns None
                              (Scenario.signed_in Scenario.alice)
                              (Scenario.env false) Cases.orphaned with
                      | (st, inr l) => (st, l)
                      | (st, inl _) => (st, [])
                      end)) as Hrows by (now rewrite Hrun).
  split; [rewrite Hrows; vm_compute; reflexivity|].
  eexists. split; [vm_compute; right; right; left; reflexivity|].
  split; [reflexivity|]. split; [reflexivity|].
  apply Horphan.
  - vm_compute. right. right. left. reflexivity.
  - reflexivity.
  - intros [r (Hin & Hid & _)]. vm_compute in Hin.
    destruct Hin as [<-|[<-|[]]]; discriminate.
Defined.

(** ** The claims on concrete stores, continued *)

Lemma run_reachable (e : Env) (calls : list (User * Request)) (st : Store) :
  reachable st -> reachable (Scenario.run e calls st).
Proof.
  revert st. induction calls as [|[u req] calls IH]; intros st Hst; auto.
  simpl. apply IH.
  destruct (server req (Scenario.signed_in u) e st) as [st' res] eqn:E.
  simpl. eapply reachable_request; eauto.
Qed.


Lemma store_reachable : reachable Calls.store.
Proof. apply run_reachable. apply reachable_empty. Qed.


(** C1 at work, on the example of the specification: Alice creates
    profile A as her default and then profile B as her default; and in the
    populated store she makes her second profile the default by an
    update. *)
Lemma default_profile_is_unique_witness :
  context_user Calls.as_alice = Some Scenario.alice
  /\ pk_ok Cases.one_default = true
  /\ pk_ok Calls.store = true
  /\ (CreateProfile.isDefault
        (Scenario.new_profile "pB" "Second" (Some true)) = Some true
      /\ key_taken CardProfiles.id
           (id_for (CreateProfile.id
                      (Scenario.new_profile "pB" "Second" (Some true)))
              Calls.strict Cases.one_default)
           (profiles Cases.one_default) = false
      /\ exists st' p,
           createProfile (Scenario.new_profile "pB" "Second" (Some true))
             Calls.as_alice Calls.strict Cases.one_default
           = (st', inr (Some p))
           /\ rows_where (default_of Scenario.alice) (profiles st') = [p]
           /\ map (fun r => (CardProfiles.id r, CardProfiles.isDefault r))
                (profiles st') = [("pA", false); ("pB", true)])
  /\ (exists r,
        In r (profiles Calls.store)
        /\ CardProfiles.id r = "pB"
        /\ CardProfiles.userId r = "alice"
        /\ exists st' p,
             updateProfile (Scenario.change_profile "pB" None (Some true))
               Calls.as_alice Calls.strict Calls.store
             = (st', inr (Some p))
             /\ CardProfiles.id p = "pB"
             /\ CardProfiles.isDefault p = true
             /\ rows_where (default_of Scenario.alice) (profiles st') = [p]
             /\ map (fun r => (CardProfiles.id r, CardProfiles.isDefault r))
                  (profiles st')
                = [("pA", false); ("pB", true); ("pC", true)]).
Proof.
  split; [reflexivity|]. split; [reflexivity|]. split; [reflexivity|].
  split.
  - split; [reflexivity|].
    assert (key_taken CardProfiles.id
              (id_for (CreateProfile.id
                         (Scenario.new_profile "pB" "Second" (Some true)))
                 Calls.strict Cases.one_default)
              (profiles Cases.one_default) = false) as Hfresh
      by (vm_compute; reflexivity).
    split; [exact Hfresh|].
    destruct (@default_profile_is_unique Calls.as_alice Calls.strict
                Cases.one_default Scenario.alice eq_refl eq_refl)
      as (Hcreate & _ & _).
    destruct (Hcreate (Scenario.new_profile "pB" "Second" (Some true))
                eq_refl Hfresh)
      as [st' [p (Hrun & _ & _ & _ & Honly & _)]].
    exists st', p. split; [exact Hrun|]. split; [exact Honly|].
    assert (exists s q,
               createProfile (Scenario.new_profile "pB" "Second" (Some true))
                 Calls.as_alice Calls.strict Cases.one_default
               = (s, inr (Some q))
               /\ map (fun r => (CardProfiles.id r, CardProfiles.isDefault r))
                    (profiles s) = [("pA", false); ("pB", true)])
      as [s [q [Hs Hmap]]]
      by (eexists; eexists; split; vm_compute; reflexivity).
    rewrite Hrun in Hs. injection Hs as -> _. exact Hmap.
  - eexists. split; [vm_compute; right; left; reflexivity|].
    split; [reflexivity|]. split; [reflexivity|].
    destruct (@default_profile_is_unique Calls.as_alice Calls.strict
                Calls.store Scenario.alice eq_refl eq_refl)
      as (_ & Hupdate & _).
    destruct (Hupdate (Scenario.change_profile "pB" None (Some true)) _
                ltac:(vm_compute; right; left; reflexivity)
                eq_refl eq_refl eq_refl)
      as [st' [p (Hrun & Hid & _ & Hflag & Honly & _)]].
    exists st', p. split; [exact Hrun|]. split; [exact Hid|].
    split; [exact Hflag|]. split; [exact Honly|].
    assert (exists s q,
               updateProfile (Scenario.change_profile "pB" None (Some true))
                 Calls.as_alice Calls.strict Calls.store
               = (s, inr (Some q))
               /\ map (fun r => (CardProfiles.id r, CardProfiles.isDefault r))
                    (profiles s)
                  = [("pA", false); ("pB", true); ("pC", true)])
      as [s [q [Hs Hmap]]]
      by (eexists; eexists; split; vm_compute; reflexivity).
    rewrite Hrun in Hs. injection Hs as -> _. exact Hmap.
Defined.

(** C3 at work: Alice tries to rename Bob's profile, then makes one of
    her own designs the primary one, which leaves Bob's rows as they were,
    and then lists her designs with the empty string for a filter. *)
Lemma not_found_and_foreign_rows_untouched_witness :
  context_user Calls.as_alice = Some Scenario.alice
  /\ pk_ok Calls.store = true
  /\ target_missing Scenario.alice Calls.store
       (UpdateProfile (Scenario.change_profile "pC" (Some "Mine") None))
  /\ server (UpdateProfile (Scenario.change_profile "pC" (Some "Mine") None))
       Calls.as_alice Calls.strict Calls.store
     = (Calls.store, inl (ActionError NOT_FOUND))
  /\ (exists st' d,
        server (UpdateDesign
                  (Scenario.change_design "d2" "pA" None (Some true)))
          Calls.as_alice Calls.strict Calls.store
        = (st', inr (Design (Some d)))
        /\ rows_where (foreign_profile Scenario.alice) (profiles st')
           = rows_where (foreign_profile Scenario.alice)
               (profiles Calls.store)
        /\ rows_where (foreign_design Scenario.alice) (designs st')
           = rows_where (foreign_design Scenario.alice)
               (designs Calls.store))
  /\ filter_of Cases.empty_filter = Some EmptyString
  /\ server (ListDesigns Cases.empty_filter)
       Calls.as_alice Calls.strict Calls.store
     = server (ListDesigns None) Calls.as_alice Calls.strict Calls.store.
Proof.
  split; [reflexivity|]. split; [reflexivity|].
  split; [exact bob_profile_is_not_alices|].
  split; [|split; [|split; [reflexivity|]]].
  - exact (proj1 (@not_found_and_foreign_rows_untouched
                    (UpdateProfile
                       (Scenario.change_profile "pC" (Some "Mine") None))
                    Calls.as_alice Calls.strict Calls.store Scenario.alice
                    eq_refl eq_refl)
                 bob_profile_is_not_alices).
  - assert (server (UpdateDesign
                      (Scenario.change_design "d2" "pA" None (Some true)))
              Calls.as_alice Calls.strict Calls.store
            = (_, inr (Design (Some _)))) as Hrun
      by (vm_compute; reflexivity).
    eexists. eexists. split; [exact Hrun|].
    exact (proj1 (proj2 (@not_found_and_foreign_rows_untouched
                           (UpdateDesign
                              (Scenario.change_design "d2" "pA" None
                                 (Some true)))
                           Calls.as_alice Calls.strict Calls.store
                           Scenario.alice eq_refl eq_refl))
                 _ _ Hrun).
  - exact (proj1 (proj2 (proj2 (@not_found_and_foreign_rows_untouched
                                  (ListDesigns Cases.empty_filter)
                                  Calls.as_alice Calls.strict Calls.store
                                  Scenario.alice eq_refl eq_refl))
                   Cases.empty_filter eq_refl eq_refl)).
Defined.

(** C6 at work: Alice lists by Bob's profile, by her own, and by the
    empty string. *)
Lemma listDesigns_with_filter_witness :
  context_user Calls.as_alice = Some Scenario.alice
  /\ filter_of (Cases.by_profile "pC") = Some "pC"
  /\ "pC" <> EmptyString
  /\ ~ owns_profile Calls.store Scenario.alice "pC"
  /\ listDesigns (Cases.by_profile "pC") Calls.as_alice Calls.strict
       Calls.store
     = (Calls.store, inl (ActionError NOT_FOUND))
  /\ owns_profile Calls.store Scenario.alice "pA"
  /\ (exists rows,
        listDesigns (Cases.by_profile "pA") Calls.as_alice Calls.strict
          Calls.store
        = (Calls.store, inr rows)
        /\ map CardDesigns.id rows = ["d1"; "d2"])
  /\ filter_of Cases.empty_filter = Some EmptyString
  /\ exists rows,
       listDesigns Cases.empty_filter Calls.as_alice Calls.strict
         Calls.store
       = (Calls.store, inr rows)
       /\ listDesigns None Calls.as_alice Calls.strict Calls.store
          = (Calls.store, inr rows)
       /\ map CardDesigns.id rows = ["d1"; "d2"; "d3"].
Proof.
  split; [reflexivity|]. split; [reflexivity|]. split; [discriminate|].
  split; [exact bob_profile_is_not_alices|].
  split; [|split; [exact alice_owns_pA|split; [|split; [reflexivity|]]]].
  - apply (proj1 (proj1 (@listDesigns_with_filter (Cases.by_profile "pC")
                           Calls.as_alice Calls.strict Calls.store
                           Scenario.alice eq_refl)
                    "pC" eq_refl ltac:(discriminate))).
    exact bob_profile_is_not_alices.
  - destruct (proj2 (proj1 (@listDesigns_with_filter (Cases.by_profile "pA")
                              Calls.as_alice Calls.strict Calls.store
                              Scenario.alice eq_refl)
                       "pA" eq_refl ltac:(discriminate)) alice_owns_pA)
      as [rows (Hrun & Hrows & _)].
    exists rows. split; [exact Hrun|]. rewrite Hrows. reflexivity.
  - destruct (proj2 (@listDesigns_with_filter Cases.empty_filter
                       Calls.as_alice Calls.strict Calls.store
                       Scenario.alice eq_refl) eq_refl)
      as [Hsame [rows (Hrun & _)]].
    exists rows. split; [exact Hrun|]. split; [now rewrite <- Hsame|].
    assert (exists l,
               listDesigns Cases.empty_filter Calls.as_alice Calls.strict
                 Calls.store = (Calls.store, inr l)
               /\ map CardDesigns.id l = ["d1"; "d2"; "d3"])
      as [l [Hl Hmap]]
      by (eexists; split; vm_compute; reflexivity).
    rewrite Hrun in Hl. injection Hl as ->. exact Hmap.
Defined.

(** The claim C9 fails where the store enforces the reference: Alice owns
    profile pA, her design d1 refers to it, and her deleteProfile call for
    pA is rejected by the store; the profile is not removed. *)
Lemma deleteProfile_rejected_when_referenced :
  owns_profile Calls.store Scenario.alice "pA"
  /\ (exists d, In d (designs Calls.store)
                /\ CardDesigns.id d = "d1"
                /\ CardDesigns.profileId d = "pA")
  /\ deleteProfile (Calls.remove "pA") Calls.as_alice Calls.strict Calls.store
     = (Calls.store, inl ConstraintViolation).
Proof.
  split; [exact alice_owns_pA|]. split.
  - eexists. split; [vm_compute; left; reflexivity|]. split; reflexivity.
  - vm_compute. reflexivity.
Qed.

(** C9 at work.  Where the store enforces the reference, Alice's delete
    of profile pA, to which designs refer, is rejected; where it does not,
    the profile goes and its two designs stay behind. *)
Lemma deleteProfile_does_not_cascade_witness :
  context_user Calls.as_alice = Some Scenario.alice
  /\ pk_ok Calls.store = true
  /\ pk_ok Calls.lax_store = true
  /\ (exists r,
        In r (profiles Calls.store)
        /\ CardProfiles.id r = "pA" /\ CardProfiles.userId r = "alice"
        /\ exists st' res,
             deleteProfile (Calls.remove "pA") Calls.as_alice Calls.strict
               Calls.store = (st', res)
             /\ res = inl ConstraintViolation /\ st' = Calls.store)
  /\ (exists r,
        In r (profiles Calls.lax_store)
        /\ CardProfiles.id r = "pA" /\ CardProfiles.userId r = "alice"
        /\ exists st' res,
             deleteProfile (Calls.remove "pA") Calls.as_alice Calls.lax
               Calls.lax_store = (st', res)
             /\ res = inr (Some r)
             /\ designs st' = designs Calls.lax_store
             /\ map CardProfiles.id (profiles st') = ["pB"; "pC"]
             /\ (forall d, In d (designs Calls.lax_store) ->
                   CardDesigns.profileId d = CardProfiles.id r ->
                   In d (designs st')
                   /\ key_taken CardProfiles.id (CardDesigns.profileId d)
                        (profiles st') = false)).
Proof.
  split; [reflexivity|]. split; [reflexivity|]. split; [reflexivity|].
  split.
  - eexists. split; [vm_compute; left; reflexivity|].
    split; [reflexivity|]. split; [reflexivity|].
    assert (deleteProfile (Calls.remove "pA") Calls.as_alice Calls.strict
              Calls.store = (_, _)) as Hrun by (vm_compute; reflexivity).
    eexists. eexists. split; [exact Hrun|].
    destruct (@deleteProfile_does_not_cascade (Calls.remove "pA")
                Calls.as_alice Calls.strict Calls.store _ Scenario.alice _
                eq_refl eq_refl Hrun) as (_ & _ & Howned).
    exact (Howned _ ltac:(vm_compute; left; reflexivity) eq_refl eq_refl).
  - eexists. split; [vm_compute; left; reflexivity|].
    split; [reflexivity|]. split; [reflexivity|].
    assert (deleteProfile (Calls.remove "pA") Calls.as_alice Calls.lax
              Calls.lax_store = (_, _)) as Hrun by (vm_compute; reflexivity).
    eexists. eexists. split; [exact Hrun|].
    destruct (@deleteProfile_does_not_cascade (Calls.remove "pA")
                Calls.as_alice Calls.lax Calls.lax_store _ Scenario.alice _
                eq_refl eq_refl Hrun) as (Hdesigns & _ & Howned).
    destruct (Howned _ ltac:(vm_compute; left; reflexivity) eq_refl eq_refl)
      as (Hres & _ & Horphans).
    split; [exact Hres|]. split; [exact Hdesigns|].
    split; [vm_compute; reflexivity|]. exact Horphans.
Defined.

(** ** The further properties on concrete stores *)

Ltac decide_key H :=
  match type of H with
  | context [if ?k then _ else _] =>
      let b := eval vm_compute in k in
      let Hk := fresh "Hk" in
      assert (k = b) as Hk by (vm_compute; reflexivity);
      rewrite Hk in H; clear Hk
  end.

(** Alice creates a profile under the id of Bob's profile: the store
    rejects the insert. *)
Lemma createProfile_outcome_witness :
  context_user Calls.as_alice = Some Scenario.alice
  /\ exists st' res,
       createProfile Calls.taken_profile Calls.as_alice Calls.strict
         Calls.store = (st', res)
       /\ designs st' = designs Calls.store
       /\ res = inl ConstraintViolation
       /\ map CardProfiles.id (profiles st')
          = map CardProfiles.id (profiles Calls.store).
Proof.
  split; [reflexivity|].
  assert (createProfile Calls.taken_profile Calls.as_alice Calls.strict
            Calls.store = (_, _)) as Hrun by (vm_compute; reflexivity).
  eexists. eexists. split; [exact Hrun|].
  destruct (@createProfile_outcome Calls.taken_profile Calls.as_alice
              Calls.strict Calls.store _ Scenario.alice _ eq_refl Hrun)
    as [Hdesigns Hcase].
  decide_key Hcase. destruct Hcase as (Hres & Hids & _).
  split; [exact Hdesigns|]. split; [exact Hres|exact Hids].
Defined.

(** Alice adds a design to her first profile under a fresh id: the row is
    appended. *)
Lemma createDesign_outcome_witness :
  context_user Calls.as_alice = Some Scenario.alice
  /\ owns_profile Calls.store Scenario.alice
       (CreateDesign.profileId Calls.further_design)
  /\ exists st' res,
       createDesign Calls.further_design Calls.as_alice Calls.strict
         Calls.store = (st', res)
       /\ profiles st' = profiles Calls.store
       /\ exists d,
            res = inr (Some d)
            /\ designs st' = (designs Calls.store ++ [d])%list
            /\ CardDesigns.id d = "d9"
            /\ CardDesigns.profileId d = "pA"
            /\ CardDesigns.userId d = "alice"
            /\ CardDesigns.isPrimaryDesign d = false.
Proof.
  split; [reflexivity|]. split; [exact alice_owns_pA|].
  assert (createDesign Calls.further_design Calls.as_alice Calls.strict
            Calls.store = (_, _)) as Hrun by (vm_compute; reflexivity).
  eexists. eexists. split; [exact Hrun|].
  destruct (@createDesign_outcome Calls.further_design Calls.as_alice
              Calls.strict Calls.store _ Scenario.alice _ eq_refl
              alice_owns_pA Hrun)
    as [Hprofiles Hcase].
  decide_key Hcase.
  destruct Hcase as [d [before (Hres & Hst & Hid & Hp & Hu & Hflag & Hsame)]].
  split; [exact Hprofiles|]. exists d.
  split; [exact Hres|]. split; [rewrite <- (Hsame eq_refl); exact Hst|].
  split; [exact Hid|]. split; [exact Hp|]. split; [exact Hu|exact Hflag].
Defined.

(** Alice asks for a new default profile under Bob's id and for a new
    primary design under the id of Bob's design: both calls fail, and she
    is left with no default profile and no primary design of pA. *)
Lemma failed_create_still_clears_flags_witness :
  context_user Calls.as_alice = Some Scenario.alice
  /\ (CreateProfile.isDefault Calls.taken_profile = Some true
      /\ key_taken CardProfiles.id
           (id_for (CreateProfile.id Calls.taken_profile) Calls.strict
              Calls.store)
           (profiles Calls.store) = true
      /\ List.length
           (rows_where (default_of Scenario.alice) (profiles Calls.store))
         = 1
      /\ exists st',
           createProfile Calls.taken_profile Calls.as_alice Calls.strict
             Calls.store = (st', inl ConstraintViolation)
           /\ rows_where (default_of Scenario.alice) (profiles st') = []
           /\ map CardProfiles.id (profiles st')
              = map CardProfiles.id (profiles Calls.store))
  /\ owns_profile Calls.store Scenario.alice
       (CreateDesign.profileId Calls.taken_design)
  /\ CreateDesign.isPrimaryDesign Calls.taken_design = Some true
  /\ key_taken CardDesigns.id
       (id_for (CreateDesign.id Calls.taken_design) Calls.strict Calls.store)
       (designs Calls.store) = true
  /\ List.length
       (rows_where (primary_in "pA" Scenario.alice) (designs Calls.store))
     = 1
  /\ exists st',
       createDesign Calls.taken_design Calls.as_alice Calls.strict
         Calls.store = (st', inl ConstraintViolation)
       /\ rows_where
            (primary_in (CreateDesign.profileId Calls.taken_design)
               Scenario.alice)
            (designs st') = []
       /\ map CardDesigns.id (designs st')
          = map CardDesigns.id (designs Calls.store).
Proof.
  assert (key_taken CardProfiles.id
            (id_for (CreateProfile.id Calls.taken_profile) Calls.strict
               Calls.store)
            (profiles Calls.store) = true) as Hp
    by (vm_compute; reflexivity).
  assert (key_taken CardDesigns.id
            (id_for (CreateDesign.id Calls.taken_design) Calls.strict
               Calls.store)
            (designs Calls.store) = true) as Hd
    by (vm_compute; reflexivity).
  destruct (@failed_create_still_clears_flags Calls.as_alice Calls.strict
              Calls.store Scenario.alice eq_refl) as [Hprofile Hdesign].
  split; [reflexivity|]. split.
  - split; [reflexivity|]. split; [exact Hp|].
    split; [vm_compute; reflexivity|].
    exact (Hprofile Calls.taken_profile eq_refl Hp).
  - split; [exact alice_owns_pA|]. split; [reflexivity|].
    split; [exact Hd|]. split; [vm_compute; reflexivity|].
    exact (Hdesign Calls.taken_design alice_owns_pA eq_refl Hd).
Defined.

(** The populated store has unique keys, and keeps them when Alice asks
    for a profile under Bob's id. *)
Lemma primary_keys_stay_unique_witness :
  reachable Calls.store
  /\ pk_ok Calls.store = true
  /\ exists st' res,
       server (CreateProfile Calls.taken_profile) Calls.as_alice Calls.strict
         Calls.store = (st', res)
       /\ pk_ok st' = true.
Proof.
  split; [exact store_reachable|].
  split; [exact (proj2 primary_keys_stay_unique _ store_reachable)|].
  assert (server (CreateProfile Calls.taken_profile) Calls.as_alice
            Calls.strict Calls.store = (_, _)) as Hrun
    by (vm_compute; reflexivity).
  eexists. eexists. split; [exact Hrun|].
  exact (proj1 primary_keys_stay_unique _ _ _ _ _ _
           (proj2 primary_keys_stay_unique _ store_reachable) Hrun).
Defined.





(** Alice's new default profile leaves the designs alone. *)
Lemma tables_are_separate_witness :
  exists st' res,
    server (CreateProfile Calls.fourth_profile) Calls.as_alice Calls.strict
      Calls.store = (st', res)
    /\ entity_of (CreateProfile Calls.fourth_profile) = EProfile
    /\ designs st' = designs Calls.store.
Proof.
  assert (server (CreateProfile Calls.fourth_profile) Calls.as_alice
            Calls.strict Calls.store = (_, _)) as Hrun
    by (vm_compute; reflexivity).
  eexists. eexists. split; [exact Hrun|]. split; [reflexivity|].
  exact (proj1 (@tables_are_separate _ _ _ _ _ _ Hrun) eq_refl).
Defined.


(** Whatever Alice's new default profile does to the store, Bob's
    listings are the same before and after. *)
Lemma listings_are_isolated_witness :
  context_user Calls.as_alice = Some Scenario.alice
  /\ context_user Calls.as_bob = Some Scenario.bob
  /\ user_id Scenario.bob <> user_id Scenario.alice
  /\ pk_ok Calls.store = true
  /\ exists st' res,
       server (CreateProfile Calls.fourth_profile) Calls.as_alice
         Calls.strict Calls.store = (st', res)
       /\ st' <> Calls.store
       /\ forall env1 env2 input,
            snd (listProfiles Calls.as_bob env1 st')
            = snd (listProfiles Calls.as_bob env2 Calls.store)
            /\ snd (listDesigns input Calls.as_bob env1 st')
               = snd (listDesigns input Calls.as_bob env2 Calls.store).
Proof.
  assert (user_id Scenario.bob <> user_id Scenario.alice) as Hother
    by discriminate.
  split; [reflexivity|]. split; [reflexivity|]. split; [exact Hother|].
  split; [reflexivity|].
  assert (server (CreateProfile Calls.fourth_profile) Calls.as_alice
            Calls.strict Calls.store = (_, _)) as Hrun
    by (vm_compute; reflexivity).
  eexists. eexists. split; [exact Hrun|]. split.
  - intros Hsame. apply (f_equal (fun s => List.length (profiles s))) in Hsame.
    vm_compute in Hsame. discriminate.
  - exact (@listings_are_isolated _ Calls.as_alice Calls.as_bob Calls.strict
             Calls.store _ Scenario.alice Scenario.bob _ eq_refl eq_refl
             Hother eq_refl Hrun).
Defined.

(** Alice creates a third profile: it is the last row of her listing, an
    update that provides nothing returns it, and Bob cannot reach it. *)
Lemma created_profile_reads_back_witness :
  context_user Calls.as_alice = Some Scenario.alice
  /\ context_user Calls.as_bob = Some Scenario.bob
  /\ pk_ok Calls.store = true
  /\ exists st' p,
       createProfile Calls.third_profile Calls.as_alice Calls.strict
         Calls.store = (st', inr (Some p))
       /\ CardProfiles.id p = "pD"
       /\ (exists earlier,
             listProfiles Calls.as_alice Calls.lax st'
             = (st', inr (earlier ++ [p])%list))
       /\ updateProfile (Scenario.change_profile "pD" None None)
            Calls.as_alice Calls.lax st' = (st', inr (Some p))
       /\ updateProfile (Scenario.change_profile "pD" (Some "Mine") None)
            Calls.as_bob Calls.lax st'
          = (st', inl (ActionError NOT_FOUND))
       /\ deleteProfile {| DeleteProfile.id := CardProfiles.id p |}
            Calls.as_bob Calls.lax st'
          = (st', inl (ActionError NOT_FOUND)).
Proof.
  split; [reflexivity|]. split; [reflexivity|]. split; [reflexivity|].
  assert (createProfile Calls.third_profile Calls.as_alice Calls.strict
            Calls.store = (_, inr (Some _))) as Hrun
    by (vm_compute; reflexivity).
  eexists. eexists. split; [exact Hrun|]. split; [reflexivity|].
  destruct (@created_profile_reads_back Calls.third_profile Calls.as_alice
              Calls.strict Calls.store _ Scenario.alice _ eq_refl eq_refl
              Hrun) as (Hlist & Hread & Hother).
  split; [exact (Hlist Calls.lax)|].
  split.
  - apply Hread; [reflexivity|]. repeat split.
  - destruct (Hother Calls.as_bob Scenario.bob Calls.lax eq_refl
                ltac:(discriminate)) as [Hupdate Hdelete].
    split; [apply Hupdate; reflexivity|exact Hdelete].
Defined.

(** Alice adds a design to her first profile: her listings have it, and
    an update that provides nothing returns it. *)
Lemma created_design_reads_back_witness :
  context_user Calls.as_alice = Some Scenario.alice
  /\ pk_ok Calls.store = true
  /\ exists st' d,
       createDesign Calls.further_design Calls.as_alice Calls.strict
         Calls.store = (st', inr (Some d))
       /\ CardDesigns.id d = "d9"
       /\ (exists rows,
             listDesigns None Calls.as_alice Calls.lax st' = (st', inr rows)
             /\ In d rows)
       /\ (exists rows,
             listDesigns (Cases.by_profile "pA") Calls.as_alice Calls.lax st'
             = (st', inr rows)
             /\ In d rows)
       /\ updateDesign (Scenario.change_design "d9" "pA" None None)
            Calls.as_alice Calls.lax st' = (st', inr (Some d)).
Proof.
  split; [reflexivity|]. split; [reflexivity|].
  assert (createDesign Calls.further_design Calls.as_alice Calls.strict
            Calls.store = (_, inr (Some _))) as Hrun
    by (vm_compute; reflexivity).
  eexists. eexists. split; [exact Hrun|]. split; [reflexivity|].
  destruct (@created_design_reads_back Calls.further_design Calls.as_alice
              Calls.strict Calls.store _ Scenario.alice _ eq_refl eq_refl
              Hrun) as (Hlist & Hread).
  split; [exact (Hlist Calls.lax None (or_introl eq_refl))|].
  split; [exact (Hlist Calls.lax (Cases.by_profile "pA")
                   (or_intror eq_refl))|].
  apply Hread; [reflexivity|reflexivity|]. repeat split.
Defined.


(** Alice deletes her second profile where the reference is not
    enforced: a second delete and an update of it find nothing. *)
Lemma deleted_profile_is_gone_witness :
  exists st' r,
    deleteProfile (Calls.remove "pB") Calls.as_alice Calls.lax
      Calls.lax_store = (st', inr (Some r))
    /\ deleteProfile (Calls.remove "pB") Calls.as_alice Calls.lax st'
       = (st', inl (ActionError NOT_FOUND))
    /\ updateProfile (Scenario.change_profile "pB" (Some "Initech") None)
         Calls.as_alice Calls.lax st'
       = (st', inl (ActionError NOT_FOUND)).
Proof.
  assert (deleteProfile (Calls.remove "pB") Calls.as_alice Calls.lax
            Calls.lax_store = (_, inr (Some _))) as Hrun
    by (vm_compute; reflexivity).
  eexists. eexists. split; [exact Hrun|].
  destruct (@deleted_profile_is_gone (Calls.remove "pB") Calls.as_alice
              Calls.lax Calls.lax Calls.lax_store _ _ Hrun)
    as [Hagain Hupdate].
  split; [exact Hagain|]. apply Hupdate. reflexivity.
Defined.

(** Alice makes her second profile the default, and her second design
    the primary one of pA: Bob's profile, her own profile pB's design and
    Bob's design are the rows they were. *)
Lemma updates_leave_other_rows_witness :
  context_user Calls.as_alice = Some Scenario.alice
  /\ (exists r st' res,
        In r (profiles Calls.store)
        /\ CardProfiles.id r = "pC"
        /\ CardProfiles.userId r <> user_id Scenario.alice
        /\ updateProfile (Scenario.change_profile "pB" None (Some true))
             Calls.as_alice Calls.strict Calls.store = (st', res)
        /\ In r (profiles st'))
  /\ (exists d st' res,
        In d (designs Calls.store)
        /\ CardDesigns.id d = "d3"
        /\ CardDesigns.profileId d <> "pA"
        /\ updateDesign (Scenario.change_design "d2" "pA" None (Some true))
             Calls.as_alice Calls.strict Calls.store = (st', res)
        /\ In d (designs st')).
Proof.
  destruct (@updates_leave_other_rows Calls.as_alice Calls.strict Calls.store
              Scenario.alice eq_refl) as [Hprofile Hdesign].
  split; [reflexivity|]. split.
  - assert (exists r, In r (profiles Calls.store)
                      /\ CardProfiles.id r = "pC"
                      /\ CardProfiles.userId r = "bob")
      as [r (Hin & Hid & Huser)].
    { eexists. split; [vm_compute; right; right; left; reflexivity|].
      split; reflexivity. }
    assert (updateProfile (Scenario.change_profile "pB" None (Some true))
              Calls.as_alice Calls.strict Calls.store = (_, _)) as Hrun
      by (vm_compute; reflexivity).
    assert (CardProfiles.userId r <> user_id Scenario.alice) as Hforeign
      by (rewrite Huser; discriminate).
    exists r. eexists. eexists. split; [exact Hin|]. split; [exact Hid|].
    split; [exact Hforeign|]. split; [exact Hrun|].
    apply (Hprofile _ _ _ r Hrun Hin).
    + rewrite Hid. discriminate.
    + right. right. exact Hforeign.
  - assert (exists d, In d (designs Calls.store)
                      /\ CardDesigns.id d = "d3"
                      /\ CardDesigns.profileId d = "pB")
      as [d (Hin & Hid & Hp)].
    { eexists. split; [vm_compute; right; right; left; reflexivity|].
      split; reflexivity. }
    assert (updateDesign (Scenario.change_design "d2" "pA" None (Some true))
              Calls.as_alice Calls.strict Calls.store = (_, _)) as Hrun
      by (vm_compute; reflexivity).
    assert (CardDesigns.profileId d <> "pA") as Hforeign
      by (rewrite Hp; discriminate).
    exists d. eexists. eexists. split; [exact Hin|]. split; [exact Hid|].
    split; [exact Hforeign|]. split; [exact Hrun|].
    apply (Hdesign _ _ _ d Hrun Hin).
    + rewrite Hid. discriminate.
    + right. left. exact Hforeign.
Defined.

(** Alice sends the same profile update twice, and the same design update
    twice: the second answer differs from the first in the date of the
    update only. *)
Lemma repeated_update_only_restamps_witness :
  context_user Calls.as_alice = Some Scenario.alice
  /\ pk_ok Calls.store = true
  /\ (exists st1 p,
        updateProfile (Scenario.change_profile "pB" (Some "Initech")
                         (Some true))
          Calls.as_alice Calls.strict Calls.store = (st1, inr (Some p))
        /\ exists st2 q,
             updateProfile (Scenario.change_profile "pB" (Some "Initech")
                              (Some true))
               Calls.as_alice Calls.lax st1 = (st2, inr (Some q))
             /\ q = CardProfiles.set_isDefault (CardProfiles.isDefault p)
                      (CardProfiles.updatedAt q) p)
  /\ (exists st1 d,
        updateDesign (Scenario.change_design "d2" "pA" (Some "Gradient")
                        (Some true))
          Calls.as_alice Calls.strict Calls.store = (st1, inr (Some d))
        /\ exists st2 q,
             updateDesign (Scenario.change_design "d2" "pA" (Some "Gradient")
                             (Some true))
               Calls.as_alice Calls.lax st1 = (st2, inr (Some q))
             /\ q = CardDesigns.set_isPrimaryDesign
                      (CardDesigns.isPrimaryDesign d)
                      (CardDesigns.updatedAt q) d).
Proof.
  split; [reflexivity|]. split; [reflexivity|]. split.
  - assert (updateProfile (Scenario.change_profile "pB" (Some "Initech")
                             (Some true))
              Calls.as_alice Calls.strict Calls.store
            = (_, inr (Some _))) as Hrun by (vm_compute; reflexivity).
    eexists. eexists. split; [exact Hrun|].
    exact (proj1 (@repeated_update_only_restamps Calls.as_alice Calls.strict
                    Calls.lax Calls.store _ Scenario.alice eq_refl eq_refl)
             _ _ Hrun).
  - assert (updateDesign (Scenario.change_design "d2" "pA" (Some "Gradient")
                            (Some true))
              Calls.as_alice Calls.strict Calls.store
            = (_, inr (Some _))) as Hrun by (vm_compute; reflexivity).
    eexists. eexists. split; [exact Hrun|].
    exact (proj2 (@repeated_update_only_restamps Calls.as_alice Calls.strict
                    Calls.lax Calls.store _ Scenario.alice eq_refl eq_refl)
             _ _ Hrun).
Defined.
